(** * College-Result-Analysis: the three ledger parsers

    A shallow embedding of [parser.py] (gazette pattern), [parser_nep.py]
    (NEP pattern) and [parser_sy.py] (second-year pattern), and the
    properties of the extraction pipeline proved about it.

    Conventions of the embedding.
    - A Python [str] is a [string]; text is 7-bit ASCII, and the character
      predicates ([isspace], [isdigit], [upper], the classes of the regular
      expressions) agree with Python's on code points below 128.
    - A [dict] with a fixed set of keys is a record; the subject map is a
      [gmap string string]; [None] is [None].
    - [re] is embedded as a backtracking matcher over the pattern syntax
      the parsers use; every pattern is written as in the source and
      compiled by [Re.compile].
    - A [try]/[except] is a computation in the [res] type whose [Raise]
      is caught where the source catches it.
    - A PDF document is the list of its pages, a page the text
      [extract_text] returns for each tolerance setting used ([None] and
      the empty text are both falsy and are not told apart). *)

From Stdlib Require Import Strings.String Strings.Ascii ZArith List Lia Bool Sorted.
From stdpp Require Import gmap strings.
Import ListNotations.
Open Scope string_scope.

(** ** Exceptions *)

Inductive exn : Type :=
| IndexError
| KeyError
| AttributeError.

Inductive res (A : Type) : Type :=
| Ok (a : A)
| Raise (e : exn).
Arguments Ok {A} a.
Arguments Raise {A} e.

#[global] Instance res_ret : MRet res := fun _ a => Ok a.

#[global] Instance res_bind : MBind res := fun _ _ f m =>
  match m with
  | Ok a => f a
  | Raise e => Raise e
  end.

(** [o] is the value of an expression that is [None] when absent; using it
    where a value is needed raises [e]. *)
Definition need {A : Type} (e : exn) (o : option A) : res A :=
  match o with
  | Some a => Ok a
  | None => Raise e
  end.

(** ** Python string and list primitives *)

Module PyStr.

Definition code (c : ascii) : N := N_of_ascii c.

Definition newline : ascii := ascii_of_N 10.

Definition between (lo hi : N) (c : ascii) : bool :=
  ((lo <=? code c) && (code c <=? hi))%N.

(** [c.isspace()]: tab, LF, VT, FF, CR, the four separators FS..US, space. *)
Definition isspace (c : ascii) : bool := between 9 13 c || between 28 32 c.

Definition isdigit (c : ascii) : bool := between 48 57 c.

Definition isupper (c : ascii) : bool := between 65 90 c.

Definition islower (c : ascii) : bool := between 97 122 c.

Definition isalnum (c : ascii) : bool := isdigit c || isupper c || islower c.

Definition upper_char (c : ascii) : ascii :=
  if islower c then ascii_of_N (code c - 32) else c.

Definition lower_char (c : ascii) : ascii :=
  if isupper c then ascii_of_N (code c + 32) else c.

Fixpoint upper (s : string) : string :=
  match s with
  | EmptyString => EmptyString
  | String c t => String (upper_char c) (upper t)
  end.

Definition is_empty (s : string) : bool :=
  match s with
  | EmptyString => true
  | String _ _ => false
  end.

(** [s.isdigit()]: not empty and digits only. *)
Fixpoint all_digits (s : string) : bool :=
  match s with
  | EmptyString => true
  | String c t => isdigit c && all_digits t
  end.

Definition str_isdigit (s : string) : bool := negb (is_empty s) && all_digits s.

(** Truthiness of a [str]. *)
Definition truthy (s : string) : bool := negb (is_empty s).

Fixpoint lstrip_by (p : ascii -> bool) (s : string) : string :=
  match s with
  | EmptyString => EmptyString
  | String c t => if p c then lstrip_by p t else s
  end.

Fixpoint rstrip_by (p : ascii -> bool) (s : string) : string :=
  match s with
  | EmptyString => EmptyString
  | String c t =>
      let t' := rstrip_by p t in
      if is_empty t' && p c then EmptyString else String c t'
  end.

(** [s.strip()] *)
Definition strip (s : string) : string := rstrip_by isspace (lstrip_by isspace s).

(** [s.rstrip(',')] *)
Definition rstrip_char (ch : ascii) (s : string) : string :=
  rstrip_by (Ascii.eqb ch) s.

(** [s.split()]: the maximal runs of non-whitespace characters.  [cur] is
    the token being read. *)
Fixpoint split_ws_from (cur : string) (s : string) : list string :=
  match s with
  | EmptyString => if is_empty cur then [] else [cur]
  | String c t =>
      if isspace c
      then (if is_empty cur then split_ws_from EmptyString t
            else cur :: split_ws_from EmptyString t)
      else split_ws_from (cur +:+ String c EmptyString) t
  end.

Definition split (s : string) : list string := split_ws_from EmptyString s.

(** [s.split(sep)] for a one-character separator: never empty. *)
Fixpoint split_char_from (sep : ascii) (cur : string) (s : string) : list string :=
  match s with
  | EmptyString => [cur]
  | String c t =>
      if Ascii.eqb c sep then cur :: split_char_from sep EmptyString t
      else split_char_from sep (cur +:+ String c EmptyString) t
  end.

Definition split_on (sep : ascii) (s : string) : list string :=
  split_char_from sep EmptyString s.

Definition lines (s : string) : list string := split_on newline s.

(** The string of one newline. *)
Definition nl : string := String newline EmptyString.

(** [sep.join(l)] *)
Fixpoint join (sep : string) (l : list string) : string :=
  match l with
  | [] => EmptyString
  | [x] => x
  | x :: t => x +:+ sep +:+ join sep t
  end.

Fixpoint startswith (p s : string) : bool :=
  match p, s with
  | EmptyString, _ => true
  | String a p', String b s' => Ascii.eqb a b && startswith p' s'
  | String _ _, EmptyString => false
  end.

(** [needle in hay] *)
Fixpoint contains (needle hay : string) : bool :=
  startswith needle hay ||
  match hay with
  | EmptyString => false
  | String _ t => contains needle t
  end.

(** [hay.find(needle)]: [None] stands for -1. *)
Fixpoint find (needle hay : string) : option nat :=
  if startswith needle hay then Some 0
  else
    match hay with
    | EmptyString => None
    | String _ t => S <$> find needle t
    end.

(** [s[:n]] for n >= 0 *)
Fixpoint take (n : nat) (s : string) : string :=
  match n, s with
  | S m, String c t => String c (take m t)
  | _, _ => EmptyString
  end.

(** [s.replace(old, new)] for a non-empty [old] (every call of the parsers
    passes a literal one): left to right, occurrences do not overlap.
    [skip] counts the characters of an occurrence still to be dropped. *)
Fixpoint replace_from (old new : string) (skip : nat) (s : string) : string :=
  match s with
  | EmptyString => EmptyString
  | String c t =>
      match skip with
      | S n => replace_from old new n t
      | O =>
          if startswith old s
          then new +:+ replace_from old new (String.length old - 1) t
          else String c (replace_from old new 0 t)
      end
  end.

Definition replace (old new s : string) : string := replace_from old new 0 s.

(** [x in l] for a list of strings. *)
Definition mem (x : string) (l : list string) : bool :=
  existsb (String.eqb x) l.

(** [l[i]] with Python's negative indices; [None] is an [IndexError]. *)
Definition index {A : Type} (l : list A) (i : Z) : option A :=
  let n := Z.of_nat (length l) in
  let j := if (i <? 0)%Z then (i + n)%Z else i in
  if ((0 <=? j) && (j <? n))%Z then nth_error l (Z.to_nat j) else None.

(** [l[lo:hi]] with Python's clamping of the bounds. *)
Definition slice {A : Type} (l : list A) (lo hi : Z) : list A :=
  let n := Z.of_nat (length l) in
  let norm i := if (i <? 0)%Z then Z.max 0 (i + n) else Z.min i n in
  firstn (Z.to_nat (norm hi - norm lo)) (skipn (Z.to_nat (norm lo)) l).

(** [l[i]] as a computation that may raise. *)
Definition at_ {A : Type} (l : list A) (i : Z) : res A :=
  match index l i with
  | Some x => Ok x
  | None => Raise IndexError
  end.

End PyStr.

(** ** Regular expressions: the fragment of [re] the parsers use *)

Module Re.

(** *** Character sets *)

Inductive cset : Type :=
| CChar (c : ascii)
| CRange (lo hi : ascii)
| CDigit                      (* \d *)
| CSpace                      (* \s *)
| CWord                       (* \w *)
| CDot                        (* . without DOTALL *)
| CAll                        (* . with DOTALL *)
| CNone
| CNot (s : cset)
| CUnion (a b : cset)
| CFold (s : cset).           (* s under IGNORECASE *)

Fixpoint cset_mem (s : cset) (c : ascii) : bool :=
  match s with
  | CChar d => Ascii.eqb c d
  | CRange lo hi => PyStr.between (PyStr.code lo) (PyStr.code hi) c
  | CDigit => PyStr.isdigit c
  | CSpace => PyStr.isspace c
  | CWord => PyStr.isalnum c || Ascii.eqb c "_"
  | CDot => negb (Ascii.eqb c PyStr.newline)
  | CAll => true
  | CNone => false
  | CNot a => negb (cset_mem a c)
  | CUnion a b => cset_mem a c || cset_mem b c
  | CFold a =>
      cset_mem a c || cset_mem a (PyStr.lower_char c) || cset_mem a (PyStr.upper_char c)
  end.

(** *** Patterns.  Every quantifier of the parsers' patterns applies to a
    single character or character set, so repetition is [Rep] over a set. *)

Inductive regex : Type :=
| Eps
| Cls (s : cset)
| Rep (greedy : bool) (s : cset) (lo : nat) (hi : option nat)
| Seq (a b : regex)
| Alt (a b : regex)
| Grp (n : nat) (a : regex)          (* the n-th capturing group *)
| Ahead (a : regex)                  (* (?=a) *)
| Bol (multiline : bool)             (* ^ *)
| Eol (multiline : bool).            (* $ *)

Record flags : Type := Flags {
  ignorecase : bool;
  multiline : bool;
  dotall : bool
}.

Definition NOFLAG : flags := Flags false false false.
Definition IGNORECASE : flags := Flags true false false.
Definition MULTILINE : flags := Flags false true false.
Definition DOTALL : flags := Flags false false true.
Definition MULTILINE_IGNORECASE : flags := Flags true true false.

(** *** Reading a pattern *)

Definition fold_if (fl : flags) (s : cset) : cset :=
  if ignorecase fl then CFold s else s.

(** The set an escape [\e] stands for; [None] for the escapes the parsers
    do not use (word boundaries, back-references and the like). *)
Definition escape (e : ascii) : option cset :=
  if Ascii.eqb e "s" then Some CSpace
  else if Ascii.eqb e "S" then Some (CNot CSpace)
  else if Ascii.eqb e "d" then Some CDigit
  else if Ascii.eqb e "D" then Some (CNot CDigit)
  else if Ascii.eqb e "w" then Some CWord
  else if Ascii.eqb e "W" then Some (CNot CWord)
  else if Ascii.eqb e "n" then Some (CChar PyStr.newline)
  else if Ascii.eqb e "t" then Some (CChar (ascii_of_N 9))
  else if Ascii.eqb e "r" then Some (CChar (ascii_of_N 13))
  else if PyStr.isalnum e then None
  else Some (CChar e).

(** The members of a set [[...]], read after the opening bracket (and the
    [^] of a negated set) up to the closing one. *)
Fixpoint parse_set (acc : cset) (l : list ascii) : option (cset * list ascii) :=
  match l with
  | [] => None
  | c :: t =>
      if Ascii.eqb c "]" then Some (acc, t)
      else if Ascii.eqb c "\" then
        match t with
        | e :: t' =>
            match escape e with
            | Some s => parse_set (CUnion acc s) t'
            | None => None
            end
        | [] => None
        end
      else
        match t with
        | d :: (h :: t') =>
            if Ascii.eqb d "-" && negb (Ascii.eqb h "]") then
              if Ascii.eqb h "\" then None
              else parse_set (CUnion acc (CRange c h)) t'
            else parse_set (CUnion acc (CChar c)) t
        | _ => parse_set (CUnion acc (CChar c)) t
        end
  end.

Definition digit_val (c : ascii) : nat := N.to_nat (PyStr.code c - 48).

Fixpoint parse_nat (acc : option nat) (l : list ascii) : option nat * list ascii :=
  match l with
  | c :: t =>
      if PyStr.isdigit c
      then parse_nat (Some (10 * default 0 acc + digit_val c)) t
      else (acc, l)
  | [] => (acc, l)
  end.

(** The quantifier that may follow an atom. *)
Inductive quant : Type :=
| QNone
| QBad
| QRep (lo : nat) (hi : option nat) (l : list ascii).

Definition parse_quant (l : list ascii) : quant :=
  match l with
  | c :: t =>
      if Ascii.eqb c "*" then QRep 0 None t
      else if Ascii.eqb c "+" then QRep 1 None t
      else if Ascii.eqb c "?" then QRep 0 (Some 1) t
      else if Ascii.eqb c "{" then
        match parse_nat None t with
        | (Some m, d :: t') =>
            if Ascii.eqb d "}" then QRep m (Some m) t'
            else if Ascii.eqb d "," then
              match parse_nat None t' with
              | (hi, e :: t'') => if Ascii.eqb e "}" then QRep m hi t'' else QBad
              | _ => QBad
              end
            else QBad
        | _ => QBad
        end
      else QNone
  | [] => QNone
  end.

(** An atom with the quantifier that follows it; a trailing [?] makes the
    quantifier lazy. *)
Definition quantified (a : regex) (l : list ascii) : option (regex * list ascii) :=
  match parse_quant l with
  | QNone => Some (a, l)
  | QBad => None
  | QRep lo hi t =>
      match a with
      | Cls s =>
          match t with
          | c :: t' =>
              if Ascii.eqb c "?" then Some (Rep false s lo hi, t')
              else Some (Rep true s lo hi, t)
          | [] => Some (Rep true s lo hi, t)
          end
      | _ => None
      end
  end.

Definition seq (a b : regex) : regex :=
  match b with
  | Eps => a
  | _ => Seq a b
  end.

(** [parse_alt] reads branches separated by [|]; [parse_seq] reads one
    branch, up to a [|], a closing parenthesis or the end.  [n] counts the
    capturing groups opened so far. *)
Fixpoint parse_alt (fuel : nat) (fl : flags) (n : nat) (l : list ascii)
  : option (regex * nat * list ascii) :=
  match fuel with
  | O => None
  | S f =>
      match parse_seq f fl n l with
      | Some (a, n1, c :: t) =>
          if Ascii.eqb c "|" then
            match parse_alt f fl n1 t with
            | Some (b, n2, t') => Some (Alt a b, n2, t')
            | None => None
            end
          else Some (a, n1, c :: t)
      | other => other
      end
  end
with parse_seq (fuel : nat) (fl : flags) (n : nat) (l : list ascii)
  : option (regex * nat * list ascii) :=
  match fuel with
  | O => None
  | S f =>
      let continue (a : regex) (n1 : nat) (t : list ascii) :=
        match quantified a t with
        | Some (a', t') =>
            match parse_seq f fl n1 t' with
            | Some (b, n2, t'') => Some (seq a' b, n2, t'')
            | None => None
            end
        | None => None
        end in
      match l with
      | [] => Some (Eps, n, l)
      | c :: t =>
          if Ascii.eqb c "|" || Ascii.eqb c ")" then Some (Eps, n, l)
          else if Ascii.eqb c "(" then
            match t with
            | q :: (k :: t') =>
                if Ascii.eqb q "?" then
                  match parse_alt f fl n t' with
                  | Some (a, n1, p :: t'') =>
                      if negb (Ascii.eqb p ")") then None
                      else if Ascii.eqb k ":" then continue a n1 t''
                      else if Ascii.eqb k "=" then continue (Ahead a) n1 t''
                      else None
                  | _ => None
                  end
                else
                  match parse_alt f fl (S n) t with
                  | Some (a, n1, p :: t'') =>
                      if Ascii.eqb p ")" then continue (Grp (S n) a) n1 t'' else None
                  | _ => None
                  end
            | _ => None
            end
          else if Ascii.eqb c "[" then
            match t with
            | h :: t' =>
                match (if Ascii.eqb h "^" then parse_set CNone t' else parse_set CNone t) with
                | Some (s, t'') =>
                    continue (Cls (fold_if fl (if Ascii.eqb h "^" then CNot s else s))) n t''
                | None => None
                end
            | [] => None
            end
          else if Ascii.eqb c "\" then
            match t with
            | e :: t' =>
                match escape e with
                | Some s => continue (Cls (fold_if fl s)) n t'
                | None => None
                end
            | [] => None
            end
          else if Ascii.eqb c "." then
            continue (Cls (if dotall fl then CAll else CDot)) n t
          else if Ascii.eqb c "^" then continue (Bol (multiline fl)) n t
          else if Ascii.eqb c "$" then continue (Eol (multiline fl)) n t
          else continue (Cls (fold_if fl (CChar c))) n t
      end
  end.

(** [re.compile(pattern, flags)]; a pattern outside the fragment compiles
    to the pattern that matches nothing. *)
Definition compile (fl : flags) (pattern : string) : regex :=
  let l := list_ascii_of_string pattern in
  match parse_alt (2 * length l + 2) fl 0 l with
  | Some (a, _, []) => a
  | _ => Cls CNone
  end.

(** *** Matching.  A matcher state is a position in the subject with the
    character before it, the text from it on, and the groups captured. *)

Record mstate : Type := MState {
  pos : nat;
  prev : option ascii;
  rest : list ascii;
  caps : list (nat * list ascii)
}.

Definition advance (c : ascii) (l : list ascii) (st : mstate) : mstate :=
  MState (S (pos st)) (Some c) l (caps st).

Definition set_cap (n : nat) (text : list ascii) (st : mstate) : mstate :=
  MState (pos st) (prev st) (rest st) ((n, text) :: caps st).

Definition with_caps (cs : list (nat * list ascii)) (st : mstate) : mstate :=
  MState (pos st) (prev st) (rest st) cs.

Fixpoint cap_lookup (n : nat) (cs : list (nat * list ascii)) : option (list ascii) :=
  match cs with
  | [] => None
  | (k, t) :: cs' => if Nat.eqb k n then Some t else cap_lookup n cs'
  end.

(** [^]: at the start of the subject, and after a newline in MULTILINE. *)
Definition at_bol (ml : bool) (st : mstate) : bool :=
  match prev st with
  | None => true
  | Some c => ml && Ascii.eqb c PyStr.newline
  end.

(** [$]: at the end of the subject or before its final newline, and before
    every newline in MULTILINE. *)
Definition at_eol (ml : bool) (st : mstate) : bool :=
  match rest st with
  | [] => true
  | c :: t => Ascii.eqb c PyStr.newline && (ml || match t with [] => true | _ => false end)
  end.

Definition below (hi : option nat) (n : nat) : bool :=
  match hi with
  | None => true
  | Some m => (n <? m)%nat
  end.

Section Matcher.
Context {R : Type}.

(** A greedy repetition takes as many characters as it can and gives them
    back one at a time; [n] characters are taken, [l] is [rest st]. *)
Fixpoint rep_greedy (s : cset) (lo : nat) (hi : option nat) (k : mstate -> option R)
    (n : nat) (l : list ascii) (st : mstate) : option R :=
  let stop := if (lo <=? n)%nat then k st else None in
  match l with
  | c :: l' =>
      if cset_mem s c && below hi n then
        match rep_greedy s lo hi k (S n) l' (advance c l' st) with
        | Some r => Some r
        | None => stop
        end
      else stop
  | [] => stop
  end.

(** A lazy repetition stops as soon as the continuation succeeds. *)
Fixpoint rep_lazy (s : cset) (lo : nat) (hi : option nat) (k : mstate -> option R)
    (n : nat) (l : list ascii) (st : mstate) : option R :=
  let more :=
    match l with
    | c :: l' =>
        if cset_mem s c && below hi n
        then rep_lazy s lo hi k (S n) l' (advance c l' st)
        else None
    | [] => None
    end in
  if (lo <=? n)%nat then
    match k st with
    | Some r => Some r
    | None => more
    end
  else more.

End Matcher.

(** The backtracking matcher, in continuation-passing style: [k] is what
    remains to be matched.  A look-ahead is atomic and keeps its groups. *)
Fixpoint mt (R : Type) (r : regex) (st : mstate) (k : mstate -> option R) : option R :=
  match r with
  | Eps => k st
  | Cls s =>
      match rest st with
      | c :: l' => if cset_mem s c then k (advance c l' st) else None
      | [] => None
      end
  | Rep true s lo hi => rep_greedy s lo hi k 0 (rest st) st
  | Rep false s lo hi => rep_lazy s lo hi k 0 (rest st) st
  | Seq a b => mt R a st (fun st1 => mt R b st1 k)
  | Alt a b =>
      match mt R a st k with
      | Some x => Some x
      | None => mt R b st k
      end
  | Grp n a =>
      mt R a st (fun st1 => k (set_cap n (firstn (pos st1 - pos st) (rest st)) st1))
  | Ahead a =>
      match mt mstate a st Some with
      | Some st1 => k (with_caps (caps st1) st)
      | None => None
      end
  | Bol ml => if at_bol ml st then k st else None
  | Eol ml => if at_eol ml st then k st else None
  end.

(** *** Match objects *)

Record match_obj : Type := Match {
  m_start : nat;
  m_end : nat;
  m_text : list ascii;                 (* group 0 *)
  m_caps : list (nat * list ascii)
}.

(** [m.group(n)] for n >= 1: [None] when the group took no part. *)
Definition group (m : match_obj) (n : nat) : option string :=
  string_of_list_ascii <$> cap_lookup n (m_caps m).

Definition group0 (m : match_obj) : string := string_of_list_ascii (m_text m).

(** One attempt at position [p]: the whole pattern, then the top-level
    acceptance test (a match may not be empty where [must_advance]). *)
Definition match_here (r : regex) (must_advance : bool) (p : nat) (pv : option ascii)
    (l : list ascii) : option match_obj :=
  match mt mstate r (MState p pv l [])
          (fun st => if must_advance && (pos st =? p)%nat then None else Some st) with
  | Some st => Some (Match p (pos st) (firstn (pos st - p) l) (caps st))
  | None => None
  end.

(** The leftmost match starting at [p] or later; [must_advance] holds for
    the first attempt only. *)
Fixpoint search_at (r : regex) (must_advance : bool) (p : nat) (pv : option ascii)
    (l : list ascii) : option match_obj :=
  match match_here r must_advance p pv l with
  | Some m => Some m
  | None =>
      match l with
      | [] => None
      | c :: l' => search_at r false (S p) (Some c) l'
      end
  end.

Definition char_before (l : list ascii) (p : nat) : option ascii :=
  match p with
  | O => None
  | S q => nth_error l q
  end.

Definition search_from (r : regex) (must_advance : bool) (p : nat) (l : list ascii)
  : option match_obj :=
  search_at r must_advance p (char_before l p) (skipn p l).

(** [re.search(pattern, s, flags)] *)
Definition search (fl : flags) (pattern : string) (s : string) : option match_obj :=
  search_from (compile fl pattern) false 0 (list_ascii_of_string s).

(** [re.match(pattern, s, flags)] *)
Definition match_ (fl : flags) (pattern : string) (s : string) : option match_obj :=
  match_here (compile fl pattern) false 0 None (list_ascii_of_string s).

(** The successive matches [finditer], [findall], [split] and [sub] walk
    through: each search starts where the previous match ended, and must
    advance when that match was empty.  Every round moves on or sets
    [must_advance], so [2 * length l + 2] rounds exhaust the subject. *)
Fixpoint matches_from (fuel : nat) (r : regex) (must_advance : bool) (p : nat)
    (l : list ascii) : list match_obj :=
  match fuel with
  | O => []
  | S f =>
      match search_from r must_advance p l with
      | Some m => m :: matches_from f r (m_end m =? m_start m)%nat (m_end m) l
      | None => []
      end
  end.

Definition finditer (fl : flags) (pattern : string) (s : string) : list match_obj :=
  let l := list_ascii_of_string s in
  matches_from (2 * length l + 2) (compile fl pattern) false 0 l.

(** The text between the matches, each followed by the given pieces of the
    match; [last] is where the previous match ended. *)
Fixpoint pieces (after_match : match_obj -> list string) (l : list ascii) (last : nat)
    (ms : list match_obj) : list string :=
  match ms with
  | [] => [string_of_list_ascii (skipn last l)]
  | m :: ms' =>
      string_of_list_ascii (firstn (m_start m - last) (skipn last l))
      :: (after_match m ++ pieces after_match l (m_end m) ms')%list
  end.

(** [re.split(pattern, s)] for a pattern without groups. *)
Definition split (fl : flags) (pattern : string) (s : string) : list string :=
  pieces (fun _ => []) (list_ascii_of_string s) 0 (finditer fl pattern s).

(** [re.split(pattern, s)] for a pattern that is one capturing group: the
    separators are kept. *)
Definition split_keep (fl : flags) (pattern : string) (s : string) : list string :=
  pieces (fun m => [default EmptyString (group m 1)])
         (list_ascii_of_string s) 0 (finditer fl pattern s).

(** [re.sub(pattern, repl, s)] for a literal replacement. *)
Definition sub (fl : flags) (pattern : string) (repl : string) (s : string) : string :=
  PyStr.join repl (split fl pattern s).

(** *** What a match is: the relation the matcher computes.  [Sem r st st']
    holds when [r] matches the subject from state [st] to state [st']. *)

Inductive Steps (s : cset) : nat -> mstate -> mstate -> Prop :=
| Steps_O st : Steps s 0 st st
| Steps_S n c l st st' :
    rest st = c :: l -> cset_mem s c = true ->
    Steps s n (advance c l st) st' -> Steps s (S n) st st'.

Inductive Sem : regex -> mstate -> mstate -> Prop :=
| Sem_Eps st : Sem Eps st st
| Sem_Cls s c l st :
    rest st = c :: l -> cset_mem s c = true -> Sem (Cls s) st (advance c l st)
| Sem_Rep g s lo hi n st st' :
    Steps s n st st' -> lo <= n -> Sem (Rep g s lo hi) st st'
| Sem_Seq a b st st1 st2 : Sem a st st1 -> Sem b st1 st2 -> Sem (Seq a b) st st2
| Sem_Alt_l a b st st' : Sem a st st' -> Sem (Alt a b) st st'
| Sem_Alt_r a b st st' : Sem b st st' -> Sem (Alt a b) st st'
| Sem_Grp n a st st1 :
    Sem a st st1 ->
    Sem (Grp n a) st (set_cap n (firstn (pos st1 - pos st) (rest st)) st1)
| Sem_Ahead a st st1 : Sem a st st1 -> Sem (Ahead a) st (with_caps (caps st1) st)
| Sem_Bol ml st : at_bol ml st = true -> Sem (Bol ml) st st
| Sem_Eol ml st : at_eol ml st = true -> Sem (Eol ml) st st.

(** [m] is a match of [r] somewhere in some subject. *)
Definition Matched (r : regex) (m : match_obj) : Prop :=
  exists st0 st', caps st0 = [] /\ Sem r st0 st' /\ m_caps m = caps st'.

(** Group [n] lies on every path through [r]. *)
Fixpoint sets (n : nat) (r : regex) : bool :=
  match r with
  | Seq a b => sets n a || sets n b
  | Alt a b => sets n a && sets n b
  | Grp k a => Nat.eqb k n || sets n a
  | Ahead a => sets n a
  | _ => false
  end.

(** The pattern ends in group [n], a repetition of at least [lo]
    characters of [s]. *)
Fixpoint last_group (r : regex) : option (nat * cset * nat) :=
  match r with
  | Seq _ b => last_group b
  | Grp n (Rep _ s lo _) => Some (n, s, lo)
  | _ => None
  end.

End Re.

(** ** Documents and result envelopes *)

Module Doc.

(** The settings [extract_text] is called with. *)
Inductive tolerance : Type :=
| Plain          (* extract_text() *)
| X2             (* extract_text(x_tolerance=2) *)
| X1_5           (* extract_text(x_tolerance=1.5) *)
| X3Y3.          (* extract_text(x_tolerance=3, y_tolerance=3) *)

Record page : Type := Page { extract_text : tolerance -> string }.

(** What [pdfplumber.open(pdf_path)] gives: the pages, or an exception
    whose text is [why]. *)
Inductive document : Type :=
| Unreadable (why : string)
| Readable (pages : list page).

(** [pdf.pages[0]] *)
Definition first_page (pages : list page) : res page := PyStr.at_ pages 0.

Record DocumentMetadata : Type := Metadata {
  pun_code : option string;
  course_name : string;
  college_name : string
}.

Definition set_pun_code (v : option string) (m : DocumentMetadata) : DocumentMetadata :=
  Metadata v (course_name m) (college_name m).
Definition set_course_name (v : string) (m : DocumentMetadata) : DocumentMetadata :=
  Metadata (pun_code m) v (college_name m).
Definition set_college_name (v : string) (m : DocumentMetadata) : DocumentMetadata :=
  Metadata (pun_code m) (course_name m) v.

(** The dictionary [main] returns: with [success] true it has the keys
    [college_info] and [student_data], with [success] false the key
    [error] only. *)
Inductive envelope (S : Type) : Type :=
| Success (college_info : DocumentMetadata) (student_data : list S)
| Failure (error : string).
Arguments Success {S} college_info student_data.
Arguments Failure {S} error.

Definition success {S : Type} (e : envelope S) : bool :=
  match e with
  | Success _ _ => true
  | Failure _ => false
  end.

(** [result.get('student_data')], read as a list. *)
Definition student_data {S : Type} (e : envelope S) : list S :=
  match e with
  | Success _ l => l
  | Failure _ => []
  end.

End Doc.

(** The statements of a [try] block that each end in one assignment to the
    dictionary [m]: the first that raises ends the block, and [m] is as the
    statements before it left it. *)
Fixpoint try_steps {M : Type} (steps : list (M -> res M)) (m : M) : M :=
  match steps with
  | [] => m
  | f :: fs =>
      match f m with
      | Ok m' => try_steps fs m'
      | Raise _ => m
      end
  end.

(** [m.group(n)] where a string is needed.  The groups the parsers read
    take part in every match of their pattern ([group_always_set] below),
    so the default is never used. *)
Definition group_text (m : Re.match_obj) (n : nat) : string :=
  default EmptyString (Re.group m n).

(** The marks row of a subject, as [parser_sy] and [parser_nep] build it. *)
Record subject_row : Type := SubjectRow {
  code : string; name : string;
  p_int : string; int_m : string;
  p_ext : string; ext_m : string;
  p_pr : string; pr_m : string;
  total : string; crd : string; ern : string;
  grd : string; gp : string; cp : string
}.

(** ** parser_sy.py: the second-year pattern *)

Module parser_sy.

Definition unknown (m : Doc.DocumentMetadata) : bool :=
  String.eqb (Doc.college_name m) "Unknown".

(** The text of the first two pages. *)
Definition header_text (pdf : list Doc.page) : string :=
  String.concat EmptyString (map (fun p => Doc.extract_text p Doc.X2) (firstn 2 pdf)).

Definition pun_match (text : string) : option Re.match_obj :=
  Re.search Re.IGNORECASE "Puncode\s*:\s*([A-Z]{4}\d{6,10})" text.

Definition course_match (text : string) : option Re.match_obj :=
  Re.search Re.IGNORECASE
    "((?:BACHELOR|MASTER)\s+OF\s+[\s\S]*?)(?=\s*\((?:REV|20\d{2})|\s*\(?\d{4}\s*Pattern|College Ledger|\n\n|$)"
    text.

Definition college_match (text : string) : option Re.match_obj :=
  Re.search Re.IGNORECASE "Puncode\s*:.*?\]\s*(.*?)(?=\n|$)" text.

Definition fallback (text : string) : option Re.match_obj :=
  Re.search Re.NOFLAG
    "\[\d{4}\]\s*([A-Z][A-Z\s,]+(?:COLLEGE|INSTITUTE|ARTS|SCIENCE|COMMERCE).*?)(?=\n|$)" text.

Definition extract_header_metadata (pdf : list Doc.page) : Doc.DocumentMetadata :=
  let metadata := Doc.Metadata (Some "Unknown") "Unknown" "Unknown" in
  if PyStr.is_empty (header_text pdf) then metadata else
  try_steps
    [ (* 1. PUN code *)
      (fun md =>
         match pun_match (header_text pdf) with
         | Some m => Ok (Doc.set_pun_code (Some (PyStr.strip (group_text m 1))) md)
         | None => Ok md
         end);
      (* 2. course name, collapsed to one line *)
      (fun md =>
         match course_match (header_text pdf) with
         | Some m =>
             Ok (Doc.set_course_name
                   (PyStr.strip (Re.sub Re.NOFLAG "\s+" " " (group_text m 1))) md)
         | None => Ok md
         end);
      (* 3. college name, without a trailing comma *)
      (fun md =>
         match college_match (header_text pdf) with
         | Some m =>
             Ok (Doc.set_college_name
                   (PyStr.rstrip_char "," (PyStr.strip (group_text m 1))) md)
         | None => Ok md
         end);
      (fun md =>
         if unknown md || negb (PyStr.truthy (Doc.college_name md)) then
           match fallback (header_text pdf) with
           | Some m =>
               Ok (Doc.set_college_name
                     (PyStr.rstrip_char "," (PyStr.strip (group_text m 1))) md)
           | None => Ok md
           end
         else Ok md) ]
    metadata.

(** [metadata_backup]: every value starts as [None]. *)
Record metadata_backup : Type := Backup {
  b_pun_code : option string;
  b_course_name : option string;
  b_college_name : option string
}.

(** The variables of the scan of [extract_subject_mapping]. *)
Record scan : Type := Scan {
  mapping : gmap string string;
  backup : metadata_backup;
  capture : bool
}.

Inductive flow : Type := Continue | Break.

Definition scan_backup (line : string) (b : metadata_backup) : metadata_backup :=
  let b :=
    if PyStr.contains "Puncode" line then
      let b :=
        match Re.search Re.IGNORECASE "Puncode\s*:\s*([A-Z]{4}\d+)" line with
        | Some pun_m =>
            Backup (Some (PyStr.strip (group_text pun_m 1))) (b_course_name b) (b_college_name b)
        | None => b
        end in
      match Re.search Re.NOFLAG "\]\s*(.*?)(?=\n|$)" line with
      | Some coll_m =>
          Backup (b_pun_code b) (b_course_name b)
                 (Some (PyStr.rstrip_char "," (PyStr.strip (group_text coll_m 1))))
      | None => b
      end
    else b in
  if PyStr.contains "BACHELOR" (PyStr.upper line) || PyStr.contains "MASTER" (PyStr.upper line) then
    match Re.search Re.IGNORECASE
            "((?:BACHELOR|MASTER)\s+OF\s+.*?)(?=\s*\((?:REV|20\d{2})|\s*Pattern|\n|$)" line with
    | Some course_m =>
        Backup (b_pun_code b) (Some (PyStr.strip (group_text course_m 1))) (b_college_name b)
    | None => b
    end
  else b.

(** The body of the loop over the lines of a page. *)
Definition scan_line (line : string) (st : scan) : scan * flow :=
  let b := scan_backup line (backup st) in
  if PyStr.contains "Paper List" line then (Scan (mapping st) b true, Continue)
  else if PyStr.contains "Semester:" line then (Scan (mapping st) b (capture st), Continue)
  else if PyStr.contains "PRN:" line then (Scan (mapping st) b false, Break)
  else if capture st then
    match Re.match_ Re.NOFLAG "^\s*([A-Z0-9-]{3,10})\s+(.+)$" (PyStr.strip line) with
    | Some m =>
        let code := group_text m 1 in
        let name := group_text m 2 in
        let clean_name := Re.sub Re.NOFLAG "[:\-\s!]+$" "" (PyStr.strip name) in
        (Scan (<[PyStr.strip code := clean_name]> (mapping st)) b true, Continue)
    | None => (Scan (mapping st) b true, Continue)
    end
  else (Scan (mapping st) b false, Continue).

Fixpoint scan_lines (lines : list string) (st : scan) : scan :=
  match lines with
  | [] => st
  | line :: lines' =>
      match scan_line line st with
      | (st', Continue) => scan_lines lines' st'
      | (st', Break) => st'
      end
  end.

Fixpoint scan_pages (pages : list Doc.page) (st : scan) : scan :=
  match pages with
  | [] => st
  | p :: pages' =>
      let text := Doc.extract_text p Doc.Plain in
      if PyStr.is_empty text then scan_pages pages' st
      else scan_pages pages' (scan_lines (PyStr.lines text) (Scan (mapping st) (backup st) false))
  end.

Definition extract_subject_mapping (pdf : list Doc.page)
  : gmap string string * metadata_backup :=
  let st := scan_pages (firstn 5 pdf) (Scan ∅ (Backup None None None) false) in
  (mapping st, backup st).

Definition split_prefix_marks (val : string) : string * string :=
  let val :=
    PyStr.strip (PyStr.replace "#" "" (PyStr.replace "$" "" (PyStr.replace "FFF" "" val))) in
  let body : res (option (string * string)) :=
    if PyStr.mem val ["---"; "-"; "AB"; "AA"; "AAA"] then Ok (Some ("-", "-"))
    else if PyStr.contains " " val then
      a ← PyStr.at_ (PyStr.split val) 0;
      b ← PyStr.at_ (PyStr.split val) 1;
      Ok (Some (a, b))
    else
      match val with
      | String c t =>
          if negb (PyStr.isdigit c) then Ok (Some (String c EmptyString, t)) else Ok None
      | EmptyString => Ok None
      end in
  match body with
  | Ok (Some r) => r
  | _ => (EmptyString, val)
  end.

Definition valid_grades : list string :=
  ["O"; "A+"; "A"; "B+"; "B"; "C"; "D"; "F"; "P"; "AB"; "FAIL"].

Definition len {A : Type} (l : list A) : Z := Z.of_nat (length l).

(** The right-to-left scan for the grade: [parts[-i]] for [i] in [range]. *)
Fixpoint find_grade (parts : list string) (range : list Z) : res (option (Z * string)) :=
  match range with
  | [] => Ok None
  | i :: range' =>
      if (i >=? len parts)%Z then Ok None
      else
        g ← PyStr.at_ parts (- i)%Z;
        if PyStr.mem g valid_grades then Ok (Some ((len parts - i)%Z, g))
        else find_grade parts range'
  end.

(** The loop that joins a prefix symbol with the mark that follows it. *)
Fixpoint merge_columns (marks_tokens : list string) : list string :=
  match marks_tokens with
  | [] => []
  | t :: rest =>
      if PyStr.mem t ["---"; "AAA"; "AA"] then t :: merge_columns rest
      else
        match rest with
        | u :: rest' =>
            if PyStr.mem t ["P"; "*"; "~"; "#"; "$"; "@"]
            then (t +:+ " " +:+ u) :: merge_columns rest'
            else t :: merge_columns rest
        | [] => t :: merge_columns rest
        end
  end.

(** [while len(cleaned_columns) < 3: cleaned_columns.append("---")] *)
Definition pad3 (cleaned_columns : list string) : list string :=
  (cleaned_columns ++ repeat "---" (3 - length cleaned_columns))%list.

(** The lines [parse_marks_row] ignores: headers and profile tags. *)
Definition ignored (line : string) : bool :=
  PyStr.contains "CODE" (PyStr.upper line)
  || PyStr.contains "NAME:" (PyStr.upper line)
  || PyStr.contains "PRN:" (PyStr.upper line).

(** The body of [parse_marks_row] from [parts = line.split()] on. *)
Definition row_of_parts (parts : list string) (subject_map : gmap string string)
  : res (option subject_row) :=
  if (len parts <? 6)%Z then Ok None else
  found ← find_grade parts [1; 2; 3; 4; 5; 6]%Z;
  match found with
  | None => Ok None
  | Some (grade_idx, grade_val) =>
      ern ← PyStr.at_ parts (grade_idx - 1)%Z;
      crd ← PyStr.at_ parts (grade_idx - 2)%Z;
      p1 ← PyStr.at_ parts (grade_idx - 3)%Z;
      p2 ← PyStr.at_ parts (grade_idx - 4)%Z;
      let '(total, marks_end_idx) :=
        if PyStr.mem p1 ["FFF"; "FAIL"; "AB"; "AA"; "$"; "#"] then (p2, (grade_idx - 4)%Z)
        else if PyStr.contains "FFF" p1 then (PyStr.replace "FFF" "" p1, (grade_idx - 3)%Z)
        else (p1, (grade_idx - 3)%Z) in
      gp ← (if (grade_idx + 1 <? len parts)%Z then PyStr.at_ parts (grade_idx + 1)%Z else Ok "0");
      cp ← (if (grade_idx + 2 <? len parts)%Z then PyStr.at_ parts (grade_idx + 2)%Z else Ok "0");
      code0 ← PyStr.at_ parts 0;
      let code := PyStr.strip (PyStr.replace ":" "" code0) in
      let name := default "Subject Name Not Found" (subject_map !! code) in
      let marks_tokens := PyStr.slice parts 1 marks_end_idx in
      let cleaned_columns := pad3 (merge_columns marks_tokens) in
      c0 ← PyStr.at_ cleaned_columns 0;
      c1 ← PyStr.at_ cleaned_columns 1;
      c2 ← PyStr.at_ cleaned_columns 2;
      let '(p_int, int_m) := split_prefix_marks c0 in
      let '(p_ext, ext_m) := split_prefix_marks c1 in
      let '(p_pr, pr_m) := split_prefix_marks c2 in
      Ok (Some (SubjectRow code name p_int int_m p_ext ext_m p_pr pr_m
                           total crd ern grade_val gp cp))
  end.

(** [None] for a line that is not a subject row, and for one on which the
    body raised. *)
Definition parse_marks_row (line : string) (subject_map : gmap string string)
  : option subject_row :=
  if ignored line then None
  else
    match row_of_parts (PyStr.split line) subject_map with
    | Ok r => r
    | Raise _ => None
    end.

(** The student dictionary.  The keys [sem{d}_subjects] and
    [sem{d}_summary] are addressed through the semester digit [d] read
    from the block, so they are kept as two maps from [d]: the first has
    the keys 1 to 4 from the start, the second gains a key by assignment. *)
Record student : Type := Student {
  sem_subjects : gmap string (list subject_row);
  sem_summary : gmap string string;
  full_name : string;
  seat_no : string;
  prn : string;
  mother_name : string;
  result : string;
  fy_total_msg : string;
  total_marks : string;
  dashboard_sgpa : string;
  course_name : string
}.

Definition no_subjects : gmap string (list subject_row) :=
  <["1" := []]> (<["2" := []]> (<["3" := []]> (<["4" := []]> ∅))).

Definition no_summary : gmap string string :=
  <["1" := ""]> (<["2" := ""]> (<["3" := ""]> (<["4" := ""]> ∅))).

(** [student[f'sem{d}_subjects'].append(row)] *)
Definition append_row (d : string) (row : subject_row)
    (subs : gmap string (list subject_row)) : res (gmap string (list subject_row)) :=
  match subs !! d with
  | Some l => Ok (<[d := (l ++ [row])%list]> subs)
  | None => Raise KeyError
  end.

(** Phase 7, the lines of one part under semester [d]. *)
Fixpoint sem_lines (subject_map : gmap string string) (d : string) (lines : list string)
    (st : gmap string (list subject_row) * gmap string string)
  : res (gmap string (list subject_row) * gmap string string) :=
  match lines with
  | [] => Ok st
  | line :: lines' =>
      subs ← match parse_marks_row line subject_map with
             | Some row => append_row d row (fst st)
             | None => Ok (fst st)
             end;
      let sums :=
        if PyStr.contains "SGPA" line
        then <[d := PyStr.strip (Re.sub Re.NOFLAG "Page\s*\d+" "" line)]> (snd st)
        else snd st in
      sem_lines subject_map d lines' (subs, sums)
  end.

(** Phase 7, the parts [re.split] cut the block into. *)
Fixpoint sem_parts (subject_map : gmap string string) (current_sem : option string)
    (parts : list string) (st : gmap string (list subject_row) * gmap string string)
  : res (gmap string (list subject_row) * gmap string string) :=
  match parts with
  | [] => Ok st
  | part :: parts' =>
      match Re.match_ Re.NOFLAG "SEMESTER:\s*(\d)" (PyStr.strip part) with
      | Some header_match =>
          sem_parts subject_map (Some (group_text header_match 1)) parts' st
      | None =>
          match current_sem with
          | Some d =>
              if PyStr.truthy d then
                st' ← sem_lines subject_map d (PyStr.lines part) st;
                sem_parts subject_map current_sem parts' st'
              else sem_parts subject_map current_sem parts' st
          | None => sem_parts subject_map current_sem parts' st
          end
      end
  end.

Definition fail_grades : list string := ["F"; "FFF"; "FAIL"; "AB"; "Absent"].

(** Phase 8: the grades of the four semesters, in order. *)
Definition all_grades (subs : gmap string (list subject_row)) : list string :=
  flat_map (fun sem => map grd (default [] (subs !! sem))) ["1"; "2"; "3"; "4"].

Definition infer_result (grades : list string) : string :=
  if existsb (fun g => PyStr.mem g fail_grades) grades then "FAIL" else "PASS".

(** Phase 9: the first label, from Fourth down to First, with an SGPA
    figure in the block. *)
Definition sgpa_m (label : string) (block : string) : option Re.match_obj :=
  Re.search Re.IGNORECASE (label +:+ " Semester SGPA\s*:\s*([\d\.]+)") block.

Fixpoint first_sgpa (labels : list string) (block : string) : string :=
  match labels with
  | [] => "-"
  | label :: labels' =>
      match sgpa_m label block with
      | Some m => group_text m 1
      | None => first_sgpa labels' block
      end
  end.

Definition sgpa_labels : list string := ["Fourth"; "Third"; "Second"; "First"].

(** The explicit result statement of a block (phase 5). *)
Definition res_match (block : string) : option Re.match_obj :=
  Re.search Re.IGNORECASE "Second Year Result\s*:\s*(.*?)(?=\s+Total|\n)" block.

Definition explicit_result (block : string) : option string :=
  match res_match block with
  | Some m => Some (PyStr.upper (PyStr.strip (group_text m 1)))
  | None => None
  end.

(** Phase 7 on a block. *)
Definition scan_block (subject_map : gmap string string) (block : string)
  : res (gmap string (list subject_row) * gmap string string) :=
  sem_parts subject_map None (Re.split_keep Re.NOFLAG "(SEMESTER:\s*\d)" block)
    (no_subjects, no_summary).

Definition prn_m (block : string) : option Re.match_obj :=
  Re.search Re.NOFLAG "PRN:\s*(\d+)" block.

(** The body of the loop of [main] over the blocks, from the creation of
    the student dictionary on: the student to append, [None] when the PRN
    was not found. *)
Definition parse_block (subject_map : gmap string string) (metadata : Doc.DocumentMetadata)
    (block : string) : res (option student) :=
  let prn :=
    match prn_m block with
    | Some m => group_text m 1
    | None => "-"
    end in
  let seat_no :=
    match Re.search Re.NOFLAG "SEAT NO\.:\s*(\d+)" block with
    | Some seat_m => group_text seat_m 1
    | None => "-"
    end in
  let full_name :=
    match Re.search Re.NOFLAG "NAME:\s*(.*?)(?=\s+Mother|\s+PRN|$)" block with
    | Some name_m => PyStr.strip (group_text name_m 1)
    | None => "Unknown"
    end in
  let mother_name :=
    match Re.search Re.NOFLAG "Mother\s*-\s*(\w+)" block with
    | Some mother_m => group_text mother_m 1
    | None => "-"
    end in
  let result := explicit_result block in
  let fy_total_msg :=
    match Re.search Re.NOFLAG "(Total Credits Earned\s*:\s*[\d\/]+)" block with
    | Some cred_match => group_text cred_match 1
    | None => ""
    end in
  st ← scan_block subject_map block;
  let result :=
    match result with
    | Some r => r
    | None => infer_result (all_grades (fst st))
    end in
  let current_sgpa :=
    if PyStr.contains "PASS" (PyStr.upper result) then first_sgpa sgpa_labels block else "-" in
  let student :=
    Student (fst st) (snd st) full_name seat_no prn mother_name result fy_total_msg
            current_sgpa current_sgpa (Doc.course_name metadata) in
  if negb (String.eqb prn "-") then Ok (Some student) else Ok None.

(** One round of the loop over the blocks: the metadata as the round
    leaves it, and the student it appends, if any.  A round that raises
    is skipped. *)
Definition block_round (subject_map : gmap string string) (metadata : Doc.DocumentMetadata)
    (block : string) : Doc.DocumentMetadata * option student :=
  if negb (PyStr.contains "SEMESTER" block) then (metadata, None)
  else
    let metadata :=
      if unknown metadata then
        match Re.search Re.IGNORECASE "Puncode\s*:.*?\d+\]\s*(.*?)(?=\n|$)" block with
        | Some local_coll => Doc.set_college_name (PyStr.strip (group_text local_coll 1)) metadata
        | None => metadata
        end
      else metadata in
    match parse_block subject_map metadata block with
    | Ok o => (metadata, o)
    | Raise _ => (metadata, None)
    end.

Fixpoint blocks_loop (subject_map : gmap string string) (blocks : list string)
    (metadata : Doc.DocumentMetadata) (all_students : list student)
  : Doc.DocumentMetadata * list student :=
  match blocks with
  | [] => (metadata, all_students)
  | block :: blocks' =>
      match block_round subject_map metadata block with
      | (metadata', Some s) => blocks_loop subject_map blocks' metadata' (all_students ++ [s])%list
      | (metadata', None) => blocks_loop subject_map blocks' metadata' all_students
      end
  end.

(** A value of the header metadata that is "Unknown" is taken from the
    backup when the backup has one. *)
Definition restore (v : string) (b : option string) : string :=
  match b with
  | Some w => if String.eqb v "Unknown" && negb (String.eqb w "Unknown") then w else v
  | None => v
  end.

Definition restore_metadata (m : Doc.DocumentMetadata) (b : metadata_backup)
  : Doc.DocumentMetadata :=
  Doc.Metadata
    (match Doc.pun_code m, b_pun_code b with
     | Some v, Some w => Some (restore v (Some w))
     | v, _ => v
     end)
    (restore (Doc.course_name m) (b_course_name b))
    (restore (Doc.college_name m) (b_college_name b)).

Definition main (pdf_path : Doc.document) : Doc.envelope student :=
  match pdf_path with
  | Doc.Unreadable e => Doc.Failure ("SY Parser Critical Failure: " +:+ e)
  | Doc.Readable pages =>
      let '(subject_map, backup_meta) := extract_subject_mapping pages in
      let metadata := restore_metadata (extract_header_metadata pages) backup_meta in
      let full_text := PyStr.join PyStr.nl (map (fun p => Doc.extract_text p Doc.X2) pages) in
      let student_blocks := Re.split Re.NOFLAG "(?=PRN:\s*\d+)" full_text in
      let '(metadata, all_students) := blocks_loop subject_map student_blocks metadata [] in
      Doc.Success metadata all_students
  end.

End parser_sy.

(** ** parser_nep.py: the NEP pattern *)

Module parser_nep.

Definition pun_match (text : string) : option Re.match_obj :=
  Re.search Re.IGNORECASE "Puncode\s*:\s*([A-Z]{4}\d{6,10})" text.

Definition course_match (text : string) : option Re.match_obj :=
  Re.search Re.DOTALL "PUNE-\d{3}\s*\d{3}\s*\n(.*?)\nCollege Ledger" text.

Definition course_fallback (text : string) : option Re.match_obj :=
  Re.search Re.IGNORECASE "(BACHELOR|MASTER)\s+OF\s+.*?(?=\n)" text.

Definition college_match (text : string) : option Re.match_obj :=
  Re.search Re.NOFLAG "\[\d{4}\]\s*(.*?)(?=\n|\[)" text.

(** The text the header is read from; empty when the document has no
    first page. *)
Definition header_text (pdf : list Doc.page) : string :=
  match Doc.first_page pdf with
  | Ok p => Doc.extract_text p Doc.Plain
  | Raise _ => EmptyString
  end.

(** The statements of the [try] block after the first page was read. *)
Definition header_steps (first_page_text : string)
  : list (Doc.DocumentMetadata -> res Doc.DocumentMetadata) :=
  [ (fun md =>
       match pun_match first_page_text with
       | Some m => Ok (Doc.set_pun_code (Some (PyStr.strip (group_text m 1))) md)
       | None => Ok md
       end);
    (fun md =>
       match course_match first_page_text with
       | Some m => Ok (Doc.set_course_name (PyStr.strip (group_text m 1)) md)
       | None =>
           match course_fallback first_page_text with
           | Some m => Ok (Doc.set_course_name (PyStr.strip (Re.group0 m)) md)
           | None => Ok md
           end
       end);
    (fun md =>
       match college_match first_page_text with
       | Some m => Ok (Doc.set_college_name (PyStr.strip (group_text m 1)) md)
       | None => Ok md
       end) ].

Definition extract_header_metadata (pdf : list Doc.page) : Doc.DocumentMetadata :=
  let metadata := Doc.Metadata (Some "Unknown") "Unknown" "Unknown" in
  match Doc.first_page pdf with
  | Raise _ => metadata
  | Ok p =>
      let first_page_text := Doc.extract_text p Doc.Plain in
      if PyStr.is_empty first_page_text then metadata
      else try_steps (header_steps first_page_text) metadata
  end.

(** The rows [re.findall] reads in the mapping area of one page. *)
Fixpoint add_rows (rows : list Re.match_obj) (mapping : gmap string string)
  : gmap string string :=
  match rows with
  | [] => mapping
  | m :: rows' =>
      let code := PyStr.strip (group_text m 1) in
      let name := PyStr.strip (Re.sub Re.NOFLAG "^[:\-\s!]+" "" (group_text m 2)) in
      add_rows rows' (if (3 <=? String.length code)%nat then <[code := name]> mapping else mapping)
  end.

Fixpoint map_pages (pages : list Doc.page) (mapping : gmap string string)
  : gmap string string :=
  match pages with
  | [] => mapping
  | p :: pages' =>
      let text := Doc.extract_text p Doc.Plain in
      if PyStr.is_empty text then map_pages pages' mapping
      else
        let student_start_pos := PyStr.find "PRN:" text in
        let mapping_area :=
          match student_start_pos with
          | Some n => PyStr.take n text
          | None => text
          end in
        let mapping :=
          add_rows (Re.finditer Re.MULTILINE "^([A-Z0-9-]{3,15})\s+([A-Za-z].*)" mapping_area)
                   mapping in
        match student_start_pos with
        | Some _ => mapping
        | None => map_pages pages' mapping
        end
  end.

Definition extract_subject_mapping (pdf : list Doc.page) : gmap string string :=
  map_pages pdf ∅.

Record student : Type := Student {
  prn : string;
  seat_no : string;
  full_name : string;
  mother_name : string;
  gender : string;
  sem1_subjects : list subject_row;
  sem2_subjects : list subject_row;
  sem1_summary : string;
  sem2_summary : string;
  dashboard_sgpa : string;
  fy_total_msg : string;
  result : string;
  cgpa : string;
  final_grade : string;
  total_marks : string;
  course_name : option string       (* the key [main] adds *)
}.

(** The loop that joins a prefixed score marker with the score after it. *)
Fixpoint merge_marks (marks_area : list string) : list string :=
  match marks_area with
  | [] => []
  | curr :: rest =>
      match rest with
      | nxt :: rest' =>
          if PyStr.mem curr ["P"; "*"; "AA"]
          then (curr +:+ " " +:+ nxt) :: merge_marks rest'
          else curr :: merge_marks rest
      | [] => curr :: merge_marks rest
      end
  end.

Definition len {A : Type} (l : list A) : Z := Z.of_nat (length l).

(** [m = processed[i].split()]: the prefix [m[0] if len(m) > 1 else "-"]
    and the mark [m[-1]]. *)
Definition mark_field (column : string) : res (string * string) :=
  let m := PyStr.split column in
  p ← (if (1 <? len m)%Z then PyStr.at_ m 0 else Ok "-");
  v ← PyStr.at_ m (-1);
  Ok (p, v).

Definition mark_or_absent (processed : list string) (i : nat) : res (string * string) :=
  match nth_error processed i with
  | Some column => mark_field column
  | None => Ok ("-", "-")
  end.

(** The record of a subject line, after its grade was noted. *)
Definition record_of_parts (code_clean : string) (grade : string) (parts : list string)
    (subject_map : gmap string string) : res subject_row :=
  total ← PyStr.at_ parts (-6);
  crd ← PyStr.at_ parts (-5);
  ern ← PyStr.at_ parts (-4);
  gp ← PyStr.at_ parts (-2);
  cp ← PyStr.at_ parts (-1);
  let processed := merge_marks (PyStr.slice parts 1 (-6)) in
  '(p_int, int_m) ← mark_or_absent processed 0;
  '(p_ext, ext_m) ← mark_or_absent processed 1;
  '(p_pr, pr_m) ← mark_or_absent processed 2;
  Ok (SubjectRow code_clean (default "---" (subject_map !! code_clean))
                 p_int int_m p_ext ext_m p_pr pr_m total crd ern grade gp cp).

(** The variables of the scan over the subject lines. *)
Record scan : Type := Scan {
  all_grades : list string;
  sem1 : list subject_row;
  sem2 : list subject_row
}.

(** One line of semester part [sem_idx].  An [IndexError] of the inner
    [try] leaves the grade noted and skips the record. *)
Definition scan_line (subject_map : gmap string string) (sem_idx : nat) (line : string)
    (st : scan) : scan :=
  let parts := PyStr.split line in
  if (8 <=? len parts)%Z then
    match PyStr.at_ parts 0 with
    | Raise _ => st
    | Ok p0 =>
        let code_raw := PyStr.replace ":" "" (PyStr.strip p0) in
        let code_clean := Re.sub Re.NOFLAG "[^A-Z0-9-]" "" code_raw in
        if (3 <=? String.length code_clean)%nat then
          match PyStr.at_ parts (-3) with
          | Raise _ => st
          | Ok grade =>
              let grades := (all_grades st ++ [grade])%list in
              match record_of_parts code_clean grade parts subject_map with
              | Raise _ => Scan grades (sem1 st) (sem2 st)
              | Ok record =>
                  if (sem_idx =? 1)%nat
                  then Scan grades (sem1 st ++ [record])%list (sem2 st)
                  else Scan grades (sem1 st) (sem2 st ++ [record])%list
              end
          end
        else st
    end
  else st.

Fixpoint scan_parts (subject_map : gmap string string) (sem_idx : nat) (parts : list string)
    (st : scan) : scan :=
  match parts with
  | [] => st
  | part :: parts' =>
      scan_parts subject_map (S sem_idx) parts'
        (fold_left (fun st line => scan_line subject_map sem_idx line st) (PyStr.lines part) st)
  end.

(** The subject scan of a block: [enumerate(sem_parts[1:], 1)]. *)
Definition scan_block (block_text : string) (subject_map : gmap string string) : scan :=
  scan_parts subject_map 1
    (tl (Re.split Re.IGNORECASE "Semester\s*:\s*" block_text)) (Scan [] [] []).

(** The First Year statement of a block, in upper case; empty when the
    block has none. *)
Definition fy_res_match (block_text : string) : option Re.match_obj :=
  Re.search Re.NOFLAG "(First Year (?:Result|Total Credits Earned)\s*:\s*.*?)(?=\n|$)"
    block_text.

Definition fy_text (block_text : string) : string :=
  match fy_res_match block_text with
  | Some m => PyStr.upper (group_text m 1)
  | None => ""
  end.

Definition fail_exists (grades : list string) : bool :=
  existsb (fun g => PyStr.mem g ["F"; "FFF"; "FAIL"]) grades.

Definition resolve_result (fy : string) (grades : list string) : string :=
  if PyStr.contains "44/44" fy || (negb (fail_exists grades) && (0 <? len grades)%Z) then "PASS"
  else if PyStr.contains "A.T.K.T" fy then "FAIL A.T.K.T."
  else "FAIL".

Definition s1_val (block_text : string) : option Re.match_obj :=
  Re.search Re.NOFLAG "First Semester SGPA\s*:\s*([\d\.]+)" block_text.

Definition s2_val (block_text : string) : option Re.match_obj :=
  Re.search Re.NOFLAG "Second Semester SGPA\s*:\s*([\d\.]+)" block_text.

(** The dashboard SGPA: the second semester's figure, else the first's. *)
Definition current_sgpa (block_text : string) : string :=
  match s2_val block_text with
  | Some m => group_text m 1
  | None =>
      match s1_val block_text with
      | Some m => group_text m 1
      | None => "-"
      end
  end.

Definition summary (pattern : string) (block_text : string) : string :=
  match Re.search Re.DOTALL pattern block_text with
  | Some m => PyStr.strip (PyStr.replace PyStr.nl " " (group_text m 1))
  | None => ""
  end.

Definition prn_match (block_text : string) : option Re.match_obj :=
  Re.search Re.NOFLAG "PRN:?\s*(\d+)" block_text.

Definition seat_match (block_text : string) : option Re.match_obj :=
  Re.search Re.NOFLAG "SEAT NO\.:?\s*(\d+)" block_text.

Definition parse_nep_block (block_text : string) (subject_map : gmap string string)
  : option student :=
  let prn_match := prn_match block_text in
  let seat_match := seat_match block_text in
  let name_match := Re.search Re.DOTALL "NAME:?\s*(.*?)(?=Mother|-|PRN|$)" block_text in
  let mother_match := Re.search Re.NOFLAG "Mother\s*-?\s*(\w+)" block_text in
  match prn_match, seat_match with
  | Some prn_m, Some seat_m =>
      let body : res student :=
        full_name ← match name_match with
                    | Some name_m =>
                        PyStr.at_ (PyStr.lines (PyStr.strip (group_text name_m 1))) 0
                    | None => Ok "Unknown"
                    end;
        let mother_name :=
          match mother_match with
          | Some mother_m => PyStr.strip (group_text mother_m 1)
          | None => "-"
          end in
        let gender :=
          if PyStr.contains "SEX: M" block_text || PyStr.contains " M " block_text
          then "Male" else "Unknown" in
        let st := scan_block block_text subject_map in
        let fy := fy_text block_text in
        let total_marks :=
          match Re.search Re.NOFLAG "Total Credit Points:\s*([\d\.]+)" block_text with
          | Some tcp_match => group_text tcp_match 1
          | None => "-"
          end in
        Ok (Student (PyStr.strip (group_text prn_m 1)) (PyStr.strip (group_text seat_m 1))
                    full_name mother_name gender (sem1 st) (sem2 st)
                    (summary "(First Semester SGPA\s*:\s*.*?)(?=\n|Second Semester|$)" block_text)
                    (summary "(Second Semester SGPA\s*:\s*.*?)(?=\n|First Year|$)" block_text)
                    (current_sgpa block_text) fy (resolve_result fy (all_grades st))
                    "-" "-" total_marks None) in
      match body with
      | Ok s => Some s
      | Raise _ => None
      end
  | _, _ => None
  end.

Definition with_course (c : string) (s : student) : student :=
  Student (prn s) (seat_no s) (full_name s) (mother_name s) (gender s)
          (sem1_subjects s) (sem2_subjects s) (sem1_summary s) (sem2_summary s)
          (dashboard_sgpa s) (fy_total_msg s) (result s) (cgpa s) (final_grade s)
          (total_marks s) (Some c).

(** The blocks of one page that hold results, parsed. *)
Fixpoint page_blocks (subject_map : gmap string string) (metadata : Doc.DocumentMetadata)
    (blocks : list string) : list student :=
  match blocks with
  | [] => []
  | b :: blocks' =>
      if PyStr.contains "SEMESTER" (PyStr.upper b) then
        match parse_nep_block b subject_map with
        | Some res =>
            with_course (Doc.course_name metadata) res :: page_blocks subject_map metadata blocks'
        | None => page_blocks subject_map metadata blocks'
        end
      else page_blocks subject_map metadata blocks'
  end.

Definition page_students (subject_map : gmap string string) (metadata : Doc.DocumentMetadata)
    (p : Doc.page) : list student :=
  let text := Doc.extract_text p Doc.X1_5 in
  if PyStr.is_empty text then []
  else page_blocks subject_map metadata (Re.split Re.NOFLAG "(?=PRN[:\s])" text).

Definition main (pdf_path : Doc.document) : Doc.envelope student :=
  match pdf_path with
  | Doc.Unreadable e => Doc.Failure ("NEP Parser Global Error: " +:+ e)
  | Doc.Readable pages =>
      let subject_map := extract_subject_mapping pages in
      let metadata := extract_header_metadata pages in
      let all_students := flat_map (page_students subject_map metadata) pages in
      match all_students with
      | _ :: _ => Doc.Success metadata all_students
      | [] => Doc.Failure "No valid NEP student records found."
      end
  end.

End parser_nep.

(** ** parser.py: the gazette pattern *)

Module parser.

Definition course_match (text : string) : option Re.match_obj :=
  Re.search Re.IGNORECASE "RESULT\s+OF\s+THE\s+(.*?)(?=\s+EXAMINATION|$)" text.

Definition course_fallback (text : string) : option Re.match_obj :=
  Re.search Re.IGNORECASE "((?:BACHELOR|MASTER)\s+OF\s+.*?)(?=\s*\(|20\d{2}|$)" text.

Definition college_match (text : string) : option Re.match_obj :=
  Re.search Re.MULTILINE_IGNORECASE "^\d{3,4}\s+(.*?)(?=\s+PAGE\s*:|$)" text.

Definition fallback (text : string) : option Re.match_obj :=
  Re.search Re.IGNORECASE "(?:PANCHAVATI|COLLEGE|INSTITUTE).*?(?=\s+PAGE\s*:|$)" text.

(** The text the header is read from; empty when the document has no
    first page. *)
Definition header_text (pdf : list Doc.page) : string :=
  match Doc.first_page pdf with
  | Ok p => Doc.extract_text p Doc.X2
  | Raise _ => EmptyString
  end.

(** The statements of the [try] block after the first page was read. *)
Definition header_steps (first_page_text : string)
  : list (Doc.DocumentMetadata -> res Doc.DocumentMetadata) :=
  [ (fun md =>
       match course_match first_page_text with
       | Some m => Ok (Doc.set_course_name (PyStr.strip (group_text m 1)) md)
       | None =>
           match course_fallback first_page_text with
           | Some m => Ok (Doc.set_course_name (PyStr.strip (group_text m 1)) md)
           | None => Ok md
           end
       end);
    (fun md =>
       match college_match first_page_text with
       | Some m => Ok (Doc.set_college_name (PyStr.strip (group_text m 1)) md)
       | None =>
           match fallback first_page_text with
           | Some m => Ok (Doc.set_college_name (PyStr.strip (Re.group0 m)) md)
           | None => Ok md
           end
       end) ].

(** [pun_code] starts as [None] and is never assigned. *)
Definition extract_header_metadata (pdf : list Doc.page) : Doc.DocumentMetadata :=
  let metadata := Doc.Metadata None "Unknown" "Unknown" in
  match Doc.first_page pdf with
  | Raise _ => metadata
  | Ok p =>
      let first_page_text := Doc.extract_text p Doc.X2 in
      if PyStr.is_empty first_page_text then metadata
      else try_steps (header_steps first_page_text) metadata
  end.

Record subject : Type := Subject {
  code : string;
  internal : string;
  external : string;
  total : string;
  grade : string;
  credits : string
}.

Record student : Type := Student {
  seat_no : string;
  prn : string;
  gender : string;
  mother_name : string;
  full_name : string;
  subjects : list subject;
  sgpa : gmap string string;
  total_credits : string;
  total_marks : string;
  fy_credits : string;
  fy_marks : string;
  cgpa : string;
  final_grade : string;
  result : string;
  extra_notes : list string
}.

Definition len {A : Type} (l : list A) : Z := Z.of_nat (length l).

(** The loop that joins [*] or [$] with the mark after it. *)
Fixpoint merge_marks (marks_part : list string) : list string :=
  match marks_part with
  | [] => []
  | curr :: rest =>
      match rest with
      | nxt :: rest' =>
          if String.eqb curr "*" || String.eqb curr "$"
          then (curr +:+ " " +:+ nxt) :: merge_marks rest'
          else curr :: merge_marks rest
      | [] => curr :: merge_marks rest
      end
  end.

(** A regular subject: [None] for a row with fewer than two columns. *)
Definition regular_subject (m : Re.match_obj) : res (option subject) :=
  let code := group_text m 1 in
  let raw_marks_text := PyStr.strip (group_text m 2) in
  let parts := PyStr.split raw_marks_text in
  if (2 <=? len parts)%Z then
    credits ← PyStr.at_ parts (-1);
    grade ← PyStr.at_ parts (-2);
    let processed_marks := merge_marks (PyStr.slice parts 0 (-2)) in
    Ok (Some (Subject code
                (nth 0 processed_marks "-") (nth 1 processed_marks "-")
                (nth 2 processed_marks "-") grade credits))
  else Ok None.

(** A row that raises is reported and skipped. *)
Fixpoint regular_subjects (ms : list Re.match_obj) : list subject :=
  match ms with
  | [] => []
  | m :: ms' =>
      match regular_subject m with
      | Ok (Some s) => s :: regular_subjects ms'
      | _ => regular_subjects ms'
      end
  end.

Definition gr_subject (m : Re.match_obj) : subject :=
  Subject (group_text m 1) "-" "-" "-" (PyStr.strip (group_text m 2)) (PyStr.strip (group_text m 3)).

Fixpoint sgpa_of (values : list Re.match_obj) (d : gmap string string) : gmap string string :=
  match values with
  | [] => d
  | m :: values' => sgpa_of values' (<[group_text m 1 := group_text m 2]> d)
  end.

(** The pair of figures of a TOTAL line. *)
Definition totals (pattern : string) (block_text : string) : string * string :=
  match Re.search Re.NOFLAG pattern block_text with
  | Some m => (group_text m 1, group_text m 2)
  | None => ("-", "-")
  end.

Definition mandatory_note : string :=
  "The student has completed mandetory add-on credits for this programme.".

Definition info_match (block_text : string) : option Re.match_obj :=
  Re.search Re.NOFLAG "(\d{4,})\s+(.+?)\s+([MF])\s+(\d{10,})" block_text.

Definition cgpa_match (block_text : string) : option Re.match_obj :=
  Re.search Re.NOFLAG "CGPA\s*:\s*([\d\.]+)" block_text.

Definition fail_match (block_text : string) : option Re.match_obj :=
  Re.search Re.IGNORECASE "(FAIL\s+A\.T\.K\.T\.|RESULT\s*:\s*FAIL|FAIL\s+\$\s+0\.1)"
    block_text.

Definition parse_gazette_block (block_text : string) : option student :=
  match info_match block_text with
  | None => None
  | Some info_match =>
      let seat_no := PyStr.strip (group_text info_match 1) in
      let raw_name := PyStr.strip (group_text info_match 2) in
      let sex_char := PyStr.strip (group_text info_match 3) in
      let prn := PyStr.strip (group_text info_match 4) in
      let gender := if String.eqb sex_char "M" then "Male" else "Female" in
      let name_parts := PyStr.split raw_name in
      let body : res student :=
        '(full_name, mother_name) ←
          (if (1 <? len name_parts)%Z then
             mother ← PyStr.at_ name_parts (-1);
             Ok (PyStr.join " " (PyStr.slice name_parts 0 (-1)), mother)
           else Ok (raw_name, "-"));
        let subjects :=
          (regular_subjects
             (Re.finditer Re.NOFLAG "(\d{5})\s*:\s*(.*?)(?=\s+\d{5}\s*:|\s+GR|$)" block_text)
           ++ map gr_subject
                (Re.finditer Re.NOFLAG "(GR\d-[A-Z])\s*:\s*!?\s*([A-Z\+]+)\s+(\d+)" block_text))%list in
        let sgpa :=
          match Re.search Re.DOTALL "SGPA\s*:\s*(.*?)(?:TOTAL|CGPA|$)" block_text with
          | Some sgpa_match =>
              sgpa_of (Re.finditer Re.NOFLAG "\((\d)\)\s*([\d\.]+)" (group_text sgpa_match 1)) ∅
          | None => ∅
          end in
        let '(total_credits, total_marks) := totals "TOTAL\s+(\d+)\s+\d+\s+(\d+)" block_text in
        let '(fy_credits, fy_marks) := totals "F\.Y\.TOTAL\s+(\d+)\s+\d+\s+(\d+)" block_text in
        let '(cgpa, result) :=
          match cgpa_match block_text with
          | Some m => (group_text m 1, "PASS")
          | None => ("-", "FAIL")
          end in
        let final_grade :=
          match Re.search Re.NOFLAG "FINAL GRADE\s*:\s*(.*?)($|\n|The student)" block_text with
          | Some grade_match => PyStr.strip (group_text grade_match 1)
          | None => "-"
          end in
        let notes1 :=
          if PyStr.contains "balance marks" block_text then
            match Re.search Re.NOFLAG "(O\.\d+\s+balance marks\s*:\s*\d+)" block_text with
            | Some bal_match => [group_text bal_match 1]
            | None => []
            end
          else [] in
        let notes2 :=
          if PyStr.contains "completed mandetory" block_text
             || PyStr.contains "completed mandatory" block_text
          then [mandatory_note] else [] in
        let result :=
          match fail_match block_text with
          | Some m =>
              let status_text := PyStr.upper (group_text m 1) in
              if PyStr.contains "A.T.K.T" status_text then "FAIL A.T.K.T." else "FAIL"
          | None => result
          end in
        Ok (Student seat_no prn gender mother_name full_name subjects sgpa
                    total_credits total_marks fy_credits fy_marks cgpa final_grade result
                    (notes1 ++ notes2)%list) in
      match body with
      | Ok s => Some s
      | Raise _ => None
      end
  end.

Fixpoint parse_blocks (student_blocks : list string) : list student :=
  match student_blocks with
  | [] => []
  | block :: blocks' =>
      if PyStr.truthy (PyStr.strip block) && negb (PyStr.contains "SEAT NO." block) then
        match parse_gazette_block block with
        | Some student_info => student_info :: parse_blocks blocks'
        | None => parse_blocks blocks'
        end
      else parse_blocks blocks'
  end.

(** The value of the key [student_data] of the dictionary returned. *)
Definition analyze_gazette_pattern (full_text : string) : list student :=
  parse_blocks (Re.split Re.NOFLAG "-{30,}" full_text).

Definition main (pdf_path : Doc.document) : Doc.envelope student :=
  match pdf_path with
  | Doc.Unreadable e => Doc.Failure ("Internal PDF processing failure: " +:+ e)
  | Doc.Readable pages =>
      let metadata := extract_header_metadata pages in
      let all_text :=
        PyStr.join PyStr.nl (map (fun p => Doc.extract_text p Doc.X3Y3) pages) in
      let student_data := analyze_gazette_pattern all_text in
      match student_data with
      | _ :: _ => Doc.Success metadata student_data
      | [] => Doc.Failure "No recognizable student records were identified in the PDF."
      end
  end.

End parser.

(** ** The groups the parsers read

    Every pattern whose match is read with [group_text], with the group
    that is read. *)

Definition group_uses : list (Re.flags * string * nat) :=
  [ (* parser_sy *)
    (Re.IGNORECASE, "Puncode\s*:\s*([A-Z]{4}\d{6,10})", 1);
    (Re.IGNORECASE,
     "((?:BACHELOR|MASTER)\s+OF\s+[\s\S]*?)(?=\s*\((?:REV|20\d{2})|\s*\(?\d{4}\s*Pattern|College Ledger|\n\n|$)",
     1);
    (Re.IGNORECASE, "Puncode\s*:.*?\]\s*(.*?)(?=\n|$)", 1);
    (Re.NOFLAG,
     "\[\d{4}\]\s*([A-Z][A-Z\s,]+(?:COLLEGE|INSTITUTE|ARTS|SCIENCE|COMMERCE).*?)(?=\n|$)", 1);
    (Re.IGNORECASE, "Puncode\s*:\s*([A-Z]{4}\d+)", 1);
    (Re.NOFLAG, "\]\s*(.*?)(?=\n|$)", 1);
    (Re.IGNORECASE,
     "((?:BACHELOR|MASTER)\s+OF\s+.*?)(?=\s*\((?:REV|20\d{2})|\s*Pattern|\n|$)", 1);
    (Re.NOFLAG, "^\s*([A-Z0-9-]{3,10})\s+(.+)$", 1);
    (Re.NOFLAG, "^\s*([A-Z0-9-]{3,10})\s+(.+)$", 2);
    (Re.NOFLAG, "SEMESTER:\s*(\d)", 1);
    (Re.NOFLAG, "(SEMESTER:\s*\d)", 1);
    (Re.IGNORECASE, "Fourth Semester SGPA\s*:\s*([\d\.]+)", 1);
    (Re.IGNORECASE, "Third Semester SGPA\s*:\s*([\d\.]+)", 1);
    (Re.IGNORECASE, "Second Semester SGPA\s*:\s*([\d\.]+)", 1);
    (Re.IGNORECASE, "First Semester SGPA\s*:\s*([\d\.]+)", 1);
    (Re.IGNORECASE, "Second Year Result\s*:\s*(.*?)(?=\s+Total|\n)", 1);
    (Re.NOFLAG, "PRN:\s*(\d+)", 1);
    (Re.NOFLAG, "SEAT NO\.:\s*(\d+)", 1);
    (Re.NOFLAG, "NAME:\s*(.*?)(?=\s+Mother|\s+PRN|$)", 1);
    (Re.NOFLAG, "Mother\s*-\s*(\w+)", 1);
    (Re.NOFLAG, "(Total Credits Earned\s*:\s*[\d\/]+)", 1);
    (Re.IGNORECASE, "Puncode\s*:.*?\d+\]\s*(.*?)(?=\n|$)", 1);
    (* parser_nep *)
    (Re.DOTALL, "PUNE-\d{3}\s*\d{3}\s*\n(.*?)\nCollege Ledger", 1);
    (Re.NOFLAG, "\[\d{4}\]\s*(.*?)(?=\n|\[)", 1);
    (Re.MULTILINE, "^([A-Z0-9-]{3,15})\s+([A-Za-z].*)", 1);
    (Re.MULTILINE, "^([A-Z0-9-]{3,15})\s+([A-Za-z].*)", 2);
    (Re.NOFLAG, "PRN:?\s*(\d+)", 1);
    (Re.NOFLAG, "SEAT NO\.:?\s*(\d+)", 1);
    (Re.DOTALL, "NAME:?\s*(.*?)(?=Mother|-|PRN|$)", 1);
    (Re.NOFLAG, "Mother\s*-?\s*(\w+)", 1);
    (Re.NOFLAG, "(First Year (?:Result|Total Credits Earned)\s*:\s*.*?)(?=\n|$)", 1);
    (Re.NOFLAG, "First Semester SGPA\s*:\s*([\d\.]+)", 1);
    (Re.NOFLAG, "Second Semester SGPA\s*:\s*([\d\.]+)", 1);
    (Re.DOTALL, "(First Semester SGPA\s*:\s*.*?)(?=\n|Second Semester|$)", 1);
    (Re.DOTALL, "(Second Semester SGPA\s*:\s*.*?)(?=\n|First Year|$)", 1);
    (Re.NOFLAG, "Total Credit Points:\s*([\d\.]+)", 1);
    (* parser *)
    (Re.IGNORECASE, "RESULT\s+OF\s+THE\s+(.*?)(?=\s+EXAMINATION|$)", 1);
    (Re.IGNORECASE, "((?:BACHELOR|MASTER)\s+OF\s+.*?)(?=\s*\(|20\d{2}|$)", 1);
    (Re.MULTILINE_IGNORECASE, "^\d{3,4}\s+(.*?)(?=\s+PAGE\s*:|$)", 1);
    (Re.NOFLAG, "(\d{4,})\s+(.+?)\s+([MF])\s+(\d{10,})", 1);
    (Re.NOFLAG, "(\d{4,})\s+(.+?)\s+([MF])\s+(\d{10,})", 2);
    (Re.NOFLAG, "(\d{4,})\s+(.+?)\s+([MF])\s+(\d{10,})", 3);
    (Re.NOFLAG, "(\d{4,})\s+(.+?)\s+([MF])\s+(\d{10,})", 4);
    (Re.NOFLAG, "(\d{5})\s*:\s*(.*?)(?=\s+\d{5}\s*:|\s+GR|$)", 1);
    (Re.NOFLAG, "(\d{5})\s*:\s*(.*?)(?=\s+\d{5}\s*:|\s+GR|$)", 2);
    (Re.NOFLAG, "(GR\d-[A-Z])\s*:\s*!?\s*([A-Z\+]+)\s+(\d+)", 1);
    (Re.NOFLAG, "(GR\d-[A-Z])\s*:\s*!?\s*([A-Z\+]+)\s+(\d+)", 2);
    (Re.NOFLAG, "(GR\d-[A-Z])\s*:\s*!?\s*([A-Z\+]+)\s+(\d+)", 3);
    (Re.DOTALL, "SGPA\s*:\s*(.*?)(?:TOTAL|CGPA|$)", 1);
    (Re.NOFLAG, "\((\d)\)\s*([\d\.]+)", 1);
    (Re.NOFLAG, "\((\d)\)\s*([\d\.]+)", 2);
    (Re.NOFLAG, "TOTAL\s+(\d+)\s+\d+\s+(\d+)", 1);
    (Re.NOFLAG, "TOTAL\s+(\d+)\s+\d+\s+(\d+)", 2);
    (Re.NOFLAG, "F\.Y\.TOTAL\s+(\d+)\s+\d+\s+(\d+)", 1);
    (Re.NOFLAG, "F\.Y\.TOTAL\s+(\d+)\s+\d+\s+(\d+)", 2);
    (Re.NOFLAG, "CGPA\s*:\s*([\d\.]+)", 1);
    (Re.NOFLAG, "FINAL GRADE\s*:\s*(.*?)($|\n|The student)", 1);
    (Re.NOFLAG, "(O\.\d+\s+balance marks\s*:\s*\d+)", 1);
    (Re.IGNORECASE, "(FAIL\s+A\.T\.K\.T\.|RESULT\s*:\s*FAIL|FAIL\s+\$\s+0\.1)", 1) ].

(** The patterns the parsers use without reading a group. *)
Definition plain_patterns : list (Re.flags * string) :=
  [ (Re.NOFLAG, "\s+");
    (Re.NOFLAG, "[:\-\s!]+$");
    (Re.NOFLAG, "(?=PRN:\s*\d+)");
    (Re.NOFLAG, "Page\s*\d+");
    (Re.IGNORECASE, "(BACHELOR|MASTER)\s+OF\s+.*?(?=\n)");
    (Re.NOFLAG, "^[:\-\s!]+");
    (Re.IGNORECASE, "Semester\s*:\s*");
    (Re.NOFLAG, "[^A-Z0-9-]");
    (Re.NOFLAG, "(?=PRN[:\s])");
    (Re.IGNORECASE, "(?:PANCHAVATI|COLLEGE|INSTITUTE).*?(?=\s+PAGE\s*:|$)");
    (Re.NOFLAG, "-{30,}") ].

(** ** Sample inputs *)

Module Sample.

(** A page with the same text under every setting. *)
Definition page_of (text : string) : Doc.page := Doc.Page (fun _ => text).

(** A page that is no ledger. *)
Definition no_ledger : Doc.page := page_of "Minutes of the staff meeting".

(** The text of the given lines. *)
Definition text (lines : list string) : string := PyStr.join PyStr.nl lines.

(** A second-year ledger with one student. *)
Definition sy_block : string :=
  text [ "PRN: 72010045 SEAT NO.: 1234 NAME: JOHN SMITH Mother - MARY";
         "SEMESTER: 3";
         "CS301 45 38 83 4 4 A 8 32";
         "Third Semester SGPA : 8.00";
         "SEMESTER: 4";
         "CS401 40 35 75 4 4 B+ 7 28";
         "Fourth Semester SGPA : 7.50";
         "" ].

Definition sy_doc : Doc.document :=
  Doc.Readable
    [ page_of (text [ "Puncode : CAAN012345 [0105]LOKNETE COLLEGE,";
                      "BACHELOR OF SCIENCE (REV. 2019)";
                      sy_block ]) ].

(** The same student with a failed subject. *)
Definition sy_block_fail : string :=
  text [ "PRN: 72010045 SEAT NO.: 1234 NAME: JOHN SMITH Mother - MARY";
         "SEMESTER: 3";
         "CS301 10 12 22 4 0 F 0 0";
         "Third Semester SGPA : 3.10";
         "" ].

(** NEP blocks without a First Year statement: one with an absent
    grade, one with a failed subject. *)
Definition nep_block_absent : string :=
  text [ "PRN: 72010045 SEAT NO.: 1234 NAME: JOHN SMITH Mother - MARY SEX: M";
         "Semester : 1";
         "CS-101 45 38 83 4 4 A 8 32";
         "CS-102 AA AA 0 4 0 AB 0 0";
         "First Semester SGPA : 6.00";
         "" ].

Definition nep_block_fail : string :=
  text [ "PRN: 72010045 SEAT NO.: 1234 NAME: JOHN SMITH Mother - MARY SEX: M";
         "Semester : 1";
         "CS-101 45 38 83 4 4 A 8 32";
         "Semester : 2";
         "CS-201 10 12 22 4 0 F 0 0";
         "Second Semester SGPA : 7.50";
         "" ].

Definition nep_block_pass : string :=
  text [ "PRN: 72010045 SEAT NO.: 1234 NAME: JOHN SMITH Mother - MARY SEX: M";
         "Semester : 1";
         "CS-101 45 38 83 4 4 A 8 32";
         "First Semester SGPA : 8.00";
         "Semester : 2";
         "CS-201 40 35 75 4 4 B+ 7 28";
         "Second Semester SGPA : 7.50";
         "" ].

Definition nep_doc : Doc.document :=
  Doc.Readable
    [ page_of (text [ "PUNE-411 007";
                      "BACHELOR OF SCIENCE(2024 Pattern (NEP 2020))";
                      "College Ledger";
                      "Puncode : CAAN012345 [0105]LOKNETE COLLEGE";
                      nep_block_pass ]) ].

(** A gazette ledger with one student. *)
Definition gazette_block : string :=
  text [ "1234 JOHN A SMITH MARY M 1234567890";
         "11111 : 20 * 30 50 A 4 22222 : 10 20 30 B 3 GR6-A : ! A+ 2";
         "SGPA : (1) 7.5 (2) 8.1 TOTAL 44 100 500";
         "CGPA : 7.82 FINAL GRADE : A";
         "" ].

Definition gazette_doc : Doc.document :=
  Doc.Readable
    [ page_of (text [ "RESULT OF THE BACHELOR OF BUSINESS ADMINISTRATION (REV.2019) EXAMINATION";
                      "1234 PANCHAVATI COLLEGE OF MGNT.AND COMM.SCIENCE,NASHIK PAGE : 1";
                      "SEAT NO. NAME";
                      "------------------------------------";
                      gazette_block ]) ].

End Sample.

(** ** Notions used to state the properties *)

(** The row [row] under another subject name. *)
Definition with_name (n : string) (row : subject_row) : subject_row :=
  SubjectRow (code row) n (p_int row) (int_m row) (p_ext row) (ext_m row)
             (p_pr row) (pr_m row) (total row) (crd row) (ern row) (grd row)
             (gp row) (cp row).

(** [row] is what [parse_marks_row] makes of some line. *)
Definition row_of_line (subject_map : gmap string string) (row : subject_row) : Prop :=
  exists line, parser_sy.parse_marks_row line subject_map = Some row.

(** The pattern ends in group [n], one character of [s]. *)
Fixpoint last_char_group (r : Re.regex) : option (nat * Re.cset) :=
  match r with
  | Re.Seq _ b => last_char_group b
  | Re.Grp n (Re.Cls s) => Some (n, s)
  | _ => None
  end.

(** The semester keys a student dictionary of [parser_sy] starts with. *)
Definition sem_keys : list string := ["1"; "2"; "3"; "4"].


(** A second-year block whose semester header names semester 5. *)
Definition sy_block_sem5 : string :=
  Sample.text [ "PRN: 72010045 SEAT NO.: 1234 NAME: JOHN SMITH Mother - MARY";
                "SEMESTER: 5";
                "CS501 45 38 83 4 4 A 8 32";
                "" ].

(** The pattern matches no character: it only looks ahead or tests the
    position. *)
Fixpoint zero_width (r : Re.regex) : bool :=
  match r with
  | Re.Eps | Re.Ahead _ | Re.Bol _ | Re.Eol _ => true
  | Re.Seq a b | Re.Alt a b => zero_width a && zero_width b
  | Re.Grp _ a => zero_width a
  | _ => false
  end.

(** The pattern is one group, numbered 1, around everything. *)
Definition whole_group (r : Re.regex) : bool :=
  match r with
  | Re.Grp 1 _ => true
  | _ => false
  end.

(** ** app.py: the statistics and the upload route *)

Module app.

(** [s.lower()] *)
Fixpoint lower (s : string) : string :=
  match s with
  | EmptyString => EmptyString
  | String c t => String (PyStr.lower_char c) (lower t)
  end.

(** [s.endswith(suffix)] *)
Definition endswith (suffix s : string) : bool :=
  (String.length suffix <=? String.length s)%nat
  && String.eqb (String.substring (String.length s - String.length suffix)
                                  (String.length suffix) s) suffix.

(** A student dictionary as one of the three parsers builds it.  The
    gazette parser sets no key [dashboard_sgpa]: the routes add it. *)
Inductive student : Type :=
| OfNEP (s : parser_nep.student)
| OfSY (s : parser_sy.student)
| OfGazette (s : parser.student) (dashboard_sgpa : option string).

(** [std.get('result', ...)]: every parser sets the key. *)
Definition result (std : student) : string :=
  match std with
  | OfNEP s => parser_nep.result s
  | OfSY s => parser_sy.result s
  | OfGazette s _ => parser.result s
  end.

(** [std.get('gender', 'Male')]: the second-year dictionaries have no
    such key. *)
Definition gender (std : student) : string :=
  match std with
  | OfNEP s => parser_nep.gender s
  | OfSY _ => "Male"
  | OfGazette s _ => parser.gender s
  end.

(** [s.get('cgpa', '-')]: the second-year dictionaries have no such key. *)
Definition cgpa (std : student) : string :=
  match std with
  | OfNEP s => parser_nep.cgpa s
  | OfSY _ => "-"
  | OfGazette s _ => parser.cgpa s
  end.

(** [std['dashboard_sgpa']]; [None] when the key is not there. *)
Definition dashboard_sgpa (std : student) : option string :=
  match std with
  | OfNEP s => Some (parser_nep.dashboard_sgpa s)
  | OfSY s => Some (parser_sy.dashboard_sgpa s)
  | OfGazette _ d => d
  end.

(** [std['dashboard_sgpa'] = v] *)
Definition set_dashboard_sgpa (v : string) (std : student) : student :=
  match std with
  | OfNEP s =>
      OfNEP (parser_nep.Student
               (parser_nep.prn s) (parser_nep.seat_no s) (parser_nep.full_name s)
               (parser_nep.mother_name s) (parser_nep.gender s)
               (parser_nep.sem1_subjects s) (parser_nep.sem2_subjects s)
               (parser_nep.sem1_summary s) (parser_nep.sem2_summary s)
               v (parser_nep.fy_total_msg s) (parser_nep.result s) (parser_nep.cgpa s)
               (parser_nep.final_grade s) (parser_nep.total_marks s)
               (parser_nep.course_name s))
  | OfSY s =>
      OfSY (parser_sy.Student
              (parser_sy.sem_subjects s) (parser_sy.sem_summary s) (parser_sy.full_name s)
              (parser_sy.seat_no s) (parser_sy.prn s) (parser_sy.mother_name s)
              (parser_sy.result s) (parser_sy.fy_total_msg s) (parser_sy.total_marks s)
              v (parser_sy.course_name s))
  | OfGazette s _ => OfGazette s (Some v)
  end.

(** The dictionary [stats] at the start of [calculate_stats]. *)
Definition initial_stats (total : nat) : gmap string nat :=
  <["total" := total]>
    (<["male_pass" := 0]> (<["male_atkt" := 0]> (<["male_fail" := 0]>
    (<["female_pass" := 0]> (<["female_atkt" := 0]> (<["female_fail" := 0]>
    (<["pass" := 0]> (<["atkt" := 0]> (<["fail" := 0]> ∅))))))))).

(** [stats[key] += 1] *)
Definition bump (key : string) (stats : gmap string nat) : res (gmap string nat) :=
  match stats !! key with
  | Some n => Ok (<[key := S n]> stats)
  | None => Raise KeyError
  end.

(** The body of the loop of [calculate_stats]: the statistics, and the
    student as the round leaves it. *)
Definition count_student (std : student) (stats : gmap string nat)
  : res (gmap string nat * student) :=
  let res := PyStr.upper (result std) in
  let gender := gender std in
  '(status, stats, std) ←
    (if PyStr.contains "PASS" res then
       stats ← bump "pass" stats; Ok ("pass", stats, std)
     else if PyStr.contains "A.T.K.T" res || PyStr.contains "ATKT" res then
       stats ← bump "atkt" stats; Ok ("atkt", stats, set_dashboard_sgpa "-" std)
     else
       stats ← bump "fail" stats; Ok ("fail", stats, set_dashboard_sgpa "-" std));
  let key := lower gender +:+ "_" +:+ status in
  match stats !! key with
  | Some _ => stats ← bump key stats; Ok (stats, std)
  | None => Ok (stats, std)
  end.

Fixpoint count_students (student_list : list student) (stats : gmap string nat)
  : res (gmap string nat * list student) :=
  match student_list with
  | [] => Ok (stats, [])
  | std :: student_list' =>
      '(stats, std) ← count_student std stats;
      '(stats, student_list') ← count_students student_list' stats;
      Ok (stats, std :: student_list')
  end.

(** [calculate_stats(student_list)]: the statistics returned, and the
    students of the list as the call leaves them (it assigns to their key
    [dashboard_sgpa]). *)
Definition calculate_stats (student_list : list student)
  : res (gmap string nat * list student) :=
  count_students student_list (initial_stats (length student_list)).

(** [PDF_DATA_STORE].  The lists [all_students] and [display_students]
    hold the student dictionaries themselves: an assignment to a
    dictionary of one list is seen in the other list, so the routes below
    write the students a call leaves back to both keys. *)
Record store : Type := Store {
  all_students : list student;
  college_info : option Doc.DocumentMetadata;     (* [{}] at the start *)
  display_students : list student;
  course_display : string;
  year_display : option string;
  stats : gmap string nat;
  pattern : string
}.

Definition PDF_DATA_STORE : store := Store [] None [] "" (Some "") ∅ "".

Definition set_pattern (v : string) (st : store) : store :=
  Store (all_students st) (college_info st) (display_students st) (course_display st)
        (year_display st) (stats st) v.

Definition YEAR_MAP : gmap string string :=
  <["fy" := "First Year (F.Y.)"]>
    (<["sy" := "Second Year (S.Y.)"]> (<["ty" := "Third Year (T.Y.)"]> ∅)).

(** [YEAR_MAP.get(class_year, class_year)] *)
Definition year_of (class_year : option string) : option string :=
  match class_year with
  | Some y => Some (default y (YEAR_MAP !! y))
  | None => None
  end.

(** What [file.save(file_path)] does: it raises, with the text of the
    exception, or it writes the file, which the parser then opens as a
    document. *)
Inductive saving : Type :=
| SaveRaises (why : string)
| Saved (file_path : Doc.document).

(** The request of an upload: the file part [ledger_pdf], if any, with
    its name and with what saving it does, and the form field
    [class_year]. *)
Record upload : Type := Upload { filename : string; save : saving }.
Record request : Type := Request { ledger_pdf : option upload; class_year : option string }.

(** What the [except] clause of [analyze] catches: the exception of
    [file.save], or one raised after the file was saved. *)
Inductive crash : Type :=
| SaveFailed (why : string)
| Raised (e : exn).

(** What [analyze] flashes. *)
Inductive flashed : Type :=
| NoFilePart
| NoFileSelected
| InvalidFormat
| Blocked
| Processed (n : nat)
| Rejected (error : string)
| Crashed (cause : crash).

(** The envelope of a parser over the student dictionaries of the store. *)
Definition envelope_of {S : Type} (f : S -> student) (e : Doc.envelope S)
  : Doc.envelope student :=
  match e with
  | Doc.Success md l => Doc.Success md (map f l)
  | Doc.Failure err => Doc.Failure err
  end.

(** [class_year == y] for the form field, [None] when it was not sent. *)
Definition is_year (class_year : option string) (y : string) : bool :=
  match class_year with
  | Some c => String.eqb c y
  | None => false
  end.

(** The parser of a class year, with the pattern it stands for. *)
Definition run_parser (class_year : option string) (file_path : Doc.document)
  : string * Doc.envelope student :=
  if is_year class_year "fy" then ("NEP", envelope_of OfNEP (parser_nep.main file_path))
  else if is_year class_year "sy"
  then ("SY_4SEM", envelope_of OfSY (parser_sy.main file_path))
  else ("2019", envelope_of (fun s => OfGazette s None) (parser.main file_path)).

(** The body of the loop of [analyze] over the extracted students. *)
Definition dashboard_step (class_year : option string) (s : student) : student :=
  let res_upper := PyStr.upper (result s) in
  if negb (PyStr.contains "PASS" res_upper) then set_dashboard_sgpa "-" s
  else
    let s := if is_year class_year "ty" then set_dashboard_sgpa (cgpa s) s else s in
    match dashboard_sgpa s with
    | None => set_dashboard_sgpa (cgpa s) s
    | Some _ => s
    end.

(** [analyze()]: the store as the request leaves it, and the message
    flashed. *)
Definition analyze (req : request) (st : store) : store * flashed :=
  match ledger_pdf req with
  | None => (st, NoFilePart)
  | Some file =>
      if String.eqb (filename file) "" then (st, NoFileSelected)
      else if negb (endswith ".pdf" (lower (filename file))) then (st, InvalidFormat)
      else
        match save file with
        | SaveRaises why => (st, Crashed (SaveFailed why))
        | Saved file_path =>
            let '(pattern, result) := run_parser (class_year req) file_path in
            let st := set_pattern pattern st in
            match result with
            | Doc.Success metadata extracted_data =>
                match extracted_data with
                | [] => (st, Blocked)
                | _ :: _ =>
                    let extracted_data :=
                      map (dashboard_step (class_year req)) extracted_data in
                    match calculate_stats extracted_data with
                    | Ok (stats, extracted_data) =>
                        (Store extracted_data (Some metadata) extracted_data
                               (Doc.course_name metadata) (year_of (class_year req))
                               stats pattern,
                         Processed (length extracted_data))
                    | Raise e => (st, Crashed (Raised e))
                    end
                end
            | Doc.Failure error => (st, Rejected error)
            end
        end
  end.

(** [reset_filter()] *)
Definition reset_filter (st : store) : res store :=
  '(stats, students) ← calculate_stats (all_students st);
  Ok (Store students (college_info st) students (course_display st) (year_display st)
            stats (pattern st)).

(** The subject codes of a student, in the order [get_unique_subjects]
    reads the keys [subjects], [sem1_subjects] to [sem4_subjects], where
    the dictionary has them. *)
Definition subject_codes (std : student) : list string :=
  match std with
  | OfGazette s _ => map parser.code (parser.subjects s)
  | OfNEP s =>
      (map code (parser_nep.sem1_subjects s) ++ map code (parser_nep.sem2_subjects s))%list
  | OfSY s =>
      flat_map (fun d => map code (default [] (parser_sy.sem_subjects s !! d)))
               ["1"; "2"; "3"; "4"]
  end.

(** [sorted(l)] for a list of strings: ascending by code points. *)
Fixpoint insert_sorted (x : string) (l : list string) : list string :=
  match l with
  | [] => [x]
  | y :: l' => if String.leb x y then x :: l else y :: insert_sorted x l'
  end.

Definition sorted (l : list string) : list string := fold_right insert_sorted [] l.

(** [get_unique_subjects()] *)
Definition get_unique_subjects (st : store) : list string :=
  let subjects : gset string :=
    fold_left (fun subjects std =>
                 fold_left (fun subjects c => {[c]} ∪ subjects) (subject_codes std) subjects)
              (all_students st) ∅ in
  sorted (elements subjects).

End app.

(** The status [calculate_stats] counts a student under. *)
Definition status_of (std : app.student) : string :=
  if PyStr.contains "PASS" (PyStr.upper (app.result std)) then "pass"
  else if PyStr.contains "A.T.K.T" (PyStr.upper (app.result std))
          || PyStr.contains "ATKT" (PyStr.upper (app.result std)) then "atkt"
  else "fail".

(** The students of a list with the given status, and those of them of
    the given gender in lower case. *)
Definition with_status (status : string) (l : list app.student) : list app.student :=
  List.filter (fun std => String.eqb (status_of std) status) l.

Definition with_gender (g : string) (l : list app.student) : list app.student :=
  List.filter (fun std => String.eqb (app.lower (app.gender std)) g) l.

(** The student as [calculate_stats] leaves it. *)
Definition after_stats (std : app.student) : app.student :=
  if PyStr.contains "PASS" (PyStr.upper (app.result std)) then std
  else app.set_dashboard_sgpa "-" std.

(** The number of times [calculate_stats] adds one under the key [k] for
    a student: once under the status, once under the key of gender and
    status. *)
Definition bumps (std : app.student) (k : string) : nat :=
  (if String.eqb k (status_of std) then 1 else 0)
  + (if String.eqb k (app.lower (app.gender std) +:+ "_" +:+ status_of std) then 1 else 0).

Definition bumps_of (l : list app.student) (k : string) : nat :=
  list_sum (map (fun std => bumps std k) l).

(** A token of [split()]: not empty, without whitespace. *)
Fixpoint no_space (s : string) : bool :=
  match s with
  | EmptyString => true
  | String c t => negb (PyStr.isspace c) && no_space t
  end.

Definition is_token (s : string) : bool := negb (PyStr.is_empty s) && no_space s.

(** A figure as the ledgers print an SGPA or a CGPA: digits and dots, at
    least one. *)
Definition figure_char (c : ascii) : bool := PyStr.isdigit c || Ascii.eqb c ".".

Fixpoint all_figure (s : string) : bool :=
  match s with
  | EmptyString => true
  | String c t => figure_char c && all_figure t
  end.

Definition is_figure (s : string) : bool := negb (PyStr.is_empty s) && all_figure s.

(** The 256 characters, and the sets that hold characters of figures
    only. *)
Definition all_ascii : list ascii := map ascii_of_nat (seq 0 256).

Definition only_figures (s : Re.cset) : bool :=
  forallb (fun c => implb (Re.cset_mem s c) (figure_char c)) all_ascii.

(** * Properties *)

(** ** The matcher computes [Sem] *)

Section MatcherFacts.
Import Re.

Lemma rep_greedy_sound (R : Type) s lo hi (k : mstate -> option R) l :
  forall n st x,
    rest st = l -> rep_greedy s lo hi k n l st = Some x ->
    exists m st', Steps s m st st' /\ lo <= n + m /\ k st' = Some x.
Proof.
  induction l as [|c l IH]; intros n st x Hl H; simpl in H.
  - destruct (lo <=? n)%nat eqn:E; [|discriminate].
    apply Nat.leb_le in E. exists 0, st. split; [constructor|split; [lia|done]].
  - assert (Hstop : (if (lo <=? n)%nat then k st else None) = Some x ->
                    exists m st', Steps s m st st' /\ lo <= n + m /\ k st' = Some x).
    { intros Hs. destruct (lo <=? n)%nat eqn:E; [|discriminate].
      apply Nat.leb_le in E. exists 0, st. split; [constructor|split; [lia|done]]. }
    destruct (cset_mem s c && below hi n) eqn:Ec; [|auto].
    apply andb_true_iff in Ec as [Ec _].
    destruct (rep_greedy s lo hi k (S n) l (advance c l st)) as [r|] eqn:Er; [|auto].
    injection H as ->.
    apply IH in Er as (m & st' & Hm & Hlo & Hk); [|reflexivity].
    exists (S m), st'. split; [econstructor; eauto|split; [lia|done]].
Qed.

Lemma rep_lazy_sound (R : Type) s lo hi (k : mstate -> option R) l :
  forall n st x,
    rest st = l -> rep_lazy s lo hi k n l st = Some x ->
    exists m st', Steps s m st st' /\ lo <= n + m /\ k st' = Some x.
Proof.
  induction l as [|c l IH]; intros n st x Hl H; simpl in H.
  - destruct (lo <=? n)%nat eqn:E; [|discriminate].
    destruct (k st) eqn:Ek; [|discriminate]. injection H as ->.
    apply Nat.leb_le in E. exists 0, st. split; [constructor|split; [lia|done]].
  - assert (Hmore : (if cset_mem s c && below hi n
                     then rep_lazy s lo hi k (S n) l (advance c l st) else None) = Some x ->
                    exists m st', Steps s m st st' /\ lo <= n + m /\ k st' = Some x).
    { intros Hs. destruct (cset_mem s c && below hi n) eqn:Ec; [|discriminate].
      apply andb_true_iff in Ec as [Ec _].
      apply IH in Hs as (m & st' & Hm & Hlo & Hk); [|reflexivity].
      exists (S m), st'. split; [econstructor; eauto|split; [lia|done]]. }
    destruct (lo <=? n)%nat eqn:E; [|auto].
    destruct (k st) eqn:Ek; [|auto]. injection H as ->.
    apply Nat.leb_le in E. exists 0, st. split; [constructor|split; [lia|done]].
Qed.

Lemma mt_sound r :
  forall (R : Type) st (k : mstate -> option R) x,
    mt R r st k = Some x -> exists st', Sem r st st' /\ k st' = Some x.
Proof.
  induction r as [|s|g s lo hi|a IHa b IHb|a IHa b IHb|n a IHa|a IHa|ml|ml];
    intros R st k x H; simpl in H.
  - exists st. split; [constructor|done].
  - destruct (rest st) as [|c l] eqn:El; [discriminate|].
    destruct (cset_mem s c) eqn:Ec; [|discriminate].
    exists (advance c l st). split; [by constructor|done].
  - assert (exists m st', Steps s m st st' /\ lo <= 0 + m /\ k st' = Some x)
      as (m & st' & Hm & Hlo & Hk).
    { destruct g; [eapply rep_greedy_sound|eapply rep_lazy_sound]; eauto. }
    exists st'. split; [econstructor; eauto; lia|done].
  - apply IHa in H as (st1 & H1 & H).
    apply IHb in H as (st2 & H2 & H).
    exists st2. split; [econstructor; eauto|done].
  - destruct (mt R a st k) as [y|] eqn:Ea.
    + injection H as ->. apply IHa in Ea as (st' & H1 & Hk).
      exists st'. split; [by apply Sem_Alt_l|done].
    + apply IHb in H as (st' & H1 & Hk).
      exists st'. split; [by apply Sem_Alt_r|done].
  - apply IHa in H as (st1 & H1 & Hk).
    eexists. split; [by apply Sem_Grp; eauto|done].
  - destruct (mt mstate a st Some) as [st1|] eqn:Ea; [|discriminate].
    apply IHa in Ea as (st' & H1 & Hk). injection Hk as ->.
    eexists. split; [by apply Sem_Ahead; eauto|done].
  - destruct (at_bol ml st) eqn:E; [|discriminate].
    exists st. split; [by constructor|done].
  - destruct (at_eol ml st) eqn:E; [|discriminate].
    exists st. split; [by constructor|done].
Qed.

(** A repetition consumes the characters it matched and keeps the groups. *)
Lemma Steps_consumes s n st st' :
  Steps s n st st' ->
  exists t, rest st = (t ++ rest st')%list /\ length t = n /\ pos st' = pos st + n /\
            Forall (fun c => cset_mem s c = true) t /\ caps st' = caps st.
Proof.
  induction 1 as [st0|n0 c l st0 st0' Hr Hc _ (t & Ht & Hn & Hp & Hf & Hcaps)].
  - exists []. repeat split; auto; simpl; lia.
  - exists (c :: t). simpl in *. rewrite Hr, Ht, Hn, Hp, Hcaps.
    repeat split; auto; lia.
Qed.

Lemma Sem_consumes r st st' :
  Sem r st st' -> exists t, rest st = (t ++ rest st')%list /\ pos st' = pos st + length t.
Proof.
  induction 1 as [st|s c l st Hr Hc|g s lo hi n st st' Hs Hlo
                 |a b st st1 st2 _ (t1 & Ht1 & Hp1) _ (t2 & Ht2 & Hp2)
                 |a b st st' _ IH|a b st st' _ IH
                 |n a st st1 _ (t & Ht & Hp)|a st st1 _ _|ml st _|ml st _].
  - exists []. split; [done|simpl; lia].
  - exists [c]. simpl. split; [done|lia].
  - apply Steps_consumes in Hs as (t & Ht & Hn & Hp & _). exists t. split; [done|lia].
  - exists (t1 ++ t2)%list. rewrite Ht1, Ht2, Hp2, Hp1, length_app, <- app_assoc.
    split; [done|lia].
  - done.
  - done.
  - exists t. done.
  - exists []. split; [done|simpl; lia].
  - exists []. split; [done|simpl; lia].
  - exists []. split; [done|simpl; lia].
Qed.

(** A group holds the text its body consumed. *)
Lemma Sem_Grp_inv n a st st' :
  Sem (Grp n a) st st' ->
  exists st1 t, Sem a st st1 /\ rest st = (t ++ rest st1)%list /\
                caps st' = (n, t) :: caps st1.
Proof.
  inversion 1 as [| | | | | |n' a' st0 st1 Ha| | |]; subst.
  destruct (Sem_consumes _ _ _ Ha) as (t & Ht & Hp).
  exists st1, t. repeat split; auto. simpl. rewrite Ht, Hp.
  replace (pos st + length t - pos st) with (length t) by lia.
  by rewrite firstn_app, firstn_all, Nat.sub_diag, firstn_O, app_nil_r.
Qed.

(** A group that was captured stays captured. *)
Lemma Sem_keeps_groups r st st' n :
  Sem r st st' -> is_Some (cap_lookup n (caps st)) -> is_Some (cap_lookup n (caps st')).
Proof.
  induction 1 as [| |g s lo hi m st st' Hs _| | | |k a st st1 _ IH| | |]; intros Hn; auto.
  - apply Steps_consumes in Hs as (_ & _ & _ & _ & _ & ->). done.
  - simpl. destruct (k =? n)%nat; [by eexists|auto].
Qed.

Lemma sets_sound r st st' n :
  Sem r st st' -> sets n r = true -> is_Some (cap_lookup n (caps st')).
Proof.
  induction 1 as [| | |a b st st1 st2 _ IH1 H2 IH2| | |k a st st1 _ IH| | |];
    simpl; intros Hs; try discriminate.
  - apply orb_true_iff in Hs as [Hs|Hs]; [|auto].
    eapply Sem_keeps_groups; eauto.
  - apply andb_true_iff in Hs as [Hs _]. auto.
  - apply andb_true_iff in Hs as [_ Hs]. auto.
  - destruct (k =? n)%nat; [by eexists|auto].
  - auto.
Qed.

Lemma last_group_sound r :
  forall st st' n s lo,
    Sem r st st' -> last_group r = Some (n, s, lo) ->
    exists t, cap_lookup n (caps st') = Some t /\ lo <= length t /\
              Forall (fun c => cset_mem s c = true) t.
Proof.
  induction r as [|s0|g0 s0 lo0 hi0|a _ b IHb|a _ b _|k a _|a _|ml|ml];
    intros st st' n s lo H Hl; simpl in Hl; try discriminate.
  - inversion H; subst. eauto.
  - destruct a as [| |g s' lo' hi| | | | | |]; try discriminate.
    injection Hl as -> -> ->.
    apply Sem_Grp_inv in H as (st1 & t & Ha & Ht & Hc).
    inversion Ha as [| |g' s1 lo1 hi1 m st2 st2' Hs Hlo| | | | | | |]; subst.
    apply Steps_consumes in Hs as (t' & Ht' & Hn & _ & Hf & _).
    rewrite Ht' in Ht. apply app_inv_tail in Ht. subst t'.
    exists t. rewrite Hc. simpl. rewrite Nat.eqb_refl. repeat split; auto. lia.
Qed.

(** Every match the search functions return is a match of the pattern. *)
Lemma match_here_Matched r ma p pv l m :
  match_here r ma p pv l = Some m -> Matched r m.
Proof.
  unfold match_here. intros H.
  destruct (mt mstate r (MState p pv l []) _) as [st|] eqn:E; [|discriminate].
  injection H as <-. apply mt_sound in E as (st' & Hs & Hk).
  destruct (ma && (pos st' =? p)%nat); [discriminate|]. injection Hk as ->.
  exists (MState p pv l []), st. repeat split; auto.
Qed.

Lemma search_at_Matched r l :
  forall ma p pv m, search_at r ma p pv l = Some m -> Matched r m.
Proof.
  induction l as [|c l IH]; intros ma p pv m H; simpl in H.
  - destruct (match_here r ma p pv []) eqn:E; [|discriminate].
    injection H as ->. eapply match_here_Matched; eauto.
  - destruct (match_here r ma p pv (c :: l)) eqn:E.
    + injection H as ->. eapply match_here_Matched; eauto.
    + eauto.
Qed.

Lemma search_Matched fl pattern s m :
  search fl pattern s = Some m -> Matched (compile fl pattern) m.
Proof. apply search_at_Matched. Qed.

Lemma match_Matched fl pattern s m :
  match_ fl pattern s = Some m -> Matched (compile fl pattern) m.
Proof. apply match_here_Matched. Qed.

Lemma matches_from_Matched r l fuel :
  forall ma p m, In m (matches_from fuel r ma p l) -> Matched r m.
Proof.
  induction fuel as [|f IH]; intros ma p m H; simpl in H; [done|].
  destruct (search_from r ma p l) as [m0|] eqn:E; [|done].
  destruct H as [<-|H]; [|eauto].
  eapply search_at_Matched; eauto.
Qed.

Lemma finditer_Matched fl pattern s m :
  In m (finditer fl pattern s) -> Matched (compile fl pattern) m.
Proof. apply matches_from_Matched. Qed.

Lemma Matched_sets r m n : Matched r m -> sets n r = true -> is_Some (group m n).
Proof.
  intros (st0 & st' & _ & Hs & Hc) Hn. unfold group. rewrite Hc.
  destruct (sets_sound _ _ _ _ Hs Hn) as [t ->]. by eexists.
Qed.

Lemma Matched_last_group r m n s lo :
  Matched r m -> last_group r = Some (n, s, lo) ->
  exists t, group m n = Some (string_of_list_ascii t) /\ lo <= length t /\
            Forall (fun c => cset_mem s c = true) t.
Proof.
  intros (st0 & st' & _ & Hs & Hc) Hl.
  destruct (last_group_sound _ _ _ _ _ _ Hs Hl) as (t & Ht & Hlo & Hf).
  exists t. unfold group. rewrite Hc, Ht. done.
Qed.

End MatcherFacts.

(** ** The rounds of [finditer] suffice *)

Section Fuel.
Import Re.

Lemma match_here_span r ma p pv l m :
  match_here r ma p pv l = Some m ->
  m_start m = p /\ p <= m_end m <= p + length l /\ (ma = true -> p < m_end m).
Proof.
  unfold match_here. intros H.
  destruct (mt mstate r (MState p pv l []) _) as [st|] eqn:E; [|discriminate].
  injection H as <-. apply mt_sound in E as (st' & Hs & Hk). simpl.
  destruct (ma && (pos st' =? p)%nat) eqn:Ea; [discriminate|]. injection Hk as ->.
  apply Sem_consumes in Hs as (t & Ht & Hp). simpl in Ht, Hp.
  assert (Hlen : length l = length t + length (rest st))
    by (rewrite Ht, length_app; reflexivity).
  split; [reflexivity|]. split; [lia|].
  intros ->. simpl in Ea. apply Nat.eqb_neq in Ea. lia.
Qed.

Lemma search_at_span r l :
  forall ma p pv m,
    search_at r ma p pv l = Some m ->
    p <= m_start m /\ m_start m <= m_end m <= p + length l /\ (ma = true -> p < m_end m).
Proof.
  induction l as [|c l IH]; intros ma p pv m H; simpl in H.
  - destruct (match_here r ma p pv []) eqn:E; [|discriminate]. injection H as ->.
    apply match_here_span in E as (-> & Hb & Ha). simpl in *. repeat split; auto; lia.
  - destruct (match_here r ma p pv (c :: l)) eqn:E.
    + injection H as ->. apply match_here_span in E as (-> & Hb & Ha).
      simpl in *. repeat split; auto; lia.
    + apply IH in H as (Hs & Hb & _). simpl. repeat split; lia.
Qed.

Lemma search_from_span r ma p l m :
  p <= length l ->
  search_from r ma p l = Some m ->
  p <= m_start m /\ m_start m <= m_end m <= length l /\ (ma = true -> p < m_end m).
Proof.
  unfold search_from. intros Hp H. apply search_at_span in H as (Hs & Hb & Ha).
  rewrite length_skipn in Hb. repeat split; auto; lia.
Qed.

(** Rounds beyond the measure of the position change nothing. *)
Lemma matches_from_stable r l f1 :
  forall f2 (ma : bool) p,
    p <= length l ->
    2 * (length l - p) + (if ma then 0 else 1) < f1 ->
    2 * (length l - p) + (if ma then 0 else 1) < f2 ->
    matches_from f1 r ma p l = matches_from f2 r ma p l.
Proof.
  induction f1 as [|f1 IH]; intros f2 ma p Hp H1 H2; [lia|].
  destruct f2 as [|f2]; [lia|]. simpl.
  destruct (search_from r ma p l) as [m|] eqn:E; [|reflexivity].
  apply search_from_span in E as (Hs & Hb & Ha); [|exact Hp].
  f_equal. apply IH; [lia| |].
  - destruct (m_end m =? m_start m)%nat eqn:Ee.
    + apply Nat.eqb_eq in Ee. destruct ma; [specialize (Ha eq_refl)|]; lia.
    + apply Nat.eqb_neq in Ee. destruct ma; lia.
  - destruct (m_end m =? m_start m)%nat eqn:Ee.
    + apply Nat.eqb_eq in Ee. destruct ma; [specialize (Ha eq_refl)|]; lia.
    + apply Nat.eqb_neq in Ee. destruct ma; lia.
Qed.

(** [finditer] has rounds enough: any larger number gives the same
    matches. *)
Lemma finditer_fuel fl pattern s extra :
  matches_from (2 * length (list_ascii_of_string s) + 2 + extra)
               (compile fl pattern) false 0 (list_ascii_of_string s)
  = finditer fl pattern s.
Proof.
  unfold finditer. apply matches_from_stable; lia.
Qed.

End Fuel.

(** ** Every pattern of the parsers is in the fragment *)

Lemma plain_patterns_compile :
  forallb (fun u => match Re.compile (fst u) (snd u) with
                    | Re.Cls Re.CNone => false
                    | _ => true
                    end) plain_patterns = true.
Proof. vm_compute. reflexivity. Qed.


(** ** The groups read with [group_text] are always there *)

Lemma group_uses_set :
  forallb (fun u => Re.sets (snd u) (Re.compile (fst (fst u)) (snd (fst u)))) group_uses = true.
Proof. vm_compute. reflexivity. Qed.

Lemma group_always_set fl pattern n s m :
  In (fl, pattern, n) group_uses ->
  Re.search fl pattern s = Some m \/ Re.match_ fl pattern s = Some m
  \/ In m (Re.finditer fl pattern s) ->
  is_Some (Re.group m n).
Proof.
  intros Hu Hm.
  assert (Hs : Re.sets n (Re.compile fl pattern) = true).
  { pose proof group_uses_set as HF. rewrite forallb_forall in HF. apply (HF _ Hu). }
  apply (Matched_sets (Re.compile fl pattern)); [|exact Hs].
  destruct Hm as [Hm|[Hm|Hm]].
  - eapply search_Matched; eauto.
  - eapply match_Matched; eauto.
  - eapply finditer_Matched; eauto.
Qed.

(** ** Strings of digits *)

Lemma digit_not_space c : PyStr.isdigit c = true -> PyStr.isspace c = false.
Proof.
  unfold PyStr.isdigit, PyStr.isspace, PyStr.between. intros H.
  apply andb_true_iff in H as [H1 H2].
  apply N.leb_le in H1. apply N.leb_le in H2.
  apply orb_false_iff. split; apply andb_false_iff.
  - right. apply N.leb_gt. lia.
  - right. apply N.leb_gt. lia.
Qed.

Lemma all_digits_rstrip s :
  PyStr.all_digits s = true -> PyStr.rstrip_by PyStr.isspace s = s.
Proof.
  induction s as [|c t IH]; simpl; [done|]. intros H.
  apply andb_true_iff in H as [Hc Ht].
  rewrite (IH Ht), (digit_not_space _ Hc), andb_false_r. done.
Qed.

Lemma all_digits_strip s : PyStr.all_digits s = true -> PyStr.strip s = s.
Proof.
  intros H. unfold PyStr.strip.
  assert (Hl : PyStr.lstrip_by PyStr.isspace s = s).
  { destruct s as [|c t]; simpl in *; [done|].
    apply andb_true_iff in H as [Hc _]. by rewrite (digit_not_space _ Hc). }
  rewrite Hl. by apply all_digits_rstrip.
Qed.

Lemma digits_of_list t :
  1 <= length t -> Forall (fun c => Re.cset_mem Re.CDigit c = true) t ->
  PyStr.str_isdigit (string_of_list_ascii t) = true.
Proof.
  intros Hl Hf. unfold PyStr.str_isdigit. apply andb_true_iff. split.
  - destruct t; simpl in *; [lia|done].
  - clear Hl. induction Hf as [|c t Hc _ IH]; simpl; [done|].
    simpl in Hc. by rewrite Hc, IH.
Qed.

Lemma str_isdigit_strip s : PyStr.str_isdigit s = true -> PyStr.strip s = s.
Proof.
  unfold PyStr.str_isdigit. intros H. apply andb_true_iff in H as [_ H].
  by apply all_digits_strip.
Qed.

Lemma str_isdigit_nonempty s : PyStr.str_isdigit s = true -> s <> "".
Proof. by destruct s. Qed.

(** A pattern that ends in a group of one or more digits captures a
    string of digits in that group. *)
Lemma last_group_digits fl pattern n lo m :
  Re.last_group (Re.compile fl pattern) = Some (n, Re.CDigit, S lo) ->
  Re.Matched (Re.compile fl pattern) m ->
  PyStr.str_isdigit (group_text m n) = true.
Proof.
  intros Hl Hm.
  destruct (Matched_last_group _ _ _ _ _ Hm Hl) as (t & Hg & Hlen & Hf).
  unfold group_text. rewrite Hg. simpl. apply digits_of_list; [lia|done].
Qed.

(** ** parser_sy: what a block and a document yield *)

#[local] Arguments Re.search : simpl never.
#[local] Arguments Re.match_ : simpl never.
#[local] Arguments Re.finditer : simpl never.
#[local] Arguments Re.split : simpl never.
#[local] Arguments Re.split_keep : simpl never.
#[local] Arguments Re.sub : simpl never.
#[local] Arguments Re.compile : simpl never.

Lemma sy_parse_block_emits subject_map metadata block s :
  parser_sy.parse_block subject_map metadata block = Ok (Some s) ->
  exists st m,
    parser_sy.scan_block subject_map block = Ok st /\
    parser_sy.prn_m block = Some m /\
    parser_sy.prn s = group_text m 1 /\
    parser_sy.sem_subjects s = fst st /\
    parser_sy.result s =
      match parser_sy.explicit_result block with
      | Some r => r
      | None => parser_sy.infer_result (parser_sy.all_grades (fst st))
      end /\
    parser_sy.dashboard_sgpa s =
      (if PyStr.contains "PASS" (PyStr.upper (parser_sy.result s))
       then parser_sy.first_sgpa parser_sy.sgpa_labels block else "-") /\
    parser_sy.total_marks s = parser_sy.dashboard_sgpa s.
Proof.
  unfold parser_sy.parse_block. intros H.
  destruct (parser_sy.scan_block subject_map block) as [st|e]; [|discriminate].
  unfold mbind, res_bind in H.
  destruct (parser_sy.prn_m block) as [m|] eqn:Em.
  - destruct (negb (String.eqb (group_text m 1) "-")); [|discriminate].
    injection H as <-. exists st, m. simpl. repeat split; reflexivity.
  - discriminate.
Qed.

Lemma sy_block_round_emits subject_map metadata block metadata' s :
  parser_sy.block_round subject_map metadata block = (metadata', Some s) ->
  PyStr.contains "SEMESTER" block = true /\
  exists md, parser_sy.parse_block subject_map md block = Ok (Some s).
Proof.
  unfold parser_sy.block_round. intros H.
  destruct (PyStr.contains "SEMESTER" block); simpl in H; [|discriminate].
  split; [done|].
  match type of H with
  | context [parser_sy.parse_block _ ?md _] =>
      exists md; destruct (parser_sy.parse_block subject_map md block) as [o|e]
  end.
  - by injection H as _ ->.
  - discriminate.
Qed.

Lemma sy_blocks_loop_emits subject_map blocks :
  forall metadata acc metadata' out s,
    parser_sy.blocks_loop subject_map blocks metadata acc = (metadata', out) ->
    In s out ->
    In s acc \/
    exists block md md',
      In block blocks /\ parser_sy.block_round subject_map md block = (md', Some s).
Proof.
  induction blocks as [|b bs IH]; intros metadata acc metadata' out s H Hin; simpl in H.
  - injection H as _ <-. by left.
  - destruct (parser_sy.block_round subject_map metadata b) as [md1 [s1|]] eqn:Er.
    + destruct (IH _ _ _ _ _ H Hin) as [Hacc|(block & md & md' & Hb & Hr)].
      * apply in_app_or in Hacc as [Hacc|[<-|[]]]; [by left|].
        right. exists b, metadata, md1. split; [by left|done].
      * right. exists block, md, md'. split; [by right|done].
    + destruct (IH _ _ _ _ _ H Hin) as [Hacc|(block & md & md' & Hb & Hr)]; [by left|].
      right. exists block, md, md'. split; [by right|done].
Qed.

(** Every student of the envelope comes from a round of the loop over
    the blocks of the document. *)
Lemma sy_main_emits doc s :
  In s (Doc.student_data (parser_sy.main doc)) ->
  exists subject_map block md md',
    parser_sy.block_round subject_map md block = (md', Some s).
Proof.
  unfold parser_sy.main. destruct doc as [why|pages]; [intros []|].
  destruct (parser_sy.extract_subject_mapping pages) as [subject_map backup_meta].
  destruct (parser_sy.blocks_loop _ _ _ _) as [md out] eqn:El. simpl. intros Hin.
  destruct (sy_blocks_loop_emits _ _ _ _ _ _ _ El Hin) as [[]|(block & md0 & md' & _ & Hr)].
  by exists subject_map, block, md0, md'.
Qed.

(** ** parser_nep: what a block and a document yield *)

Lemma nep_block_emits block subject_map s :
  parser_nep.parse_nep_block block subject_map = Some s ->
  exists pm sm,
    parser_nep.prn_match block = Some pm /\
    parser_nep.seat_match block = Some sm /\
    parser_nep.prn s = PyStr.strip (group_text pm 1) /\
    parser_nep.seat_no s = PyStr.strip (group_text sm 1) /\
    parser_nep.dashboard_sgpa s = parser_nep.current_sgpa block /\
    parser_nep.result s =
      parser_nep.resolve_result (parser_nep.fy_text block)
        (parser_nep.all_grades (parser_nep.scan_block block subject_map)).
Proof.
  unfold parser_nep.parse_nep_block. intros H.
  destruct (parser_nep.prn_match block) as [pm|]; [|discriminate].
  destruct (parser_nep.seat_match block) as [sm|]; [|discriminate].
  exists pm, sm.
  match type of H with
  | context [mbind _ ?c] => destruct c as [full_name|e]
  end; unfold mbind, res_bind in H; [|discriminate].
  injection H as <-. simpl. repeat split; reflexivity.
Qed.

Lemma nep_page_blocks_emits subject_map metadata blocks s :
  In s (parser_nep.page_blocks subject_map metadata blocks) ->
  exists block s0,
    parser_nep.parse_nep_block block subject_map = Some s0 /\
    s = parser_nep.with_course (Doc.course_name metadata) s0.
Proof.
  induction blocks as [|b bs IH]; simpl; [done|].
  destruct (PyStr.contains "SEMESTER" (PyStr.upper b)); [|done].
  destruct (parser_nep.parse_nep_block b subject_map) as [s0|] eqn:E; [|done].
  intros [<-|Hin]; [|auto]. by exists b, s0.
Qed.

Lemma nep_main_emits doc s :
  In s (Doc.student_data (parser_nep.main doc)) ->
  exists subject_map block c s0,
    parser_nep.parse_nep_block block subject_map = Some s0 /\
    s = parser_nep.with_course c s0.
Proof.
  unfold parser_nep.main. destruct doc as [why|pages]; [intros []|].
  set (subject_map := parser_nep.extract_subject_mapping pages).
  set (metadata := parser_nep.extract_header_metadata pages).
  intros Hin.
  assert (Hall : In s (flat_map (parser_nep.page_students subject_map metadata) pages)).
  { destruct (flat_map _ pages); [destruct Hin|exact Hin]. }
  apply in_flat_map in Hall as (p & _ & Hp).
  unfold parser_nep.page_students in Hp.
  destruct (PyStr.is_empty _); [destruct Hp|].
  apply nep_page_blocks_emits in Hp as (block & s0 & Hb & ->).
  by exists subject_map, block, (Doc.course_name metadata), s0.
Qed.

(** ** parser: what a block and a document yield *)

Lemma gazette_block_emits block s :
  parser.parse_gazette_block block = Some s ->
  exists m,
    parser.info_match block = Some m /\
    parser.seat_no s = PyStr.strip (group_text m 1) /\
    parser.prn s = PyStr.strip (group_text m 4).
Proof.
  unfold parser.parse_gazette_block. intros H.
  destruct (parser.info_match block) as [m|]; [|discriminate].
  exists m. split; [done|].
  match type of H with
  | context [mbind _ ?c] => destruct c as [[full_name mother_name]|e]
  end; unfold mbind, res_bind in H; [|discriminate].
  destruct (parser.totals "TOTAL\s+(\d+)\s+\d+\s+(\d+)" block) as [tc tm].
  destruct (parser.totals "F\.Y\.TOTAL\s+(\d+)\s+\d+\s+(\d+)" block) as [fc fm].
  destruct (parser.cgpa_match block); injection H as <-; simpl; done.
Qed.

Lemma gazette_blocks_emits blocks s :
  In s (parser.parse_blocks blocks) ->
  exists block, parser.parse_gazette_block block = Some s.
Proof.
  induction blocks as [|b bs IH]; simpl; [done|].
  destruct (PyStr.truthy (PyStr.strip b) && negb (PyStr.contains "SEAT NO." b)); [|done].
  destruct (parser.parse_gazette_block b) as [s0|] eqn:E; [|done].
  intros [<-|Hin]; [|auto]. by exists b.
Qed.

Lemma gazette_main_emits doc s :
  In s (Doc.student_data (parser.main doc)) ->
  exists block, parser.parse_gazette_block block = Some s.
Proof.
  unfold parser.main. destruct doc as [why|pages]; [intros []|].
  unfold parser.analyze_gazette_pattern. intros Hin.
  apply gazette_blocks_emits with (blocks := Re.split Re.NOFLAG "-{30,}"
    (PyStr.join PyStr.nl (map (fun p => Doc.extract_text p Doc.X3Y3) pages))).
  destruct (parser.parse_blocks _); [destruct Hin|exact Hin].
Qed.

(** * The claims *)

(** ** C1: the envelope of a document without student records *)

(** The NEP and gazette parsers report a document without student
    records as a failure. *)
Lemma nep_main_guard doc :
  Doc.student_data (parser_nep.main doc) = [] -> Doc.success (parser_nep.main doc) = false.
Proof.
  unfold parser_nep.main. destruct doc as [why|pages]; [done|].
  destruct (flat_map _ pages); [done|discriminate].
Qed.

Lemma gazette_main_guard doc :
  Doc.student_data (parser.main doc) = [] -> Doc.success (parser.main doc) = false.
Proof.
  unfold parser.main. destruct doc as [why|pages]; [done|].
  destruct (parser.analyze_gazette_pattern _); [done|discriminate].
Qed.

(** C1, on the code: [parser_sy.main] returns [success = True] for every
    document it can open, and for a document without any student block
    it returns [success = True] together with an empty [student_data],
    where the claim asks for [success = False]. *)
Theorem C1_sy_success_without_students :
  (forall pages, Doc.success (parser_sy.main (Doc.Readable pages)) = true) /\
  Doc.success (parser_sy.main (Doc.Readable [Sample.no_ledger])) = true /\
  Doc.student_data (parser_sy.main (Doc.Readable [Sample.no_ledger])) = [] /\
  Doc.student_data (parser_sy.main (Doc.Readable [])) = [].
Proof.
  split; [|split; [|split]].
  - intros pages. unfold parser_sy.main.
    destruct (parser_sy.extract_subject_mapping pages) as [subject_map backup_meta].
    by destruct (parser_sy.blocks_loop _ _ _ _).
  - vm_compute. reflexivity.
  - vm_compute. reflexivity.
  - vm_compute. reflexivity.
Qed.

(** ** C8: the absence sentinels of a mark *)

(** C8: each of the raw mark tokens "---", "AB" and "AAA" is split by
    [split_prefix_marks] into the pair ("-", "-"). *)
Theorem C8_absence_sentinels val :
  In val ["---"; "AB"; "AAA"] -> parser_sy.split_prefix_marks val = ("-", "-").
Proof.
  intros [<-|[<-|[<-|[]]]]; vm_compute; reflexivity.
Qed.

Lemma C8_absence_sentinels_witness :
  In "AAA" ["---"; "AB"; "AAA"] /\ parser_sy.split_prefix_marks "AAA" = ("-", "-").
Proof.
  assert (H : In "AAA" ["---"; "AB"; "AAA"]) by (simpl; auto).
  split; [exact H|apply (C8_absence_sentinels "AAA" H)].
Defined.

(** ** C9: a prefix symbol is merged with the mark after it *)




(** ** C2: the fields of a subject row *)

(** The row of C2 with the literal token CODE is a header line for
    [parse_marks_row], which returns [None] for it. *)
Lemma C2_literal_code_is_ignored :
  PyStr.split "CODE 45 38 83 4 4 A 8 32"
  = ["CODE"; "45"; "38"; "83"; "4"; "4"; "A"; "8"; "32"] /\
  parser_sy.parse_marks_row "CODE 45 38 83 4 4 A 8 32" ∅ = None.
Proof. split; reflexivity. Qed.

(** C2, amended: for a line whose tokens are c, 45, 38, 83, 4, 4, A, 8, 32
    and which is not one of the lines [parse_marks_row] ignores (its text
    in upper case has none of CODE, NAME:, PRN:), and for any subject map,
    the row has grd A, crd 4, ern 4, total 83, gp 8, cp 32, int_m 45 and
    ext_m 38. *)
Theorem C2_grade_anchoring line c subject_map :
  PyStr.split line = [c; "45"; "38"; "83"; "4"; "4"; "A"; "8"; "32"] ->
  parser_sy.ignored line = false ->
  exists row,
    parser_sy.parse_marks_row line subject_map = Some row /\
    grd row = "A" /\ crd row = "4" /\ ern row = "4" /\ total row = "83" /\
    gp row = "8" /\ cp row = "32" /\ int_m row = "45" /\ ext_m row = "38".
Proof.
  intros Hs Hi. unfold parser_sy.parse_marks_row. rewrite Hi, Hs.
  eexists. split; [reflexivity|]. repeat split; reflexivity.
Qed.

Lemma C2_grade_anchoring_witness :
  exists row,
    parser_sy.parse_marks_row "CS101 45 38 83 4 4 A 8 32" ∅ = Some row /\
    grd row = "A" /\ crd row = "4" /\ ern row = "4" /\ total row = "83" /\
    gp row = "8" /\ cp row = "32" /\ int_m row = "45" /\ ext_m row = "38".
Proof.
  apply (C2_grade_anchoring "CS101 45 38 83 4 4 A 8 32" "CS101" ∅); reflexivity.
Defined.

(** ** C4: the layout around the grade *)

Lemma index_from_end {A : Type} (l : list A) (i : Z) :
  (1 <= i <= parser_sy.len l)%Z -> PyStr.index l (- i) = PyStr.index l (parser_sy.len l - i).
Proof.
  unfold PyStr.index, parser_sy.len. intros Hi.
  replace (- i <? 0)%Z with true by (symmetry; apply Z.ltb_lt; lia).
  replace (Z.of_nat (length l) - i <? 0)%Z with false by (symmetry; apply Z.ltb_ge; lia).
  replace (- i + Z.of_nat (length l))%Z with (Z.of_nat (length l) - i)%Z by lia.
  reflexivity.
Qed.

Lemma at_Ok {A : Type} (l : list A) (i : Z) (x : A) :
  PyStr.at_ l i = Ok x -> PyStr.index l i = Some x.
Proof. unfold PyStr.at_. destruct (PyStr.index l i); [by intros [= ->]|discriminate]. Qed.

Lemma index_past_end {A : Type} (l : list A) (i : Z) :
  (parser_sy.len l <= i)%Z -> PyStr.index l i = None.
Proof.
  unfold PyStr.index, parser_sy.len. intros Hi.
  replace (i <? 0)%Z with false by (symmetry; apply Z.ltb_ge; lia).
  replace (i <? Z.of_nat (length l))%Z with false by (symmetry; apply Z.ltb_ge; lia).
  by rewrite andb_false_r.
Qed.

(** The scan finds a grade of the vocabulary, at an index from 1 on. *)
Lemma find_grade_spec parts range grade_idx g :
  Forall (fun i => (1 <= i)%Z) range ->
  parser_sy.find_grade parts range = Ok (Some (grade_idx, g)) ->
  (1 <= grade_idx < parser_sy.len parts)%Z /\
  PyStr.index parts grade_idx = Some g /\
  In g parser_sy.valid_grades.
Proof.
  induction 1 as [|i range Hi _ IH]; cbn [parser_sy.find_grade]; [discriminate|].
  destruct (i >=? parser_sy.len parts)%Z eqn:Ei; [discriminate|].
  rewrite Z.geb_leb in Ei. apply Z.leb_gt in Ei.
  destruct (PyStr.at_ parts (- i)) as [g0|e] eqn:Ea; [|discriminate].
  unfold mbind, res_bind.
  destruct (PyStr.mem g0 parser_sy.valid_grades) eqn:Em; [|exact IH].
  intros [= <- <-]. apply at_Ok in Ea. rewrite index_from_end in Ea by lia.
  split; [lia|split; [exact Ea|]].
  unfold PyStr.mem in Em. apply existsb_exists in Em as (x & Hx & Heq).
  apply String.eqb_eq in Heq. by subst.
Qed.

(** The NEP rows have the same layout, read from the end of the line: the
    grade is the third token from the end, the grade point and the credit
    point follow it, and the earned credits precede it. *)
Lemma nep_row_layout code_clean grade parts subject_map row :
  parser_nep.record_of_parts code_clean grade parts subject_map = Ok row ->
  grd row = grade /\
  PyStr.index parts (-4) = Some (ern row) /\
  PyStr.index parts (-2) = Some (gp row) /\
  PyStr.index parts (-1) = Some (cp row).
Proof.
  unfold parser_nep.record_of_parts. intros H.
  destruct (PyStr.at_ parts (-6)) as [total|] eqn:E6; [|discriminate].
  destruct (PyStr.at_ parts (-5)) as [crd|] eqn:E5; [|discriminate].
  destruct (PyStr.at_ parts (-4)) as [ern|] eqn:E4; [|discriminate].
  destruct (PyStr.at_ parts (-2)) as [gp|] eqn:E2; [|discriminate].
  destruct (PyStr.at_ parts (-1)) as [cp|] eqn:E1; [|discriminate].
  unfold mbind, res_bind in H.
  repeat match type of H with
         | context [parser_nep.mark_or_absent ?l ?i] =>
             destruct (parser_nep.mark_or_absent l i) as [[? ?]|]; [|discriminate]
         end.
  injection H as <-. simpl. auto using at_Ok.
Qed.

(** The row of C4: the token to the right of the grade A is 8. *)
Lemma C4_earned_is_left_of_grade :
  PyStr.split "CS101 45 38 83 4 3 A 8 32"
  = ["CS101"; "45"; "38"; "83"; "4"; "3"; "A"; "8"; "32"] /\
  exists row,
    parser_sy.parse_marks_row "CS101 45 38 83 4 3 A 8 32" ∅ = Some row /\
    grd row = "A" /\ ern row = "3" /\ gp row = "8" /\ cp row = "32" /\
    ern row <> "8" /\ gp row <> "32" /\ cp row <> "0".
Proof.
  split; [reflexivity|]. eexists. split; [reflexivity|]. by repeat split.
Qed.

(** C4, amended: in every row [parse_marks_row] returns, the grade is a
    token of the line at an index from 1 on; the two tokens to its right
    are, in order, the grade point and the credit point, each "0" when it
    is past the end of the tokens; the earned credits are the token to
    the left of the grade; the credits are the token before that when the
    grade is at index 2 or later, and when the grade is at index 1, the
    second token of the line, the credits are read at index -1, which is
    the last token of the line. *)
Theorem C4_pivot_layout line subject_map row :
  parser_sy.parse_marks_row line subject_map = Some row ->
  exists grade_idx : Z,
    (1 <= grade_idx < parser_sy.len (PyStr.split line))%Z /\
    PyStr.index (PyStr.split line) grade_idx = Some (grd row) /\
    In (grd row) parser_sy.valid_grades /\
    gp row = default "0" (PyStr.index (PyStr.split line) (grade_idx + 1)) /\
    cp row = default "0" (PyStr.index (PyStr.split line) (grade_idx + 2)) /\
    nth_error (PyStr.split line) (Z.to_nat (grade_idx - 1)) = Some (ern row) /\
    ((2 <= grade_idx)%Z ->
     nth_error (PyStr.split line) (Z.to_nat (grade_idx - 2)) = Some (crd row)) /\
    (grade_idx = 1%Z ->
     nth_error (PyStr.split line) (length (PyStr.split line) - 1) = Some (crd row)).
Proof.
  unfold parser_sy.parse_marks_row.
  destruct (parser_sy.ignored line); [discriminate|].
  set (parts := PyStr.split line).
  destruct (parser_sy.row_of_parts parts subject_map) as [r|e] eqn:Er; [|discriminate].
  intros ->. unfold parser_sy.row_of_parts in Er.
  destruct (parser_sy.len parts <? 6)%Z; [discriminate|].
  destruct (parser_sy.find_grade parts _) as [[[grade_idx g]|]|e] eqn:Ef;
    unfold mbind, res_bind in Er; try discriminate.
  apply find_grade_spec in Ef as (Hidx & Hg & Hv); [|repeat constructor; lia].
  destruct (PyStr.at_ parts (grade_idx - 1)) as [ern|] eqn:E1; [|discriminate].
  destruct (PyStr.at_ parts (grade_idx - 2)) as [crd|] eqn:E2; [|discriminate].
  destruct (PyStr.at_ parts (grade_idx - 3)) as [p1|] eqn:E3; [|discriminate].
  destruct (PyStr.at_ parts (grade_idx - 4)) as [p2|] eqn:E4; [|discriminate].
  match type of Er with
  | context [let '(_, _) := ?c in _] => destruct c as [total marks_end_idx]
  end.
  assert (Hgp : forall k v,
             (if (grade_idx + k <? parser_sy.len parts)%Z
              then PyStr.at_ parts (grade_idx + k) else Ok "0") = Ok v ->
             v = default "0" (PyStr.index parts (grade_idx + k))).
  { intros k v Hk. destruct (grade_idx + k <? parser_sy.len parts)%Z eqn:El.
    - apply at_Ok in Hk. by rewrite Hk.
    - apply Z.ltb_ge in El. rewrite index_past_end by lia. by injection Hk as <-. }
  destruct (if (grade_idx + 1 <? _)%Z then _ else _) as [gp|] eqn:Egp; [|discriminate].
  destruct (if (grade_idx + 2 <? _)%Z then _ else _) as [cp|] eqn:Ecp; [|discriminate].
  destruct (PyStr.at_ parts 0) as [code0|]; [|discriminate].
  match type of Er with
  | context [PyStr.at_ ?cols 0] =>
      destruct (PyStr.at_ cols 0) as [c0|]; [|discriminate];
      destruct (PyStr.at_ cols 1) as [c1|]; [|discriminate];
      destruct (PyStr.at_ cols 2) as [c2|]; [|discriminate]
  end.
  destruct (parser_sy.split_prefix_marks c0) as [p_int int_m].
  destruct (parser_sy.split_prefix_marks c1) as [p_ext ext_m].
  destruct (parser_sy.split_prefix_marks c2) as [p_pr pr_m].
  injection Er as <-. simpl. exists grade_idx.
  apply at_Ok in E1, E2. unfold PyStr.index, parser_sy.len in *.
  split; [lia|]. split; [exact Hg|]. split; [exact Hv|].
  split; [by apply Hgp|]. split; [by apply Hgp|]. split; [|split].
  - replace (grade_idx - 1 <? 0)%Z with false in E1 by (symmetry; apply Z.ltb_ge; lia).
    destruct ((0 <=? grade_idx - 1)%Z && (grade_idx - 1 <? Z.of_nat (length parts))%Z);
      [exact E1|discriminate].
  - intros H2. replace (grade_idx - 2 <? 0)%Z with false in E2
      by (symmetry; apply Z.ltb_ge; lia).
    destruct ((0 <=? grade_idx - 2)%Z && (grade_idx - 2 <? Z.of_nat (length parts))%Z);
      [exact E2|discriminate].
  - intros ->. change (1 - 2 <? 0)%Z with true in E2. cbn iota in E2.
    destruct ((0 <=? 1 - 2 + Z.of_nat (length parts))%Z
              && (1 - 2 + Z.of_nat (length parts) <? Z.of_nat (length parts))%Z);
      [|discriminate].
    replace (Z.to_nat (1 - 2 + Z.of_nat (length parts))) with (length parts - 1) in E2
      by lia.
    exact E2.
Qed.

Lemma C4_pivot_layout_witness :
  parser_sy.parse_marks_row "CS101 45 38 83 4 3 A" ∅
  = Some (SubjectRow "CS101" "Subject Name Not Found" "" "45" "" "38" "-" "-"
                     "83" "4" "3" "A" "0" "0") /\
  (exists grade_idx : Z,
     PyStr.index (PyStr.split "CS101 45 38 83 4 3 A") grade_idx = Some "A" /\
     nth_error (PyStr.split "CS101 45 38 83 4 3 A") (Z.to_nat (grade_idx - 1))
     = Some "3") /\
  (exists row grade_idx,
     parser_sy.parse_marks_row "X A 1 2 3 4" ∅ = Some row /\
     PyStr.index (PyStr.split "X A 1 2 3 4") grade_idx = Some (grd row) /\
     grd row = "A" /\ ern row = "X" /\ crd row = "4").
Proof.
  assert (H : parser_sy.parse_marks_row "CS101 45 38 83 4 3 A" ∅
              = Some (SubjectRow "CS101" "Subject Name Not Found" "" "45" "" "38" "-" "-"
                                 "83" "4" "3" "A" "0" "0")) by reflexivity.
  split; [exact H|]. split.
  - destruct (C4_pivot_layout _ _ _ H) as (grade_idx & _ & Hg & _ & _ & _ & He & _).
    exists grade_idx. split; [exact Hg|exact He].
  - destruct (parser_sy.parse_marks_row "X A 1 2 3 4" ∅) as [row|] eqn:E;
      [|vm_compute in E; discriminate].
    destruct (C4_pivot_layout _ _ _ E) as (grade_idx & _ & Hg & _ & _ & _ & _ & _ & _).
    exists row, grade_idx. split; [reflexivity|]. split; [exact Hg|].
    vm_compute in E. injection E as <-. by repeat split.
Defined.

(** ** C10: total_marks in the second-year pattern *)

(** The value phase 9 selects is the sentinel or the figure of a label. *)
Lemma first_sgpa_cases block labels :
  parser_sy.first_sgpa labels block = "-" \/
  exists label m,
    In label labels /\ parser_sy.sgpa_m label block = Some m /\
    parser_sy.first_sgpa labels block = group_text m 1.
Proof.
  induction labels as [|l0 labels IH]; simpl; [by left|].
  destruct (parser_sy.sgpa_m l0 block) as [m|] eqn:Em.
  - right. exists l0, m. auto.
  - destruct IH as [IH|(label & m & Hl & Hm & IH)]; [by left|].
    right. exists label, m. auto.
Qed.

Lemma first_sgpa_latest block later :
  forall label earlier m,
    (forall l, In l later -> parser_sy.sgpa_m l block = None) ->
    parser_sy.sgpa_m label block = Some m ->
    parser_sy.first_sgpa (later ++ label :: earlier)%list block = group_text m 1.
Proof.
  induction later as [|l0 later IH]; intros label earlier m Hnone Hm; simpl.
  - by rewrite Hm.
  - rewrite (Hnone l0) by (by left). apply IH; [|done].
    intros l Hl. apply Hnone. by right.
Qed.

Lemma first_sgpa_none block labels :
  (forall l, In l labels -> parser_sy.sgpa_m l block = None) ->
  parser_sy.first_sgpa labels block = "-".
Proof.
  induction labels as [|l0 labels IH]; intros Hnone; simpl; [done|].
  rewrite (Hnone l0) by (by left). apply IH. intros l Hl. apply Hnone. by right.
Qed.

#[local] Arguments PyStr.contains : simpl never.
#[local] Arguments PyStr.upper : simpl never.

(** Every student of the envelope comes from the round of one of the
    blocks the text of the document is cut into. *)
Lemma sy_main_emits_block doc s :
  In s (Doc.student_data (parser_sy.main doc)) ->
  exists pages subject_map block md md',
    doc = Doc.Readable pages /\
    In block (Re.split Re.NOFLAG "(?=PRN:\s*\d+)"
                (PyStr.join PyStr.nl (map (fun p => Doc.extract_text p Doc.X2) pages))) /\
    parser_sy.block_round subject_map md block = (md', Some s).
Proof.
  unfold parser_sy.main. destruct doc as [why|pages]; [intros []|].
  destruct (parser_sy.extract_subject_mapping pages) as [subject_map backup_meta].
  destruct (parser_sy.blocks_loop _ _ _ _) as [md out] eqn:El. simpl. intros Hin.
  destruct (sy_blocks_loop_emits _ _ _ _ _ _ _ El Hin) as [[]|(block & md0 & md' & Hb & Hr)].
  by exists pages, subject_map, block, md0, md'.
Qed.

(** C10: every student record [parser_sy.main] emits has [total_marks]
    equal to [dashboard_sgpa], and the value is read from the student's
    own block, the one of the blocks of the document whose PRN the record
    has: it is the sentinel "-" when the result does not contain PASS;
    when it does, it is the figure after "<label> Semester SGPA :" for the
    first label of Fourth, Third, Second, First that has such a figure in
    the block, and the sentinel "-" when no label has one. *)
Theorem C10_total_marks_is_dashboard_sgpa doc s :
  In s (Doc.student_data (parser_sy.main doc)) ->
  parser_sy.total_marks s = parser_sy.dashboard_sgpa s /\
  exists pages block pm,
    doc = Doc.Readable pages /\
    In block (Re.split Re.NOFLAG "(?=PRN:\s*\d+)"
                (PyStr.join PyStr.nl (map (fun p => Doc.extract_text p Doc.X2) pages))) /\
    parser_sy.prn_m block = Some pm /\ parser_sy.prn s = group_text pm 1 /\
    (PyStr.contains "PASS" (PyStr.upper (parser_sy.result s)) = false ->
     parser_sy.total_marks s = "-") /\
    (PyStr.contains "PASS" (PyStr.upper (parser_sy.result s)) = true ->
     (forall later label earlier m,
         ["Fourth"; "Third"; "Second"; "First"] = (later ++ label :: earlier)%list ->
         (forall l, In l later -> parser_sy.sgpa_m l block = None) ->
         parser_sy.sgpa_m label block = Some m ->
         parser_sy.total_marks s = group_text m 1) /\
     ((forall l, In l ["Fourth"; "Third"; "Second"; "First"] ->
                 parser_sy.sgpa_m l block = None) ->
      parser_sy.total_marks s = "-")).
Proof.
  intros Hin.
  apply sy_main_emits_block in Hin as (pages & subject_map & block & md & md' & -> & Hb & Hr).
  apply sy_block_round_emits in Hr as (_ & md0 & Hp).
  apply sy_parse_block_emits in Hp as (st & pm & _ & Hpm & Hprn & _ & _ & Hd & Ht).
  split; [exact Ht|]. exists pages, block, pm.
  split; [reflexivity|]. split; [exact Hb|]. split; [exact Hpm|]. split; [exact Hprn|].
  rewrite Ht, Hd. split; [by intros ->|].
  intros ->. unfold parser_sy.sgpa_labels. split.
  - intros later label earlier m -> Hnone Hm. by apply first_sgpa_latest.
  - apply first_sgpa_none.
Qed.

Lemma C10_total_marks_is_dashboard_sgpa_witness :
  exists s,
    In s (Doc.student_data (parser_sy.main Sample.sy_doc)) /\
    parser_sy.total_marks s = "7.50" /\
    parser_sy.total_marks s = parser_sy.dashboard_sgpa s.
Proof.
  destruct (Doc.student_data (parser_sy.main Sample.sy_doc)) as [|s l] eqn:E;
    [vm_compute in E; discriminate|].
  assert (Hin : In s (Doc.student_data (parser_sy.main Sample.sy_doc)))
    by (rewrite E; left; reflexivity).
  exists s. split; [left; reflexivity|].
  destruct (C10_total_marks_is_dashboard_sgpa Sample.sy_doc s Hin) as (Heq & _).
  split; [|exact Heq].
  vm_compute in E. injection E as <- _. reflexivity.
Defined.

(** ** C6: the identity of an emitted record *)

Lemma sy_prn_digits block m :
  parser_sy.prn_m block = Some m -> PyStr.str_isdigit (group_text m 1) = true.
Proof.
  intros H. apply search_Matched in H.
  eapply last_group_digits; [|exact H]. vm_compute. reflexivity.
Qed.

Lemma nep_prn_digits block m :
  parser_nep.prn_match block = Some m -> PyStr.str_isdigit (group_text m 1) = true.
Proof.
  intros H. apply search_Matched in H.
  eapply last_group_digits; [|exact H]. vm_compute. reflexivity.
Qed.

Lemma nep_seat_digits block m :
  parser_nep.seat_match block = Some m -> PyStr.str_isdigit (group_text m 1) = true.
Proof.
  intros H. apply search_Matched in H.
  eapply last_group_digits; [|exact H]. vm_compute. reflexivity.
Qed.

Lemma gazette_prn_digits block m :
  parser.info_match block = Some m -> PyStr.str_isdigit (group_text m 4) = true.
Proof.
  intros H. apply search_Matched in H.
  eapply last_group_digits; [|exact H]. vm_compute. reflexivity.
Qed.

(** C6: in all three parsers every record of the envelope has a PRN that
    is a non-empty string of digits, hence a non-empty [seat_no] or
    [prn]; and a block whose identity pattern does not match yields no
    record: [parse_gazette_block] and [parse_nep_block] return [None],
    and the round of [parser_sy.main] appends nothing. *)
Theorem C6_identity :
  (forall doc s,
      In s (Doc.student_data (parser.main doc)) ->
      PyStr.str_isdigit (parser.prn s) = true /\
      (parser.seat_no s <> "" \/ parser.prn s <> "")) /\
  (forall doc s,
      In s (Doc.student_data (parser_nep.main doc)) ->
      PyStr.str_isdigit (parser_nep.prn s) = true /\
      PyStr.str_isdigit (parser_nep.seat_no s) = true /\
      (parser_nep.seat_no s <> "" \/ parser_nep.prn s <> "")) /\
  (forall doc s,
      In s (Doc.student_data (parser_sy.main doc)) ->
      PyStr.str_isdigit (parser_sy.prn s) = true /\
      (parser_sy.seat_no s <> "" \/ parser_sy.prn s <> "")) /\
  (forall block,
      parser.info_match block = None -> parser.parse_gazette_block block = None) /\
  (forall block subject_map,
      parser_nep.prn_match block = None \/ parser_nep.seat_match block = None ->
      parser_nep.parse_nep_block block subject_map = None) /\
  (forall subject_map metadata block,
      parser_sy.prn_m block = None ->
      snd (parser_sy.block_round subject_map metadata block) = None).
Proof.
  split; [|split; [|split; [|split; [|split]]]].
  - intros doc s Hin. apply gazette_main_emits in Hin as (block & Hb).
    apply gazette_block_emits in Hb as (m & Hm & _ & Hp).
    apply gazette_prn_digits in Hm.
    rewrite (str_isdigit_strip _ Hm) in Hp. rewrite Hp.
    split; [exact Hm|right; by apply str_isdigit_nonempty].
  - intros doc s Hin. apply nep_main_emits in Hin as (subject_map & block & c & s0 & Hb & ->).
    apply nep_block_emits in Hb as (pm & sm & Hpm & Hsm & Hp & Hs & _).
    apply nep_prn_digits in Hpm. apply nep_seat_digits in Hsm.
    rewrite (str_isdigit_strip _ Hpm) in Hp. rewrite (str_isdigit_strip _ Hsm) in Hs.
    simpl. rewrite Hp, Hs.
    split; [exact Hpm|split; [exact Hsm|right; by apply str_isdigit_nonempty]].
  - intros doc s Hin. apply sy_main_emits in Hin as (subject_map & block & md & md' & Hr).
    apply sy_block_round_emits in Hr as (_ & md0 & Hb).
    apply sy_parse_block_emits in Hb as (st & m & _ & Hm & Hp & _).
    apply sy_prn_digits in Hm. rewrite Hp.
    split; [exact Hm|right; by apply str_isdigit_nonempty].
  - intros block H. unfold parser.parse_gazette_block. by rewrite H.
  - intros block subject_map H. unfold parser_nep.parse_nep_block.
    destruct H as [-> | ->]; [done|]. by destruct (parser_nep.prn_match block).
  - intros subject_map metadata block H. unfold parser_sy.block_round.
    destruct (negb (PyStr.contains "SEMESTER" block)); [done|].
    match goal with
    | |- context [parser_sy.parse_block _ ?md _] =>
        destruct (parser_sy.parse_block subject_map md block) as [[s|]|e] eqn:E
    end; [|done|done].
    apply sy_parse_block_emits in E as (st & m & _ & Hm & _). congruence.
Qed.

Lemma C6_identity_witness :
  (exists s, In s (Doc.student_data (parser.main Sample.gazette_doc)) /\
             parser.prn s = "1234567890" /\ PyStr.str_isdigit (parser.prn s) = true) /\
  (exists s, In s (Doc.student_data (parser_nep.main Sample.nep_doc)) /\
             parser_nep.prn s = "72010045" /\ PyStr.str_isdigit (parser_nep.prn s) = true) /\
  (exists s, In s (Doc.student_data (parser_sy.main Sample.sy_doc)) /\
             parser_sy.prn s = "72010045" /\ PyStr.str_isdigit (parser_sy.prn s) = true) /\
  parser.info_match "no identity here" = None /\
  parser.parse_gazette_block "no identity here" = None.
Proof.
  destruct C6_identity as (Hg & Hn & Hs & Hgd & _ & _).
  split; [|split; [|split; [|split]]].
  - destruct (Doc.student_data (parser.main Sample.gazette_doc)) as [|s l] eqn:E;
      [vm_compute in E; discriminate|].
    exists s. split; [left; reflexivity|]. split.
    + vm_compute in E. injection E as <- _. reflexivity.
    + apply (Hg Sample.gazette_doc s). rewrite E. left. reflexivity.
  - destruct (Doc.student_data (parser_nep.main Sample.nep_doc)) as [|s l] eqn:E;
      [vm_compute in E; discriminate|].
    exists s. split; [left; reflexivity|]. split.
    + vm_compute in E. injection E as <- _. reflexivity.
    + apply (Hn Sample.nep_doc s). rewrite E. left. reflexivity.
  - destruct (Doc.student_data (parser_sy.main Sample.sy_doc)) as [|s l] eqn:E;
      [vm_compute in E; discriminate|].
    exists s. split; [left; reflexivity|]. split.
    + vm_compute in E. injection E as <- _. reflexivity.
    + apply (Hs Sample.sy_doc s). rewrite E. left. reflexivity.
  - vm_compute. reflexivity.
  - apply (Hgd "no identity here"). vm_compute. reflexivity.
Defined.

(** ** C3: the result inferred from the grades *)

Lemma mem_In x l : PyStr.mem x l = true <-> In x l.
Proof.
  unfold PyStr.mem. rewrite existsb_exists. split.
  - intros (y & Hy & Heq). apply String.eqb_eq in Heq. by subst.
  - intros H. exists x. split; [done|apply String.eqb_refl].
Qed.

Lemma existsb_mem_false grades l :
  existsb (fun g => PyStr.mem g l) grades = false <->
  (forall g, In g grades -> ~ In g l).
Proof.
  split.
  - intros H g Hg Hl.
    assert (existsb (fun g => PyStr.mem g l) grades = true); [|congruence].
    apply existsb_exists. exists g. split; [done|by apply mem_In].
  - intros H. destruct (existsb _ grades) eqn:E; [|done].
    apply existsb_exists in E as (g & Hg & Hm). apply mem_In in Hm.
    destruct (H g Hg Hm).
Qed.

Lemma existsb_mem_true grades l :
  existsb (fun g => PyStr.mem g l) grades = true <-> (exists g, In g grades /\ In g l).
Proof.
  rewrite existsb_exists. split; intros (g & Hg & Hm); exists g; split; auto;
    by apply mem_In.
Qed.

Lemma nep_resolve_without_statement grades :
  parser_nep.resolve_result "" grades
  = if negb (parser_nep.fail_exists grades) && (0 <? parser_nep.len grades)%Z
    then "PASS" else "FAIL".
Proof. reflexivity. Qed.

(** The gazette pattern infers nothing from the grades: a block without a
    CGPA figure and without a failure statement has the result FAIL. *)
Lemma gazette_result_default block s :
  parser.parse_gazette_block block = Some s ->
  parser.cgpa_match block = None -> parser.fail_match block = None ->
  parser.result s = "FAIL".
Proof.
  unfold parser.parse_gazette_block. intros H Hc Hf.
  destruct (parser.info_match block) as [m|]; [|discriminate].
  match type of H with
  | context [mbind _ ?c] => destruct c as [[full_name mother_name]|e]
  end; unfold mbind, res_bind in H; [|discriminate].
  destruct (parser.totals "TOTAL\s+(\d+)\s+\d+\s+(\d+)" block) as [tc tm].
  destruct (parser.totals "F\.Y\.TOTAL\s+(\d+)\s+\d+\s+(\d+)" block) as [fc fm].
  rewrite Hc, Hf in H. by injection H as <-.
Qed.

(** C3 fails on [parser_nep]: a block without a First Year statement
    whose second subject has the grade AB gets the result PASS. *)
Lemma C3_nep_absent_grade_passes :
  exists s,
    parser_nep.parse_nep_block Sample.nep_block_absent ∅ = Some s /\
    parser_nep.fy_res_match Sample.nep_block_absent = None /\
    parser_nep.all_grades (parser_nep.scan_block Sample.nep_block_absent ∅) = ["A"; "AB"] /\
    parser_nep.result s = "PASS".
Proof.
  eexists. split; [vm_compute; reflexivity|].
  split; [vm_compute; reflexivity|]. split; vm_compute; reflexivity.
Qed.

(** C3, amended: for a student block without an explicit result
    statement, in [parser_sy] the result is FAIL when some parsed grade is
    one of F, FFF, FAIL, AB, Absent, and PASS when at least one grade was
    parsed and none of them is one of these; in [parser_nep] the result is
    FAIL when some parsed grade is one of F, FFF, FAIL, and PASS when at
    least one grade was parsed and none of them is one of F, FFF, FAIL,
    AB, Absent. *)
Theorem C3_inferred_result :
  (forall subject_map metadata block metadata' s,
      parser_sy.block_round subject_map metadata block = (metadata', Some s) ->
      parser_sy.res_match block = None ->
      ((exists g, In g (parser_sy.all_grades (parser_sy.sem_subjects s)) /\
                  In g ["F"; "FFF"; "FAIL"; "AB"; "Absent"]) ->
       parser_sy.result s = "FAIL") /\
      (parser_sy.all_grades (parser_sy.sem_subjects s) <> [] ->
       (forall g, In g (parser_sy.all_grades (parser_sy.sem_subjects s)) ->
                  ~ In g ["F"; "FFF"; "FAIL"; "AB"; "Absent"]) ->
       parser_sy.result s = "PASS")) /\
  (forall block subject_map s,
      parser_nep.parse_nep_block block subject_map = Some s ->
      parser_nep.fy_res_match block = None ->
      ((exists g, In g (parser_nep.all_grades (parser_nep.scan_block block subject_map)) /\
                  In g ["F"; "FFF"; "FAIL"]) ->
       parser_nep.result s = "FAIL") /\
      (parser_nep.all_grades (parser_nep.scan_block block subject_map) <> [] ->
       (forall g, In g (parser_nep.all_grades (parser_nep.scan_block block subject_map)) ->
                  ~ In g ["F"; "FFF"; "FAIL"; "AB"; "Absent"]) ->
       parser_nep.result s = "PASS")).
Proof.
  split.
  - intros subject_map metadata block metadata' s Hr Hnone.
    apply sy_block_round_emits in Hr as (_ & md0 & Hp).
    apply sy_parse_block_emits in Hp as (st & m & _ & _ & _ & Hsubs & Hres & _).
    unfold parser_sy.explicit_result in Hres. rewrite Hnone in Hres.
    rewrite Hsubs, Hres. unfold parser_sy.infer_result. split.
    + intros H. apply existsb_mem_true in H. unfold parser_sy.fail_grades. by rewrite H.
    + intros _ H. apply existsb_mem_false in H. unfold parser_sy.fail_grades. by rewrite H.
  - intros block subject_map s Hp Hnone.
    apply nep_block_emits in Hp as (pm & sm & _ & _ & _ & _ & _ & Hres).
    unfold parser_nep.fy_text in Hres. rewrite Hnone in Hres.
    rewrite Hres, nep_resolve_without_statement. unfold parser_nep.fail_exists.
    set (grades := parser_nep.all_grades (parser_nep.scan_block block subject_map)).
    split.
    + intros H. apply existsb_mem_true in H. by rewrite H.
    + intros Hne H.
      assert (Hf : existsb (fun g => PyStr.mem g ["F"; "FFF"; "FAIL"]) grades = false).
      { apply existsb_mem_false. intros g Hg Hl. apply (H g Hg).
        simpl in *. tauto. }
      rewrite Hf. replace (0 <? parser_nep.len grades)%Z with true; [done|].
      symmetry. apply Z.ltb_lt. unfold parser_nep.len.
      destruct grades; [done|simpl; lia].
Qed.

Lemma C3_inferred_result_witness :
  (exists md s,
      parser_sy.block_round ∅ (Doc.Metadata (Some "Unknown") "BSC" "LOKNETE COLLEGE")
        Sample.sy_block_fail = (md, Some s) /\
      parser_sy.res_match Sample.sy_block_fail = None /\
      In "F" (parser_sy.all_grades (parser_sy.sem_subjects s)) /\
      parser_sy.result s = "FAIL") /\
  (exists md s,
      parser_sy.block_round ∅ (Doc.Metadata (Some "Unknown") "BSC" "LOKNETE COLLEGE")
        Sample.sy_block = (md, Some s) /\
      parser_sy.res_match Sample.sy_block = None /\
      parser_sy.all_grades (parser_sy.sem_subjects s) = ["A"; "B+"] /\
      parser_sy.result s = "PASS") /\
  (exists s,
      parser_nep.parse_nep_block Sample.nep_block_pass ∅ = Some s /\
      parser_nep.fy_res_match Sample.nep_block_pass = None /\
      parser_nep.all_grades (parser_nep.scan_block Sample.nep_block_pass ∅) = ["A"; "B+"] /\
      parser_nep.result s = "PASS").
Proof.
  destruct C3_inferred_result as [Hsy Hnep]. split; [|split].
  - destruct (parser_sy.block_round ∅ (Doc.Metadata (Some "Unknown") "BSC" "LOKNETE COLLEGE")
                Sample.sy_block_fail) as [md [s|]] eqn:E; [|vm_compute in E; discriminate].
    assert (Hn : parser_sy.res_match Sample.sy_block_fail = None) by (vm_compute; reflexivity).
    assert (Hg : In "F" (parser_sy.all_grades (parser_sy.sem_subjects s))).
    { vm_compute in E. injection E as _ <-. vm_compute. left. reflexivity. }
    exists md, s. split; [reflexivity|]. split; [exact Hn|]. split; [exact Hg|].
    apply (Hsy _ _ _ _ _ E Hn). exists "F". split; [exact Hg|left; reflexivity].
  - destruct (parser_sy.block_round ∅ (Doc.Metadata (Some "Unknown") "BSC" "LOKNETE COLLEGE")
                Sample.sy_block) as [md [s|]] eqn:E; [|vm_compute in E; discriminate].
    assert (Hn : parser_sy.res_match Sample.sy_block = None) by (vm_compute; reflexivity).
    assert (Hg : parser_sy.all_grades (parser_sy.sem_subjects s) = ["A"; "B+"]).
    { vm_compute in E. injection E as _ <-. vm_compute. reflexivity. }
    exists md, s. split; [reflexivity|]. split; [exact Hn|]. split; [exact Hg|].
    apply (Hsy _ _ _ _ _ E Hn).
    + rewrite Hg. discriminate.
    + rewrite Hg. intros g [<-|[<-|[]]] Hl; simpl in Hl;
        repeat (destruct Hl as [Hl|Hl]; [discriminate|]); destruct Hl.
  - destruct (parser_nep.parse_nep_block Sample.nep_block_pass ∅) as [s|] eqn:E;
      [|vm_compute in E; discriminate].
    assert (Hn : parser_nep.fy_res_match Sample.nep_block_pass = None)
      by (vm_compute; reflexivity).
    assert (Hg : parser_nep.all_grades (parser_nep.scan_block Sample.nep_block_pass ∅)
                 = ["A"; "B+"]) by (vm_compute; reflexivity).
    exists s. split; [reflexivity|]. split; [exact Hn|]. split; [exact Hg|].
    apply (Hnep _ _ _ E Hn).
    + rewrite Hg. discriminate.
    + rewrite Hg. intros g [<-|[<-|[]]] Hl; simpl in Hl;
        repeat (destruct Hl as [Hl|Hl]; [discriminate|]); destruct Hl.
Defined.

(** ** C5: the dashboard SGPA *)

(** C5 fails on [parser_nep]: a student whose result is FAIL is shown the
    SGPA figure of the second semester. *)
Lemma C5_nep_shows_sgpa_on_fail :
  exists s,
    parser_nep.parse_nep_block Sample.nep_block_fail ∅ = Some s /\
    parser_nep.result s = "FAIL" /\
    parser_nep.dashboard_sgpa s = "7.50".
Proof.
  eexists. split; [vm_compute; reflexivity|]. split; vm_compute; reflexivity.
Qed.

(** C5, amended: in [parser_sy] the dashboard SGPA of a block is "-" when
    the result does not contain PASS; when it does, it is the SGPA figure
    of the first of Fourth, Third, Second, First with such a figure in the
    block, and "-" when none has one.  In [parser_nep] it is the figure of
    the second semester, else that of the first, else "-", whatever the
    result. *)
Theorem C5_dashboard_sgpa :
  (forall subject_map metadata block metadata' s,
      parser_sy.block_round subject_map metadata block = (metadata', Some s) ->
      (PyStr.contains "PASS" (PyStr.upper (parser_sy.result s)) = false ->
       parser_sy.dashboard_sgpa s = "-") /\
      (PyStr.contains "PASS" (PyStr.upper (parser_sy.result s)) = true ->
       (forall later label earlier m,
           ["Fourth"; "Third"; "Second"; "First"] = (later ++ label :: earlier)%list ->
           (forall l, In l later -> parser_sy.sgpa_m l block = None) ->
           parser_sy.sgpa_m label block = Some m ->
           parser_sy.dashboard_sgpa s = group_text m 1) /\
       ((forall l, In l ["Fourth"; "Third"; "Second"; "First"] ->
                   parser_sy.sgpa_m l block = None) ->
        parser_sy.dashboard_sgpa s = "-"))) /\
  (forall block subject_map s,
      parser_nep.parse_nep_block block subject_map = Some s ->
      (forall m, parser_nep.s2_val block = Some m ->
                 parser_nep.dashboard_sgpa s = group_text m 1) /\
      (parser_nep.s2_val block = None ->
       forall m, parser_nep.s1_val block = Some m ->
                 parser_nep.dashboard_sgpa s = group_text m 1) /\
      (parser_nep.s2_val block = None ->
       parser_nep.s1_val block = None ->
       parser_nep.dashboard_sgpa s = "-")).
Proof.
  split.
  - intros subject_map metadata block metadata' s Hr.
    apply sy_block_round_emits in Hr as (_ & md0 & Hp).
    apply sy_parse_block_emits in Hp as (st & m0 & _ & _ & _ & _ & _ & Hd & _).
    split; [intros Hpass; by rewrite Hd, Hpass|].
    intros Hpass. rewrite Hd, Hpass. unfold parser_sy.sgpa_labels. split.
    + intros later label earlier m -> Hnone Hm. by apply first_sgpa_latest.
    + apply first_sgpa_none.
  - intros block subject_map s Hp.
    apply nep_block_emits in Hp as (pm & sm & _ & _ & _ & _ & Hd & _).
    rewrite Hd. unfold parser_nep.current_sgpa. repeat split.
    + by intros m ->.
    + by intros -> m ->.
    + by intros -> ->.
Qed.

Lemma C5_dashboard_sgpa_witness :
  (exists md s m,
      parser_sy.block_round ∅ (Doc.Metadata (Some "Unknown") "BSC" "LOKNETE COLLEGE")
        Sample.sy_block = (md, Some s) /\
      parser_sy.result s = "PASS" /\
      parser_sy.sgpa_m "Fourth" Sample.sy_block = Some m /\
      group_text m 1 = "7.50" /\
      parser_sy.dashboard_sgpa s = group_text m 1) /\
  (exists s m,
      parser_nep.parse_nep_block Sample.nep_block_pass ∅ = Some s /\
      parser_nep.s2_val Sample.nep_block_pass = Some m /\
      group_text m 1 = "7.50" /\
      parser_nep.dashboard_sgpa s = group_text m 1).
Proof.
  destruct C5_dashboard_sgpa as [Hsy Hnep]. split.
  - destruct (parser_sy.block_round ∅ (Doc.Metadata (Some "Unknown") "BSC" "LOKNETE COLLEGE")
                Sample.sy_block) as [md [s|]] eqn:E; [|vm_compute in E; discriminate].
    destruct (parser_sy.sgpa_m "Fourth" Sample.sy_block) as [m|] eqn:Em;
      [|vm_compute in Em; discriminate].
    assert (Hres : parser_sy.result s = "PASS").
    { vm_compute in E. injection E as _ <-. reflexivity. }
    assert (Hv : group_text m 1 = "7.50").
    { vm_compute in Em. injection Em as <-. reflexivity. }
    exists md, s, m. split; [reflexivity|]. split; [exact Hres|].
    split; [reflexivity|]. split; [exact Hv|].
    destruct (Hsy _ _ _ _ _ E) as [_ Hpass].
    assert (Hp : PyStr.contains "PASS" (PyStr.upper (parser_sy.result s)) = true)
      by (rewrite Hres; reflexivity).
    destruct (Hpass Hp) as [Hlatest _].
    apply (Hlatest [] "Fourth" ["Third"; "Second"; "First"] m); [reflexivity| |exact Em].
    intros l [].
  - destruct (parser_nep.parse_nep_block Sample.nep_block_pass ∅) as [s|] eqn:E;
      [|vm_compute in E; discriminate].
    destruct (parser_nep.s2_val Sample.nep_block_pass) as [m|] eqn:Em;
      [|vm_compute in Em; discriminate].
    assert (Hv : group_text m 1 = "7.50").
    { vm_compute in Em. injection Em as <-. reflexivity. }
    exists s, m. split; [reflexivity|]. split; [reflexivity|]. split; [exact Hv|].
    destruct (Hnep _ _ _ E) as [Hsecond _]. apply Hsecond. exact Em.
Defined.

(** ** C7: the metadata of a header *)

#[local] Arguments PyStr.strip : simpl never.
#[local] Arguments PyStr.rstrip_char : simpl never.
#[local] Arguments group_text : simpl never.
#[local] Arguments Re.group0 : simpl never.

(** C7 fails on [parser]: the gazette extractor never recovers a PUN
    code, and its [pun_code] is [None], not "Unknown". *)
Lemma C7_gazette_pun_code_is_none :
  Doc.pun_code (parser.extract_header_metadata [Sample.no_ledger]) = None /\
  Doc.pun_code (parser.extract_header_metadata [Sample.no_ledger]) <> Some "Unknown".
Proof. split; [vm_compute; reflexivity|vm_compute; discriminate]. Qed.

(** C7, amended: the metadata extractors are total (an exception of the
    body is caught: a document without pages gives the defaults), and a
    field none of whose patterns matches the header text is "Unknown";
    in the gazette pattern this holds for [course_name] and
    [college_name], and [pun_code] is always [None]. *)
Theorem C7_metadata_defaults :
  (forall pdf,
      (parser_sy.pun_match (parser_sy.header_text pdf) = None ->
       Doc.pun_code (parser_sy.extract_header_metadata pdf) = Some "Unknown") /\
      (parser_sy.course_match (parser_sy.header_text pdf) = None ->
       Doc.course_name (parser_sy.extract_header_metadata pdf) = "Unknown") /\
      (parser_sy.college_match (parser_sy.header_text pdf) = None ->
       parser_sy.fallback (parser_sy.header_text pdf) = None ->
       Doc.college_name (parser_sy.extract_header_metadata pdf) = "Unknown")) /\
  (forall pdf,
      (parser_nep.pun_match (parser_nep.header_text pdf) = None ->
       Doc.pun_code (parser_nep.extract_header_metadata pdf) = Some "Unknown") /\
      (parser_nep.course_match (parser_nep.header_text pdf) = None ->
       parser_nep.course_fallback (parser_nep.header_text pdf) = None ->
       Doc.course_name (parser_nep.extract_header_metadata pdf) = "Unknown") /\
      (parser_nep.college_match (parser_nep.header_text pdf) = None ->
       Doc.college_name (parser_nep.extract_header_metadata pdf) = "Unknown")) /\
  (forall pdf,
      Doc.pun_code (parser.extract_header_metadata pdf) = None /\
      (parser.course_match (parser.header_text pdf) = None ->
       parser.course_fallback (parser.header_text pdf) = None ->
       Doc.course_name (parser.extract_header_metadata pdf) = "Unknown") /\
      (parser.college_match (parser.header_text pdf) = None ->
       parser.fallback (parser.header_text pdf) = None ->
       Doc.college_name (parser.extract_header_metadata pdf) = "Unknown")) /\
  parser_sy.extract_header_metadata [] = Doc.Metadata (Some "Unknown") "Unknown" "Unknown" /\
  parser_nep.extract_header_metadata [] = Doc.Metadata (Some "Unknown") "Unknown" "Unknown" /\
  parser.extract_header_metadata [] = Doc.Metadata None "Unknown" "Unknown".
Proof.
  split; [|split; [|split; [|repeat split]]].
  - intros pdf. unfold parser_sy.extract_header_metadata.
    destruct (PyStr.is_empty (parser_sy.header_text pdf)); [done|].
    set (text := parser_sy.header_text pdf). simpl. repeat split.
    + intros ->. destruct (parser_sy.course_match text); simpl;
        (destruct (parser_sy.college_match text); simpl;
         [destruct (_ || _); [destruct (parser_sy.fallback text)|]; done|]);
        destruct (parser_sy.fallback text); done.
    + intros ->. destruct (parser_sy.pun_match text); simpl;
        (destruct (parser_sy.college_match text); simpl;
         [destruct (_ || _); [destruct (parser_sy.fallback text)|]; done|]);
        destruct (parser_sy.fallback text); done.
    + intros -> ->. destruct (parser_sy.pun_match text); simpl;
        destruct (parser_sy.course_match text); done.
  - intros pdf. unfold parser_nep.extract_header_metadata, parser_nep.header_text.
    destruct (Doc.first_page pdf) as [p|e]; [|done].
    set (text := Doc.extract_text p Doc.Plain).
    destruct (PyStr.is_empty text); [done|].
    unfold parser_nep.header_steps. simpl. repeat split.
    + intros ->. destruct (parser_nep.course_match text);
        [|destruct (parser_nep.course_fallback text)]; simpl;
        destruct (parser_nep.college_match text); done.
    + intros -> ->. destruct (parser_nep.pun_match text); simpl;
        destruct (parser_nep.college_match text); done.
    + intros ->. destruct (parser_nep.pun_match text); simpl;
        (destruct (parser_nep.course_match text);
         [|destruct (parser_nep.course_fallback text)]); done.
  - intros pdf. unfold parser.extract_header_metadata, parser.header_text.
    destruct (Doc.first_page pdf) as [p|e]; [|done].
    set (text := Doc.extract_text p Doc.X2).
    destruct (PyStr.is_empty text); [done|].
    unfold parser.header_steps. simpl. repeat split.
    + destruct (parser.course_match text); [|destruct (parser.course_fallback text)];
        simpl; (destruct (parser.college_match text); [|destruct (parser.fallback text)]);
        done.
    + intros -> ->. simpl.
      destruct (parser.college_match text); [|destruct (parser.fallback text)]; done.
    + intros -> ->.
      destruct (parser.course_match text); [|destruct (parser.course_fallback text)]; done.
Qed.

Lemma C7_metadata_defaults_witness :
  parser_sy.pun_match (parser_sy.header_text [Sample.no_ledger]) = None /\
  Doc.pun_code (parser_sy.extract_header_metadata [Sample.no_ledger]) = Some "Unknown" /\
  parser.college_match (parser.header_text [Sample.no_ledger]) = None /\
  parser.fallback (parser.header_text [Sample.no_ledger]) = None /\
  Doc.college_name (parser.extract_header_metadata [Sample.no_ledger]) = "Unknown".
Proof.
  destruct C7_metadata_defaults as (Hsy & _ & Hg & _).
  assert (H1 : parser_sy.pun_match (parser_sy.header_text [Sample.no_ledger]) = None)
    by (vm_compute; reflexivity).
  assert (H2 : parser.college_match (parser.header_text [Sample.no_ledger]) = None)
    by (vm_compute; reflexivity).
  assert (H3 : parser.fallback (parser.header_text [Sample.no_ledger]) = None)
    by (vm_compute; reflexivity).
  destruct (Hsy [Sample.no_ledger]) as (Hpun & _ & _).
  destruct (Hg [Sample.no_ledger]) as (_ & _ & Hcol).
  split; [exact H1|]. split; [exact (Hpun H1)|]. split; [exact H2|].
  split; [exact H3|exact (Hcol H2 H3)].
Defined.

(** * Further properties of the parsers *)

(** ** parse_marks_row: when a line is a subject row *)

Lemma index_valid {A : Type} (l : list A) (i : Z) :
  (- parser_sy.len l <= i < parser_sy.len l)%Z -> exists x, PyStr.index l i = Some x.
Proof.
  unfold PyStr.index, parser_sy.len. intros Hi.
  set (n := Z.of_nat (length l)) in *.
  set (j := if (i <? 0)%Z then (i + n)%Z else i).
  assert (Hj : (0 <= j < n)%Z).
  { unfold j. destruct (i <? 0)%Z eqn:E; [apply Z.ltb_lt in E|apply Z.ltb_ge in E]; lia. }
  replace ((0 <=? j)%Z && (j <? n)%Z) with true.
  - destruct (nth_error l (Z.to_nat j)) as [x|] eqn:En; [by exists x|].
    apply nth_error_None in En. unfold n in Hj. lia.
  - symmetry. apply andb_true_iff. split; [apply Z.leb_le|apply Z.ltb_lt]; lia.
Qed.

Lemma at_valid {A : Type} (l : list A) (i : Z) :
  (- parser_sy.len l <= i < parser_sy.len l)%Z -> exists x, PyStr.at_ l i = Ok x.
Proof.
  intros Hi. destruct (index_valid l i Hi) as [x Hx].
  exists x. unfold PyStr.at_. by rewrite Hx.
Qed.

(** The scan for the grade reads only indices of the line. *)
Lemma find_grade_ok parts range :
  Forall (fun i => (1 <= i)%Z) range -> exists r, parser_sy.find_grade parts range = Ok r.
Proof.
  induction 1 as [|i range Hi _ IH]; cbn [parser_sy.find_grade]; [by eexists|].
  destruct (i >=? parser_sy.len parts)%Z eqn:Ei; [by eexists|].
  rewrite Z.geb_leb in Ei. apply Z.leb_gt in Ei.
  destruct (at_valid parts (- i)) as [g ->]; [lia|].
  unfold mbind, res_bind.
  destruct (PyStr.mem g parser_sy.valid_grades); [by eexists|exact IH].
Qed.

Lemma pad3_length cleaned_columns : 3 <= length (parser_sy.pad3 cleaned_columns).
Proof.
  unfold parser_sy.pad3. rewrite length_app, repeat_length. lia.
Qed.

(** The body of [parse_marks_row] completes on every list of tokens. *)
Lemma row_of_parts_ok parts subject_map :
  exists r, parser_sy.row_of_parts parts subject_map = Ok r.
Proof.
  unfold parser_sy.row_of_parts.
  destruct (parser_sy.len parts <? 6)%Z eqn:El; [by eexists|].
  apply Z.ltb_ge in El.
  destruct (find_grade_ok parts [1; 2; 3; 4; 5; 6]%Z) as [found Hf];
    [repeat constructor; lia|].
  rewrite Hf. unfold mbind, res_bind.
  destruct found as [[grade_idx g]|]; [|by eexists].
  apply find_grade_spec in Hf as (Hidx & _ & _); [|repeat constructor; lia].
  destruct (at_valid parts (grade_idx - 1)) as [ern ->]; [lia|].
  destruct (at_valid parts (grade_idx - 2)) as [crd ->]; [lia|].
  destruct (at_valid parts (grade_idx - 3)) as [p1 ->]; [lia|].
  destruct (at_valid parts (grade_idx - 4)) as [p2 ->]; [lia|].
  match goal with
  | |- context [let '(_, _) := ?c in _] => destruct c as [total marks_end_idx]
  end.
  assert (Hgp : forall k, (0 < k)%Z ->
             exists v, (if (grade_idx + k <? parser_sy.len parts)%Z
                        then PyStr.at_ parts (grade_idx + k) else Ok "0") = Ok v).
  { intros k Hk. destruct (grade_idx + k <? parser_sy.len parts)%Z eqn:E; [|by eexists].
    apply Z.ltb_lt in E. apply at_valid. lia. }
  destruct (Hgp 1%Z) as [gp ->]; [lia|].
  destruct (Hgp 2%Z) as [cp ->]; [lia|].
  destruct (at_valid parts 0) as [code0 ->]; [lia|].
  set (cols := parser_sy.pad3 _).
  pose proof (pad3_length (parser_sy.merge_columns (PyStr.slice parts 1 marks_end_idx))) as Hc.
  fold cols in Hc.
  destruct (at_valid cols 0) as [c0 ->]; [unfold parser_sy.len; lia|].
  destruct (at_valid cols 1) as [c1 ->]; [unfold parser_sy.len; lia|].
  destruct (at_valid cols 2) as [c2 ->]; [unfold parser_sy.len; lia|].
  destruct (parser_sy.split_prefix_marks c0), (parser_sy.split_prefix_marks c1),
    (parser_sy.split_prefix_marks c2). by eexists.
Qed.
(** The scan returns the first index of its range with a grade: the
    indices before it hold none. *)
Lemma find_grade_first parts range :
  StronglySorted Z.lt range ->
  forall grade_idx g,
    parser_sy.find_grade parts range = Ok (Some (grade_idx, g)) ->
    forall i t,
      In i range -> (i < parser_sy.len parts - grade_idx)%Z ->
      PyStr.index parts (- i) = Some t -> ~ In t parser_sy.valid_grades.
Proof.
  induction 1 as [|i0 range _ IH Hlt]; intros grade_idx g H i t Hin Hi Ht;
    cbn [parser_sy.find_grade] in H; [destruct Hin|].
  destruct (i0 >=? parser_sy.len parts)%Z; [discriminate|].
  destruct (PyStr.at_ parts (- i0)) as [g0|e] eqn:Ea; [|discriminate].
  unfold mbind, res_bind in H. apply at_Ok in Ea.
  destruct (PyStr.mem g0 parser_sy.valid_grades) eqn:Em.
  - injection H as <- <-. rewrite List.Forall_forall in Hlt.
    destruct Hin as [<-|Hin]; [lia|]. specialize (Hlt i Hin). lia.
  - destruct Hin as [<-|Hin]; [|eauto].
    rewrite Ea in Ht. injection Ht as <-. intros Hv. apply mem_In in Hv. congruence.
Qed.

(** A scan that finds nothing saw no grade at any index it may read. *)
Lemma find_grade_none parts range :
  StronglySorted Z.lt range ->
  parser_sy.find_grade parts range = Ok None ->
  forall i t,
    In i range -> (i < parser_sy.len parts)%Z ->
    PyStr.index parts (- i) = Some t -> ~ In t parser_sy.valid_grades.
Proof.
  induction 1 as [|i0 range _ IH Hlt]; intros H i t Hin Hi Ht;
    cbn [parser_sy.find_grade] in H; [destruct Hin|].
  destruct (i0 >=? parser_sy.len parts)%Z eqn:E0.
  - rewrite Z.geb_leb in E0. apply Z.leb_le in E0. rewrite List.Forall_forall in Hlt.
    destruct Hin as [<-|Hin]; [lia|]. specialize (Hlt i Hin). lia.
  - destruct (PyStr.at_ parts (- i0)) as [g0|e] eqn:Ea; [|discriminate].
    unfold mbind, res_bind in H. apply at_Ok in Ea.
    destruct (PyStr.mem g0 parser_sy.valid_grades) eqn:Em; [discriminate|].
    destruct Hin as [<-|Hin]; [|eauto].
    rewrite Ea in Ht. injection Ht as <-. intros Hv. apply mem_In in Hv. congruence.
Qed.

Lemma grade_range_sorted : StronglySorted Z.lt [1; 2; 3; 4; 5; 6]%Z.
Proof. repeat constructor; lia. Qed.

(** What [parse_marks_row] returns, read off its body. *)
Lemma sy_row_fields line subject_map row :
  parser_sy.parse_marks_row line subject_map = Some row ->
  parser_sy.ignored line = false /\
  (6 <= parser_sy.len (PyStr.split line))%Z /\
  exists grade_idx p0,
    parser_sy.find_grade (PyStr.split line) [1; 2; 3; 4; 5; 6]%Z
    = Ok (Some (grade_idx, grd row)) /\
    PyStr.index (PyStr.split line) 0 = Some p0 /\
    code row = PyStr.strip (PyStr.replace ":" "" p0) /\
    name row = default "Subject Name Not Found" (subject_map !! code row).
Proof.
  unfold parser_sy.parse_marks_row.
  destruct (parser_sy.ignored line); [discriminate|].
  set (parts := PyStr.split line).
  destruct (parser_sy.row_of_parts parts subject_map) as [r|e] eqn:Er; [|discriminate].
  intros ->. unfold parser_sy.row_of_parts in Er.
  destruct (parser_sy.len parts <? 6)%Z eqn:El; [discriminate|]. apply Z.ltb_ge in El.
  destruct (parser_sy.find_grade parts _) as [[[grade_idx g]|]|e] eqn:Ef;
    unfold mbind, res_bind in Er; try discriminate.
  destruct (PyStr.at_ parts (grade_idx - 1)) as [ern|]; [|discriminate].
  destruct (PyStr.at_ parts (grade_idx - 2)) as [crd|]; [|discriminate].
  destruct (PyStr.at_ parts (grade_idx - 3)) as [p1|]; [|discriminate].
  destruct (PyStr.at_ parts (grade_idx - 4)) as [p2|]; [|discriminate].
  match type of Er with
  | context [let '(_, _) := ?c in _] => destruct c as [total marks_end_idx]
  end.
  destruct (if (grade_idx + 1 <? _)%Z then _ else _) as [gp|]; [|discriminate].
  destruct (if (grade_idx + 2 <? _)%Z then _ else _) as [cp|]; [|discriminate].
  destruct (PyStr.at_ parts 0) as [code0|] eqn:E0; [|discriminate].
  match type of Er with
  | context [PyStr.at_ ?cols 0] =>
      destruct (PyStr.at_ cols 0) as [c0|]; [|discriminate];
      destruct (PyStr.at_ cols 1) as [c1|]; [|discriminate];
      destruct (PyStr.at_ cols 2) as [c2|]; [|discriminate]
  end.
  destruct (parser_sy.split_prefix_marks c0) as [p_int int_m].
  destruct (parser_sy.split_prefix_marks c1) as [p_ext ext_m].
  destruct (parser_sy.split_prefix_marks c2) as [p_pr pr_m].
  injection Er as <-. simpl. split; [done|]. split; [done|].
  exists grade_idx, code0. auto using at_Ok.
Qed.


(** A scan that finds a grade found it at an index of its range. *)
Lemma find_grade_hit parts range grade_idx g :
  parser_sy.find_grade parts range = Ok (Some (grade_idx, g)) ->
  exists i,
    In i range /\ (i < parser_sy.len parts)%Z /\
    grade_idx = (parser_sy.len parts - i)%Z /\
    PyStr.index parts (- i) = Some g /\ In g parser_sy.valid_grades.
Proof.
  induction range as [|i0 range IH]; cbn [parser_sy.find_grade]; [discriminate|].
  destruct (i0 >=? parser_sy.len parts)%Z eqn:E0; [discriminate|].
  rewrite Z.geb_leb in E0. apply Z.leb_gt in E0.
  destruct (PyStr.at_ parts (- i0)) as [g0|e] eqn:Ea; [|discriminate].
  unfold mbind, res_bind. apply at_Ok in Ea.
  destruct (PyStr.mem g0 parser_sy.valid_grades) eqn:Em.
  - intros [= <- <-]. exists i0. apply mem_In in Em. repeat split; auto. by left.
  - intros H. destruct (IH H) as (i & Hin & Hrest). exists i. split; [by right|done].
Qed.

(** X1: the body of [parse_marks_row] never raises, so a line is
    rejected only by the tests of the body: [parse_marks_row] returns a row
    exactly for the lines that are not header or profile lines, have at
    least six tokens, and have a grade of the vocabulary among their last
    six tokens, the first token of the line apart. *)
Theorem X1_subject_row_iff line subject_map :
  is_Some (parser_sy.parse_marks_row line subject_map) <->
  parser_sy.ignored line = false /\
  (6 <= parser_sy.len (PyStr.split line))%Z /\
  exists i t,
    (1 <= i <= 6)%Z /\ (i < parser_sy.len (PyStr.split line))%Z /\
    PyStr.index (PyStr.split line) (- i) = Some t /\ In t parser_sy.valid_grades.
Proof.
  split.
  - intros [row H]. apply sy_row_fields in H as (Hi & Hl & grade_idx & p0 & Hf & _).
    split; [done|]. split; [done|].
    apply find_grade_hit in Hf as (i & Hin & Hlt & _ & Ht & Hv).
    exists i, (grd row). repeat split; auto; simpl in Hin; lia.
  - intros (Hi & Hl & i & t & Hr & Hlt & Ht & Hv).
    unfold parser_sy.parse_marks_row. rewrite Hi.
    destruct (row_of_parts_ok (PyStr.split line) subject_map) as [r Hr']. rewrite Hr'.
    destruct r as [row|]; [by eexists|]. exfalso.
    unfold parser_sy.row_of_parts in Hr'.
    replace (parser_sy.len (PyStr.split line) <? 6)%Z with false in Hr'
      by (symmetry; apply Z.ltb_ge; lia).
    destruct (parser_sy.find_grade (PyStr.split line) [1; 2; 3; 4; 5; 6]%Z)
      as [[[grade_idx g]|]|e] eqn:Ef; unfold mbind, res_bind in Hr'.
    + apply find_grade_spec in Ef as (Hidx & _ & _); [|repeat constructor; lia].
      destruct (at_valid (PyStr.split line) (grade_idx - 1)) as [x1 E1]; [lia|].
      destruct (at_valid (PyStr.split line) (grade_idx - 2)) as [x2 E2]; [lia|].
      destruct (at_valid (PyStr.split line) (grade_idx - 3)) as [x3 E3]; [lia|].
      destruct (at_valid (PyStr.split line) (grade_idx - 4)) as [x4 E4]; [lia|].
      rewrite E1, E2, E3, E4 in Hr'.
      match type of Hr' with
      | context [let '(_, _) := ?c in _] => destruct c as [total marks_end_idx]
      end.
      destruct (if (grade_idx + 1 <? _)%Z then _ else _) as [gp|]; [|discriminate].
      destruct (if (grade_idx + 2 <? _)%Z then _ else _) as [cp|]; [|discriminate].
      destruct (PyStr.at_ (PyStr.split line) 0) as [code0|]; [|discriminate].
      match type of Hr' with
      | context [PyStr.at_ ?cols 0] =>
          destruct (PyStr.at_ cols 0) as [c0|]; [|discriminate];
          destruct (PyStr.at_ cols 1) as [c1|]; [|discriminate];
          destruct (PyStr.at_ cols 2) as [c2|]; [|discriminate]
      end.
      destruct (parser_sy.split_prefix_marks c0), (parser_sy.split_prefix_marks c1),
        (parser_sy.split_prefix_marks c2). discriminate.
    + eapply (find_grade_none _ _ grade_range_sorted Ef i t); eauto.
      simpl. lia.
    + discriminate.
Qed.

(** X2: the grade of a row is the rightmost grade token of the line: it
    is one of the last six tokens and no token to its right is a grade of
    the vocabulary. *)
Theorem X2_rightmost_grade line subject_map row :
  parser_sy.parse_marks_row line subject_map = Some row ->
  exists grade_idx : Z,
    PyStr.index (PyStr.split line) grade_idx = Some (grd row) /\
    (parser_sy.len (PyStr.split line) - 6 <= grade_idx)%Z /\
    (1 <= grade_idx < parser_sy.len (PyStr.split line))%Z /\
    forall j t,
      (grade_idx < j)%Z -> PyStr.index (PyStr.split line) j = Some t ->
      ~ In t parser_sy.valid_grades.
Proof.
  intros H. apply sy_row_fields in H as (_ & Hl & grade_idx & p0 & Hf & _).
  set (parts := PyStr.split line) in *.
  destruct (find_grade_hit _ _ _ _ Hf) as (i & Hin & Hlt & -> & Ht & Hv).
  assert (Hi : (1 <= i <= 6)%Z) by (simpl in Hin; lia).
  exists (parser_sy.len parts - i)%Z.
  rewrite <- index_from_end by lia. split; [done|]. split; [lia|]. split; [lia|].
  intros j t Hj Hjt.
  destruct (Z_lt_ge_dec j (parser_sy.len parts)) as [Hjl|Hjl];
    [|rewrite index_past_end in Hjt by lia; discriminate].
  apply (find_grade_first _ _ grade_range_sorted _ _ Hf (parser_sy.len parts - j)%Z t).
  - simpl. lia.
  - lia.
  - rewrite index_from_end by lia.
    by replace (parser_sy.len parts - (parser_sy.len parts - j))%Z with j by lia.
Qed.

Lemma X2_rightmost_grade_witness :
  exists row grade_idx,
    parser_sy.parse_marks_row "CS101 A 38 83 4 4 B 8 32" ∅ = Some row /\
    grd row = "B" /\
    PyStr.index (PyStr.split "CS101 A 38 83 4 4 B 8 32") grade_idx = Some "B".
Proof.
  destruct (parser_sy.parse_marks_row "CS101 A 38 83 4 4 B 8 32" ∅) as [row|] eqn:E;
    [|vm_compute in E; discriminate].
  assert (Hg : grd row = "B") by (vm_compute in E; injection E as <-; reflexivity).
  destruct (X2_rightmost_grade _ _ _ E) as (grade_idx & Hidx & _).
  exists row, grade_idx. split; [reflexivity|]. split; [exact Hg|]. by rewrite <- Hg.
Defined.

(** ** parse_marks_row: the subject map only names the subject *)

(** X3: the subject map decides the [name] of a row and nothing else: with
    another map the same line gives the same row, named by that map (the
    name of the code, or the sentinel "Subject Name Not Found"). *)
Theorem X3_subject_map_names_only line m1 m2 row :
  parser_sy.parse_marks_row line m1 = Some row ->
  parser_sy.parse_marks_row line m2
  = Some (with_name (default "Subject Name Not Found" (m2 !! code row)) row).
Proof.
  unfold parser_sy.parse_marks_row.
  destruct (parser_sy.ignored line); [discriminate|].
  set (parts := PyStr.split line).
  unfold parser_sy.row_of_parts.
  destruct (parser_sy.len parts <? 6)%Z; [discriminate|].
  destruct (parser_sy.find_grade parts _) as [[[grade_idx g]|]|e];
    unfold mbind, res_bind; try discriminate.
  destruct (PyStr.at_ parts (grade_idx - 1)) as [ern|]; [|discriminate].
  destruct (PyStr.at_ parts (grade_idx - 2)) as [crd|]; [|discriminate].
  destruct (PyStr.at_ parts (grade_idx - 3)) as [p1|]; [|discriminate].
  destruct (PyStr.at_ parts (grade_idx - 4)) as [p2|]; [|discriminate].
  match goal with
  | |- context [let '(_, _) := ?c in _] => destruct c as [total marks_end_idx]
  end.
  destruct (if (grade_idx + 1 <? _)%Z then _ else _) as [gp|]; [|discriminate].
  destruct (if (grade_idx + 2 <? _)%Z then _ else _) as [cp|]; [|discriminate].
  destruct (PyStr.at_ parts 0) as [code0|]; [|discriminate].
  match goal with
  | |- context [PyStr.at_ ?cols 0] =>
      destruct (PyStr.at_ cols 0) as [c0|]; [|discriminate];
      destruct (PyStr.at_ cols 1) as [c1|]; [|discriminate];
      destruct (PyStr.at_ cols 2) as [c2|]; [|discriminate]
  end.
  destruct (parser_sy.split_prefix_marks c0) as [p_int int_m].
  destruct (parser_sy.split_prefix_marks c1) as [p_ext ext_m].
  destruct (parser_sy.split_prefix_marks c2) as [p_pr pr_m].
  intros [= <-]. reflexivity.
Qed.

Lemma X3_subject_map_names_only_witness :
  parser_sy.parse_marks_row "CS101 45 38 83 4 4 A 8 32" ∅
  = Some (SubjectRow "CS101" "Subject Name Not Found" "" "45" "" "38" "-" "-"
                     "83" "4" "4" "A" "8" "32") /\
  parser_sy.parse_marks_row "CS101 45 38 83 4 4 A 8 32" (<["CS101" := "Databases"]> ∅)
  = Some (SubjectRow "CS101" "Databases" "" "45" "" "38" "-" "-"
                     "83" "4" "4" "A" "8" "32").
Proof.
  assert (H : parser_sy.parse_marks_row "CS101 45 38 83 4 4 A 8 32" ∅
              = Some (SubjectRow "CS101" "Subject Name Not Found" "" "45" "" "38" "-" "-"
                                 "83" "4" "4" "A" "8" "32")) by reflexivity.
  split; [exact H|].
  exact (X3_subject_map_names_only _ ∅ (<["CS101" := "Databases"]> ∅) _ H).
Defined.

(** ** The merge of prefix symbols loses no text *)

Lemma append_assoc (a b c : string) : (a +:+ b) +:+ c = a +:+ (b +:+ c).
Proof.
  induction a as [|x a IH]; [done|].
  change (String x ((a +:+ b) +:+ c) = String x (a +:+ b +:+ c)).
  by rewrite IH.
Qed.

Lemma join_cons sep x l :
  PyStr.join sep (x :: l)
  = match l with
    | [] => x
    | _ :: _ => x +:+ sep +:+ PyStr.join sep l
    end.
Proof. by destruct l. Qed.

(** Induction over a list two elements at a time. *)
Lemma pair_induction {A : Type} (P : list A -> Prop) :
  P [] -> (forall x, P [x]) ->
  (forall x y l, P l -> P (y :: l) -> P (x :: y :: l)) ->
  forall l, P l.
Proof.
  intros H0 H1 H2 l.
  assert (H : P l /\ forall x, P (x :: l)); [|tauto].
  induction l as [|y l [IH1 IH2]]; [auto|]. split; [auto|].
  intros x. apply H2; auto.
Qed.

Section Merge.
Variable merge : list string -> list string.
Variable known : string -> bool.
Variable alone : string -> bool.
Hypothesis merge_nil : merge [] = [].
Hypothesis merge_cons :
  forall t rest,
    merge (t :: rest)
    = if alone t then t :: merge rest
      else match rest with
           | u :: rest' => if known t then (t +:+ " " +:+ u) :: merge rest'
                           else t :: merge rest
           | [] => t :: merge rest
           end.

Lemma merge_nil_iff l : merge l = [] <-> l = [].
Proof.
  split; [|by intros ->].
  destruct l as [|t rest]; [done|]. rewrite merge_cons.
  destruct (alone t); [discriminate|].
  destruct rest as [|u rest']; [discriminate|]. by destruct (known t).
Qed.

Lemma merge_join l : PyStr.join " " (merge l) = PyStr.join " " l.
Proof.
  induction l as [| x | x y l IH1 IH2] using pair_induction.
  - by rewrite merge_nil.
  - rewrite merge_cons, merge_nil. by destruct (alone x).
  - assert (Hkeep : PyStr.join " " (x :: merge (y :: l)) = PyStr.join " " (x :: y :: l)).
    { rewrite join_cons. destruct (merge (y :: l)) as [|z r] eqn:Em.
      - apply (proj1 (merge_nil_iff _)) in Em. discriminate Em.
      - rewrite IH2. reflexivity. }
    rewrite merge_cons. destruct (alone x); [exact Hkeep|].
    destruct (known x); [|exact Hkeep].
    rewrite join_cons. destruct (merge l) as [|z r] eqn:Em.
    + apply (proj1 (merge_nil_iff _)) in Em. subst l. simpl. reflexivity.
    + rewrite IH1. destruct l as [|z' l']; [by rewrite merge_nil in Em|].
      rewrite (join_cons " " x), (join_cons " " y). by rewrite !append_assoc.
Qed.

Lemma merge_length l : length (merge l) <= length l.
Proof.
  induction l as [| x | x y l IH1 IH2] using pair_induction.
  - by rewrite merge_nil.
  - rewrite merge_cons, merge_nil. by destruct (alone x).
  - rewrite merge_cons. destruct (alone x); [simpl in *; lia|].
    destruct (known x); simpl in *; lia.
Qed.

End Merge.

(** X4: the three loops that join a prefix symbol with the mark after it
    lose no text and add no column: the merged columns joined by spaces
    are the tokens joined by spaces, and there are at most as many columns
    as tokens. *)
Theorem X4_merge_keeps_text tokens :
  (PyStr.join " " (parser_sy.merge_columns tokens) = PyStr.join " " tokens /\
   length (parser_sy.merge_columns tokens) <= length tokens) /\
  (PyStr.join " " (parser_nep.merge_marks tokens) = PyStr.join " " tokens /\
   length (parser_nep.merge_marks tokens) <= length tokens) /\
  (PyStr.join " " (parser.merge_marks tokens) = PyStr.join " " tokens /\
   length (parser.merge_marks tokens) <= length tokens).
Proof.
  split; [|split].
  - split;
      [apply (merge_join _ (fun t => PyStr.mem t ["P"; "*"; "~"; "#"; "$"; "@"])
                           (fun t => PyStr.mem t ["---"; "AAA"; "AA"]))
      |apply (merge_length _ (fun t => PyStr.mem t ["P"; "*"; "~"; "#"; "$"; "@"])
                             (fun t => PyStr.mem t ["---"; "AAA"; "AA"]))];
      try reflexivity; intros t rest; by destruct rest.
  - split;
      [apply (merge_join _ (fun t => PyStr.mem t ["P"; "*"; "AA"]) (fun _ => false))
      |apply (merge_length _ (fun t => PyStr.mem t ["P"; "*"; "AA"]) (fun _ => false))];
      try reflexivity; intros t rest; by destruct rest.
  - split;
      [apply (merge_join _ (fun t => String.eqb t "*" || String.eqb t "$") (fun _ => false))
      |apply (merge_length _ (fun t => String.eqb t "*" || String.eqb t "$") (fun _ => false))];
      try reflexivity; intros t rest; by destruct rest.
Qed.

(** ** parser_sy: the semesters of a student *)

Lemma no_subjects_keys d :
  is_Some (parser_sy.no_subjects !! d) <-> In d sem_keys.
Proof.
  unfold parser_sy.no_subjects, sem_keys. split.
  - intros [l H].
    repeat (apply lookup_insert_Some in H as [[<- _]|[_ H]]; [simpl; tauto|]).
    by rewrite lookup_empty in H.
  - intros [<-|[<-|[<-|[<-|[]]]]]; by eexists.
Qed.

Lemma no_subjects_empty d rows : parser_sy.no_subjects !! d = Some rows -> rows = [].
Proof.
  unfold parser_sy.no_subjects. intros H.
  repeat (apply lookup_insert_Some in H as [[_ <-]|[_ H]]; [done|]).
  by rewrite lookup_empty in H.
Qed.

(** What the lines of one part do to the rows: the semester keys stay,
    and each list of rows grows at its end by rows read from a line. *)
Lemma sem_lines_inv subject_map d lines :
  forall st st',
    parser_sy.sem_lines subject_map d lines st = Ok st' ->
    (forall k, is_Some (fst st' !! k) <-> is_Some (fst st !! k)) /\
    (forall k rows', fst st' !! k = Some rows' ->
       exists rows new, fst st !! k = Some rows /\ rows' = (rows ++ new)%list /\
                        Forall (row_of_line subject_map) new).
Proof.
  induction lines as [|line lines IH]; intros st st' H; cbn [parser_sy.sem_lines] in H.
  - injection H as <-. split; [done|]. intros k rows' Hk.
    exists rows', []. by rewrite app_nil_r.
  - destruct (parser_sy.parse_marks_row line subject_map) as [row|] eqn:Er.
    + unfold parser_sy.append_row in H.
      destruct (fst st !! d) as [l|] eqn:Ed; [|discriminate].
      unfold mbind, res_bind in H. apply IH in H as [Hkeys Hrows]. cbn [fst] in *.
      split.
      * intros k. rewrite Hkeys. rewrite lookup_insert_is_Some.
        split; [intros [<-|[_ Hk]]; [by eexists|done]|].
        intros Hk. destruct (decide (d = k)); [by left|by right].
      * intros k rows' Hk. destruct (Hrows k rows' Hk) as (rows & new & Hl & -> & Hnew).
        apply lookup_insert_Some in Hl as [[<- <-]|[Hne Hl]].
        -- exists l, (row :: new). rewrite <- app_assoc. repeat split; [done|].
           constructor; [by exists line|done].
        -- by exists rows, new.
    + unfold mbind, res_bind in H. apply IH in H as [Hkeys Hrows]. cbn [fst] in *.
      done.
Qed.


(** A subject row under a semester the dictionary does not have raises. *)
Lemma sem_lines_raise subject_map d lines :
  forall st, fst st !! d = None ->
             Exists (fun line => is_Some (parser_sy.parse_marks_row line subject_map)) lines ->
             parser_sy.sem_lines subject_map d lines st = Raise KeyError.
Proof.
  induction lines as [|line lines IH]; intros st Hd Hex; [by apply Exists_nil in Hex|].
  cbn [parser_sy.sem_lines].
  destruct (parser_sy.parse_marks_row line subject_map) as [row|] eqn:Er.
  - unfold parser_sy.append_row. by rewrite Hd.
  - unfold mbind, res_bind. apply IH; [done|].
    apply Exists_cons in Hex as [[row Hrow]|Hex]; [congruence|done].
Qed.

Lemma sem_parts_inv subject_map parts :
  forall cur st st',
    parser_sy.sem_parts subject_map cur parts st = Ok st' ->
    (forall k, is_Some (fst st' !! k) <-> is_Some (fst st !! k)) /\
    (forall k rows', fst st' !! k = Some rows' ->
       exists rows new, fst st !! k = Some rows /\ rows' = (rows ++ new)%list /\
                        Forall (row_of_line subject_map) new).
Proof.
  assert (Hrefl : forall st : gmap string (list subject_row) * gmap string string,
            (forall k, is_Some (fst st !! k) <-> is_Some (fst st !! k)) /\
            (forall k rows', fst st !! k = Some rows' ->
               exists rows new, fst st !! k = Some rows /\ rows' = (rows ++ new)%list /\
                                Forall (row_of_line subject_map) new)).
  { intros st. split; [done|]. intros k rows' Hk. exists rows', []. by rewrite app_nil_r. }
  induction parts as [|part parts IH]; intros cur st st' H; cbn [parser_sy.sem_parts] in H.
  - injection H as <-. apply Hrefl.
  - destruct (Re.match_ Re.NOFLAG "SEMESTER:\s*(\d)" (PyStr.strip part)) as [m|];
      [by apply IH in H|].
    destruct cur as [d|]; [|by apply IH in H].
    destruct (PyStr.truthy d); [|by apply IH in H].
    destruct (parser_sy.sem_lines subject_map d (PyStr.lines part) st) as [st1|e] eqn:E1;
      [|discriminate].
    unfold mbind, res_bind in H.
    apply sem_lines_inv in E1 as [Hk1 Hr1]. apply IH in H as [Hk2 Hr2].
    split; [intros k; by rewrite Hk2|].
    intros k rows' Hk. destruct (Hr2 k rows' Hk) as (rows1 & new2 & Hl1 & -> & Hn2).
    destruct (Hr1 k rows1 Hl1) as (rows & new1 & Hl & -> & Hn1).
    exists rows, (new1 ++ new2)%list. rewrite app_assoc. repeat split; [done|].
    by apply Forall_app.
Qed.

(** The rows of a block: the four semester keys, each with rows read
    from lines. *)
Lemma scan_block_inv subject_map block st :
  parser_sy.scan_block subject_map block = Ok st ->
  (forall d, is_Some (fst st !! d) <-> In d sem_keys) /\
  (forall d rows, fst st !! d = Some rows -> Forall (row_of_line subject_map) rows).
Proof.
  unfold parser_sy.scan_block. intros H. apply sem_parts_inv in H as [Hk Hr]. cbn [fst] in *.
  split; [intros d; rewrite Hk; apply no_subjects_keys|].
  intros d rows Hd. destruct (Hr d rows Hd) as (rows0 & new & H0 & -> & Hn).
  apply no_subjects_empty in H0 as ->. done.
Qed.

Lemma row_of_line_grade subject_map row :
  row_of_line subject_map row -> In (grd row) parser_sy.valid_grades.
Proof.
  intros [line H]. apply sy_row_fields in H as (_ & _ & grade_idx & p0 & Hg & _).
  apply find_grade_spec in Hg as (_ & _ & Hin); [done|].
  repeat constructor; lia.
Qed.

(** X5: every second-year student of the envelope has exactly the four
    semesters 1 to 4, and every subject row recorded under them has a
    grade of the list of valid grades ("FFF" and "Absent", which the
    inference of the result tests for, are never recorded). *)
Theorem X5_sy_semesters doc s :
  In s (Doc.student_data (parser_sy.main doc)) ->
  (forall d, is_Some (parser_sy.sem_subjects s !! d) <-> In d ["1"; "2"; "3"; "4"]) /\
  (forall d rows row,
     parser_sy.sem_subjects s !! d = Some rows -> In row rows ->
     In (grd row) parser_sy.valid_grades /\ grd row <> "FFF" /\ grd row <> "Absent").
Proof.
  intros Hin. apply sy_main_emits in Hin as (subject_map & block & md & md' & Hr).
  apply sy_block_round_emits in Hr as (_ & md0 & Hb).
  apply sy_parse_block_emits in Hb as (st & m & Hs & _ & _ & -> & _).
  apply scan_block_inv in Hs as [Hk Hrows]. split; [exact Hk|].
  intros d rows row Hd Hrow. specialize (Hrows d rows Hd).
  rewrite List.Forall_forall in Hrows. apply Hrows, row_of_line_grade in Hrow.
  split; [done|]. split; intros E; rewrite E in Hrow; unfold parser_sy.valid_grades in Hrow;
    simpl in Hrow; intuition discriminate.
Qed.

Lemma X5_sy_semesters_witness :
  exists s, In s (Doc.student_data (parser_sy.main Sample.sy_doc)) /\
            (forall d, is_Some (parser_sy.sem_subjects s !! d) <-> In d ["1"; "2"; "3"; "4"]) /\
            (forall d rows row,
               parser_sy.sem_subjects s !! d = Some rows -> In row rows ->
               In (grd row) parser_sy.valid_grades /\ grd row <> "FFF" /\ grd row <> "Absent").
Proof.
  destruct (Doc.student_data (parser_sy.main Sample.sy_doc)) as [|s l] eqn:E;
    [vm_compute in E; discriminate|].
  exists s. split; [left; reflexivity|].
  apply (X5_sy_semesters Sample.sy_doc s). rewrite E. left. reflexivity.
Defined.

(** ** parser_sy: which blocks yield a student *)

Lemma last_char_group_sound r :
  forall st st' n s,
    Re.Sem r st st' -> last_char_group r = Some (n, s) ->
    exists c, Re.cap_lookup n (Re.caps st') = Some [c] /\ Re.cset_mem s c = true.
Proof.
  induction r as [|s0|g0 s0 lo0 hi0|a _ b IHb|a _ b _|k a _|a _|ml|ml];
    intros st st' n s H Hl; simpl in Hl; try discriminate.
  - inversion H; subst. eauto.
  - destruct a as [|s'| | | | | | |]; try discriminate.
    injection Hl as -> ->.
    apply Sem_Grp_inv in H as (st1 & t & Ha & Ht & Hc).
    inversion Ha as [|s1 c l st2 Hr Hm| | | | | | | |]; subst.
    rewrite Hr in Ht. simpl in Ht.
    change (c :: l) with ([c] ++ l)%list in Ht. apply app_inv_tail in Ht. subst t.
    exists c. rewrite Hc. simpl. by rewrite Nat.eqb_refl.
Qed.

(** The semester of a header is one digit. *)
Lemma semester_digit part m :
  Re.match_ Re.NOFLAG "SEMESTER:\s*(\d)" part = Some m ->
  exists c, group_text m 1 = String c "" /\ PyStr.isdigit c = true.
Proof.
  intros H. apply match_Matched in H as (st0 & st' & _ & Hs & Hc).
  eapply last_char_group_sound in Hs as (c & Hl & Hm); [|vm_compute; reflexivity].
  exists c. unfold group_text, Re.group. rewrite Hc, Hl. done.
Qed.






Lemma sem_parts_header subject_map cur part parts st m :
  Re.match_ Re.NOFLAG "SEMESTER:\s*(\d)" (PyStr.strip part) = Some m ->
  parser_sy.sem_parts subject_map cur (part :: parts) st
  = parser_sy.sem_parts subject_map (Some (group_text m 1)) parts st.
Proof. intros H. cbn [parser_sy.sem_parts]. by rewrite H. Qed.

(** Before the first header a part only sets the semester, if it is a
    header. *)
Lemma sem_parts_first subject_map part parts st :
  parser_sy.sem_parts subject_map None (part :: parts) st
  = parser_sy.sem_parts subject_map
      (match Re.match_ Re.NOFLAG "SEMESTER:\s*(\d)" (PyStr.strip part) with
       | Some m => Some (group_text m 1)
       | None => None
       end) parts st.
Proof.
  cbn [parser_sy.sem_parts].
  by destruct (Re.match_ Re.NOFLAG "SEMESTER:\s*(\d)" (PyStr.strip part)).
Qed.

(** X7: a block whose first semester header names a semester other than
    1 to 4, followed by a part with a subject row, yields no student: the
    row is appended under a key the student dictionary does not have, the
    KeyError ends the round, and the student is left out without a
    report. *)
Theorem X7_unknown_semester_drops subject_map metadata block p0 hdr m part rest :
  Re.split_keep Re.NOFLAG "(SEMESTER:\s*\d)" block = p0 :: hdr :: part :: rest ->
  Re.match_ Re.NOFLAG "SEMESTER:\s*(\d)" (PyStr.strip hdr) = Some m ->
  ~ In (group_text m 1) ["1"; "2"; "3"; "4"] ->
  Re.match_ Re.NOFLAG "SEMESTER:\s*(\d)" (PyStr.strip part) = None ->
  Exists (fun line => is_Some (parser_sy.parse_marks_row line subject_map))
         (PyStr.lines part) ->
  parser_sy.scan_block subject_map block = Raise KeyError /\
  snd (parser_sy.block_round subject_map metadata block) = None.
Proof.
  intros Hsplit Hm Hd Hpart Hrow.
  assert (Hs : parser_sy.scan_block subject_map block = Raise KeyError).
  { unfold parser_sy.scan_block. rewrite Hsplit.
    assert (Hgo : parser_sy.sem_parts subject_map (Some (group_text m 1)) (part :: rest)
                    (parser_sy.no_subjects, parser_sy.no_summary) = Raise KeyError).
    { cbn [parser_sy.sem_parts]. rewrite Hpart.
      destruct (semester_digit _ _ Hm) as (c & Hc & _). rewrite Hc at 1. cbn [PyStr.truthy PyStr.is_empty negb].
      rewrite sem_lines_raise; [done| |done]. cbn [fst].
      destruct (parser_sy.no_subjects !! group_text m 1) as [l|] eqn:E; [|done].
      exfalso. apply Hd. apply no_subjects_keys. by eexists. }
    rewrite sem_parts_first, (sem_parts_header _ _ hdr _ _ m Hm). exact Hgo. }
  split; [exact Hs|]. unfold parser_sy.block_round.
  destruct (negb (PyStr.contains "SEMESTER" block)); [done|].
  match goal with
  | |- context [parser_sy.parse_block _ ?md _] => generalize md
  end.
  intros md. unfold parser_sy.parse_block. rewrite Hs. done.
Qed.

Lemma X7_unknown_semester_drops_witness :
  parser_sy.scan_block ∅ sy_block_sem5 = Raise KeyError /\
  snd (parser_sy.block_round ∅ (Doc.Metadata None "Unknown" "Unknown") sy_block_sem5) = None.
Proof.
  eapply (X7_unknown_semester_drops ∅ (Doc.Metadata None "Unknown" "Unknown") sy_block_sem5).
  - vm_compute. reflexivity.
  - vm_compute. reflexivity.
  - vm_compute. intuition discriminate.
  - vm_compute. reflexivity.
  - apply List.Exists_exists. exists "CS501 45 38 83 4 4 A 8 32". split.
    + vm_compute. auto.
    + vm_compute. by eexists.
Defined.

(** ** The cuts into blocks lose no text *)

Lemma append_nil_r (s : string) : s +:+ "" = s.
Proof.
  induction s as [|c s IH]; [done|].
  change (String c (s +:+ "") = String c s). by rewrite IH.
Qed.

Lemma join_empty_cons x l : PyStr.join "" (x :: l) = x +:+ PyStr.join "" l.
Proof. destruct l; [by rewrite append_nil_r|done]. Qed.

Lemma join_empty_app l1 l2 :
  PyStr.join "" (l1 ++ l2)%list = PyStr.join "" l1 +:+ PyStr.join "" l2.
Proof.
  induction l1 as [|x l1 IH]; [done|].
  rewrite <- app_comm_cons, !join_empty_cons, IH. by rewrite append_assoc.
Qed.

Lemma string_of_list_app (a b : list ascii) :
  string_of_list_ascii (a ++ b)%list = string_of_list_ascii a +:+ string_of_list_ascii b.
Proof.
  induction a as [|c a IH]; [done|].
  change (String c (string_of_list_ascii (a ++ b)%list)
          = String c (string_of_list_ascii a +:+ string_of_list_ascii b)).
  by rewrite IH.
Qed.

Lemma skipn_split {A : Type} (l : list A) (p q : nat) :
  p <= q -> skipn p l = (firstn (q - p) (skipn p l) ++ skipn q l)%list.
Proof.
  intros Hpq. rewrite <- (firstn_skipn (q - p) (skipn p l)) at 1.
  f_equal. rewrite skipn_skipn. f_equal. lia.
Qed.

(** A match found from position [p] on is a match of the pattern at its
    start, read on the rest of the subject from there. *)
Lemma match_here_Sem r ma p pv l m :
  Re.match_here r ma p pv l = Some m ->
  exists st', Re.Sem r (Re.MState p pv l []) st' /\
              m = Re.Match p (Re.pos st') (firstn (Re.pos st' - p) l) (Re.caps st').
Proof.
  unfold Re.match_here. intros H.
  destruct (Re.mt Re.mstate r (Re.MState p pv l []) _) as [st|] eqn:E; [|discriminate].
  injection H as <-. apply mt_sound in E as (st' & Hs & Hk).
  destruct (ma && (Re.pos st' =? p)%nat); [discriminate|]. injection Hk as ->.
  by exists st.
Qed.

Lemma search_at_Sem r l0 :
  forall ma p pv m,
    Re.search_at r ma p pv l0 = Some m ->
    exists pre l' pv' st',
      l0 = (pre ++ l')%list /\
      Re.Sem r (Re.MState (p + length pre) pv' l' []) st' /\
      m = Re.Match (p + length pre) (Re.pos st')
                   (firstn (Re.pos st' - (p + length pre)) l') (Re.caps st').
Proof.
  induction l0 as [|c l0 IH]; intros ma p pv m H; simpl in H.
  - destruct (Re.match_here r ma p pv []) eqn:E; [|discriminate]. injection H as ->.
    apply match_here_Sem in E as (st' & Hs & ->).
    exists [], [], pv, st'. simpl. rewrite Nat.add_0_r. done.
  - destruct (Re.match_here r ma p pv (c :: l0)) eqn:E.
    + injection H as ->. apply match_here_Sem in E as (st' & Hs & ->).
      exists [], (c :: l0), pv, st'. simpl. rewrite Nat.add_0_r. done.
    + apply IH in H as (pre & l' & pv' & st' & -> & Hs & ->).
      exists (c :: pre), l', pv', st'. simpl.
      replace (p + S (length pre)) with (S p + length pre) by lia. done.
Qed.

Lemma search_from_Sem r ma p l m :
  Re.search_from r ma p l = Some m ->
  exists q pv st',
    Re.Sem r (Re.MState q pv (skipn q l) []) st' /\
    m = Re.Match q (Re.pos st') (firstn (Re.pos st' - q) (skipn q l)) (Re.caps st').
Proof.
  unfold Re.search_from. intros H.
  apply search_at_Sem in H as (pre & l' & pv' & st' & Hl & Hs & ->).
  assert (Hq : skipn (p + length pre) l = l').
  { rewrite Nat.add_comm, <- skipn_skipn, Hl.
    by rewrite skipn_app, skipn_all, Nat.sub_diag. }
  exists (p + length pre), pv', st'. by rewrite Hq.
Qed.

(** The pieces of a split, with what is kept of each match reading the
    text of the match, are the subject cut up. *)
Lemma matches_from_rejoin (after_match : Re.match_obj -> list string) r l :
  (forall q pv st',
     Re.Sem r (Re.MState q pv (skipn q l) []) st' ->
     PyStr.join ""
       (after_match (Re.Match q (Re.pos st') (firstn (Re.pos st' - q) (skipn q l))
                              (Re.caps st')))
     = string_of_list_ascii (firstn (Re.pos st' - q) (skipn q l))) ->
  forall fuel ma p,
    p <= length l ->
    PyStr.join "" (Re.pieces after_match l p (Re.matches_from fuel r ma p l))
    = string_of_list_ascii (skipn p l).
Proof.
  intros Hafter. induction fuel as [|fuel IH]; intros ma p Hp; [done|].
  cbn [Re.matches_from].
  destruct (Re.search_from r ma p l) as [m|] eqn:E; [|done].
  pose proof (search_from_span _ _ _ _ _ Hp E) as (Hs & [Hse Hel] & _).
  apply search_from_Sem in E as (q & pv & st' & Hsem & ->).
  cbn [Re.m_start Re.m_end] in *. cbn [Re.pieces Re.m_start Re.m_end].
  rewrite join_empty_cons, join_empty_app, (Hafter _ _ _ Hsem), (IH _ _ Hel).
  rewrite <- !string_of_list_app. f_equal.
  rewrite <- (skipn_split l q (Re.pos st') Hse). symmetry. by apply skipn_split.
Qed.

Lemma zero_width_sound r st st' :
  Re.Sem r st st' -> zero_width r = true -> Re.pos st' = Re.pos st.
Proof.
  induction 1 as [| | |a b st st1 st2 _ IH1 _ IH2|a b st st' _ IH|a b st st' _ IH
                 |n a st st1 _ IH| | |]; simpl; intros Hz; try discriminate; try done.
  - apply andb_true_iff in Hz as [Ha Hb]. rewrite IH2, IH1; done.
  - apply andb_true_iff in Hz as [Ha _]. auto.
  - apply andb_true_iff in Hz as [_ Hb]. auto.
  - auto.
Qed.

(** A split at a pattern that matches no character only cuts. *)
Lemma split_zero_width fl pattern s :
  zero_width (Re.compile fl pattern) = true ->
  PyStr.join "" (Re.split fl pattern s) = s.
Proof.
  intros Hz. unfold Re.split, Re.finditer.
  rewrite matches_from_rejoin; [|intros q pv st' Hs|lia].
  - simpl. apply string_of_list_ascii_of_string.
  - apply zero_width_sound in Hs; [|exact Hz]. simpl in Hs.
    by rewrite Hs, Nat.sub_diag.
Qed.

(** A split at a pattern that is one group keeps every separator. *)
Lemma split_keep_whole_group fl pattern s :
  whole_group (Re.compile fl pattern) = true ->
  PyStr.join "" (Re.split_keep fl pattern s) = s.
Proof.
  intros Hw. unfold Re.split_keep, Re.finditer.
  rewrite matches_from_rejoin; [|intros q pv st' Hs|lia].
  - simpl. apply string_of_list_ascii_of_string.
  - destruct (Re.compile fl pattern) as [| | | | |[|[|n]] a| | |]; try discriminate.
    inversion Hs as [| | | | | |n' a' st0 st1 Ha| | |]; subst.
    unfold Re.group. simpl. reflexivity.
Qed.

(** X8: the cuts of the text into student blocks, and of a second-year
    block into semester headers and parts, lose no character: the pieces
    put together again are the text.  (The cuts at "Semester :" of the
    NEP pattern and at the dashed lines of the gazette drop the
    separators.) *)
Theorem X8_segmentation_keeps_text (text : string) :
  PyStr.join "" (Re.split Re.NOFLAG "(?=PRN:\s*\d+)" text) = text /\
  PyStr.join "" (Re.split Re.NOFLAG "(?=PRN[:\s])" text) = text /\
  PyStr.join "" (Re.split_keep Re.NOFLAG "(SEMESTER:\s*\d)" text) = text.
Proof.
  split; [|split].
  - apply split_zero_width. vm_compute. reflexivity.
  - apply split_zero_width. vm_compute. reflexivity.
  - apply split_keep_whole_group. vm_compute. reflexivity.
Qed.

(** ** parser_nep and parser: which blocks yield a record *)

Lemma split_char_from_cons sep s :
  forall cur, exists x l, PyStr.split_char_from sep cur s = x :: l.
Proof.
  induction s as [|c s IH]; intros cur; simpl; [by eexists _, _|].
  destruct (Ascii.eqb c sep); [by eexists _, _|apply IH].
Qed.

(** [s.split('\n')[0]] is there for every string. *)
Lemma first_line_ok s : exists x, PyStr.at_ (PyStr.lines s) 0 = Ok x.
Proof.
  unfold PyStr.lines, PyStr.split_on.
  destruct (split_char_from_cons PyStr.newline s "") as (x & l & ->). by exists x.
Qed.

(** X9: the [try] blocks of the NEP and gazette block parsers never
    catch anything: a NEP block yields a record exactly when it has a PRN
    and a seat number, a gazette block exactly when it has the identity
    line (seat number, name, sex, PRN).  No student with these is left
    out. *)
Theorem X9_identity_gives_record :
  (forall block subject_map,
     is_Some (parser_nep.parse_nep_block block subject_map) <->
     is_Some (parser_nep.prn_match block) /\ is_Some (parser_nep.seat_match block)) /\
  (forall block,
     is_Some (parser.parse_gazette_block block) <-> is_Some (parser.info_match block)).
Proof.
  split.
  - intros block subject_map. unfold parser_nep.parse_nep_block.
    destruct (parser_nep.prn_match block) as [pm|];
      [|split; [by intros [? [=]]|by intros [[? [=]] _]]].
    destruct (parser_nep.seat_match block) as [sm|];
      [|split; [by intros [? [=]]|by intros [_ [? [=]]]]].
    split; [intros _; split; by eexists|intros _].
    destruct (Re.search Re.DOTALL "NAME:?\s*(.*?)(?=Mother|-|PRN|$)" block) as [nm|].
    + destruct (first_line_ok (PyStr.strip (group_text nm 1))) as [x ->]. by eexists.
    + by eexists.
  - intros block. unfold parser.parse_gazette_block.
    destruct (parser.info_match block) as [m|]; [|split; by intros [? [=]]].
    split; [intros _; by eexists|intros _].
    destruct (1 <? parser.len (PyStr.split (PyStr.strip (group_text m 2))))%Z eqn:El.
    + apply Z.ltb_lt in El.
      destruct (at_valid (PyStr.split (PyStr.strip (group_text m 2))) (-1)) as [x Hx].
      { unfold parser.len in El. unfold parser_sy.len. lia. }
      rewrite Hx. unfold mbind, res_bind.
      destruct (parser.totals "TOTAL\s+(\d+)\s+\d+\s+(\d+)" block) as [tc tm].
      destruct (parser.totals "F\.Y\.TOTAL\s+(\d+)\s+\d+\s+(\d+)" block) as [fc fm].
      destruct (parser.cgpa_match block); by eexists.
    + unfold mbind, res_bind.
      destruct (parser.totals "TOTAL\s+(\d+)\s+\d+\s+(\d+)" block) as [tc tm].
      destruct (parser.totals "F\.Y\.TOTAL\s+(\d+)\s+\d+\s+(\d+)" block) as [fc fm].
      destruct (parser.cgpa_match block); by eexists.
Qed.

(** ** What the records of an envelope hold *)

(** A group of one or more characters, none of them a dash, is not the
    sentinel "-". *)
Lemma figure_not_dash fl pattern n s lo m :
  Re.last_group (Re.compile fl pattern) = Some (n, s, S lo) ->
  Re.cset_mem s "-"%char = false ->
  Re.Matched (Re.compile fl pattern) m ->
  group_text m n <> "-".
Proof.
  intros Hl Hd Hm.
  destruct (Matched_last_group _ _ _ _ _ Hm Hl) as (t & Hg & Hlen & Hf).
  unfold group_text. rewrite Hg. simpl. intros E.
  destruct t as [|c [|c' t]]; simpl in E; try discriminate.
  injection E as ->. apply Forall_cons in Hf as [Hc _]. congruence.
Qed.

Lemma nep_block_fields block subject_map s :
  parser_nep.parse_nep_block block subject_map = Some s ->
  parser_nep.gender s
  = (if PyStr.contains "SEX: M" block || PyStr.contains " M " block
     then "Male" else "Unknown") /\
  parser_nep.fy_total_msg s = parser_nep.fy_text block /\
  parser_nep.result s
  = parser_nep.resolve_result (parser_nep.fy_text block)
      (parser_nep.all_grades (parser_nep.scan_block block subject_map)) /\
  parser_nep.cgpa s = "-" /\ parser_nep.final_grade s = "-" /\
  parser_nep.course_name s = None.
Proof.
  unfold parser_nep.parse_nep_block. intros H.
  destruct (parser_nep.prn_match block) as [pm|]; [|discriminate].
  destruct (parser_nep.seat_match block) as [sm|]; [|discriminate].
  match type of H with
  | context [mbind _ ?c] => destruct c as [full_name|e]
  end; unfold mbind, res_bind in H; [|discriminate].
  injection H as <-. simpl. repeat split; reflexivity.
Qed.

(** X10: in every record of a NEP envelope the gender is "Male" or
    "Unknown" (the parser knows no other), the result is one of "PASS",
    "FAIL A.T.K.T." and "FAIL", and the CGPA and the final grade are the
    sentinel "-"; a First Year statement with "44/44" makes the result
    "PASS" whatever the grades, and "FAIL A.T.K.T." is only given when the
    statement has "A.T.K.T". *)
Theorem X10_nep_record_values doc s :
  In s (Doc.student_data (parser_nep.main doc)) ->
  In (parser_nep.gender s) ["Male"; "Unknown"] /\
  In (parser_nep.result s) ["PASS"; "FAIL A.T.K.T."; "FAIL"] /\
  parser_nep.cgpa s = "-" /\ parser_nep.final_grade s = "-" /\
  (PyStr.contains "44/44" (parser_nep.fy_total_msg s) = true ->
   parser_nep.result s = "PASS") /\
  (parser_nep.result s = "FAIL A.T.K.T." ->
   PyStr.contains "A.T.K.T" (parser_nep.fy_total_msg s) = true).
Proof.
  intros Hin. apply nep_main_emits in Hin as (subject_map & block & c & s0 & Hb & ->).
  apply nep_block_fields in Hb as (Hg & Hfy & Hr & Hc & Hf & _).
  cbn [parser_nep.with_course parser_nep.gender parser_nep.result parser_nep.cgpa
       parser_nep.final_grade parser_nep.fy_total_msg].
  rewrite Hg, Hfy, Hr, Hc, Hf. unfold parser_nep.resolve_result.
  destruct (PyStr.contains "SEX: M" block || PyStr.contains " M " block);
    (destruct (PyStr.contains "44/44" (parser_nep.fy_text block)); cbn [orb];
     [|destruct (negb _ && _);
       [|destruct (PyStr.contains "A.T.K.T" (parser_nep.fy_text block))]]);
    repeat split; simpl; auto; try discriminate; tauto.
Qed.

Lemma X10_nep_record_values_witness :
  exists s, In s (Doc.student_data (parser_nep.main Sample.nep_doc)) /\
            In (parser_nep.gender s) ["Male"; "Unknown"] /\
            In (parser_nep.result s) ["PASS"; "FAIL A.T.K.T."; "FAIL"] /\
            parser_nep.cgpa s = "-" /\ parser_nep.final_grade s = "-" /\
            (PyStr.contains "44/44" (parser_nep.fy_total_msg s) = true ->
             parser_nep.result s = "PASS") /\
            (parser_nep.result s = "FAIL A.T.K.T." ->
             PyStr.contains "A.T.K.T" (parser_nep.fy_total_msg s) = true).
Proof.
  destruct (Doc.student_data (parser_nep.main Sample.nep_doc)) as [|s l] eqn:E;
    [vm_compute in E; discriminate|].
  exists s. split; [left; reflexivity|].
  apply (X10_nep_record_values Sample.nep_doc s). rewrite E. left. reflexivity.
Defined.

Lemma gazette_block_fields block s :
  parser.parse_gazette_block block = Some s ->
  exists m,
    parser.info_match block = Some m /\
    parser.gender s
    = (if String.eqb (PyStr.strip (group_text m 3)) "M" then "Male" else "Female") /\
    parser.cgpa s
    = match parser.cgpa_match block with
      | Some c => group_text c 1
      | None => "-"
      end /\
    parser.result s
    = match parser.fail_match block with
      | Some f =>
          if PyStr.contains "A.T.K.T" (PyStr.upper (group_text f 1))
          then "FAIL A.T.K.T." else "FAIL"
      | None =>
          match parser.cgpa_match block with
          | Some _ => "PASS"
          | None => "FAIL"
          end
      end.
Proof.
  unfold parser.parse_gazette_block. intros H.
  destruct (parser.info_match block) as [m|]; [|discriminate].
  exists m. split; [done|].
  match type of H with
  | context [mbind _ ?c] => destruct c as [[full_name mother_name]|e]
  end; unfold mbind, res_bind in H; [|discriminate].
  destruct (parser.totals "TOTAL\s+(\d+)\s+\d+\s+(\d+)" block) as [tc tm].
  destruct (parser.totals "F\.Y\.TOTAL\s+(\d+)\s+\d+\s+(\d+)" block) as [fc fm].
  destruct (parser.cgpa_match block); destruct (parser.fail_match block);
    injection H as <-; simpl; done.
Qed.

(** X11: in every record of a gazette envelope the gender is "Male" or
    "Female" and the result is one of "PASS", "FAIL A.T.K.T." and "FAIL";
    a record with the result "PASS" has a CGPA figure, not the sentinel
    "-". *)
Theorem X11_gazette_record_values doc s :
  In s (Doc.student_data (parser.main doc)) ->
  In (parser.gender s) ["Male"; "Female"] /\
  In (parser.result s) ["PASS"; "FAIL A.T.K.T."; "FAIL"] /\
  (parser.result s = "PASS" -> parser.cgpa s <> "-").
Proof.
  intros Hin. apply gazette_main_emits in Hin as (block & Hb).
  apply gazette_block_fields in Hb as (m & _ & Hg & Hc & Hr).
  rewrite Hg, Hr, Hc.
  split; [destruct (String.eqb _ "M"); simpl; tauto|].
  assert (Hfig : forall c, parser.cgpa_match block = Some c -> group_text c 1 <> "-").
  { intros c Hm. apply search_Matched in Hm.
    eapply figure_not_dash; [| |exact Hm]; vm_compute; reflexivity. }
  destruct (parser.fail_match block) as [f|].
  - destruct (PyStr.contains _ _); (split; [simpl; tauto|discriminate]).
  - destruct (parser.cgpa_match block) as [c|].
    + split; [simpl; tauto|]. intros _. by apply Hfig.
    + split; [simpl; tauto|discriminate].
Qed.

Lemma X11_gazette_record_values_witness :
  exists s, In s (Doc.student_data (parser.main Sample.gazette_doc)) /\
            In (parser.gender s) ["Male"; "Female"] /\
            In (parser.result s) ["PASS"; "FAIL A.T.K.T."; "FAIL"] /\
            (parser.result s = "PASS" -> parser.cgpa s <> "-").
Proof.
  destruct (Doc.student_data (parser.main Sample.gazette_doc)) as [|s l] eqn:E;
    [vm_compute in E; discriminate|].
  exists s. split; [left; reflexivity|].
  apply (X11_gazette_record_values Sample.gazette_doc s). rewrite E. left. reflexivity.
Defined.

(** * Further properties of the envelopes *)

(** ** The course name of the students *)

Lemma sy_block_round_course subject_map md block md' o :
  parser_sy.block_round subject_map md block = (md', o) ->
  Doc.course_name md' = Doc.course_name md /\
  forall s, o = Some s -> parser_sy.course_name s = Doc.course_name md.
Proof.
  unfold parser_sy.block_round.
  destruct (negb (PyStr.contains "SEMESTER" block)); [by intros [= <- <-]|].
  set (md1 := if parser_sy.unknown md then _ else md).
  assert (Hc : Doc.course_name md1 = Doc.course_name md).
  { unfold md1. destruct (parser_sy.unknown md); [|done].
    by destruct (Re.search _ _ block). }
  unfold parser_sy.parse_block.
  destruct (parser_sy.scan_block subject_map block) as [st|e]; unfold mbind, res_bind.
  - destruct (negb (String.eqb _ "-")); intros [= <- <-]; (split; [done|]); [|done].
    intros s [= <-]. simpl. exact Hc.
  - by intros [= <- <-].
Qed.

Lemma sy_blocks_loop_course subject_map blocks :
  forall md acc md' out,
    parser_sy.blocks_loop subject_map blocks md acc = (md', out) ->
    Forall (fun s => parser_sy.course_name s = Doc.course_name md) acc ->
    Doc.course_name md' = Doc.course_name md /\
    Forall (fun s => parser_sy.course_name s = Doc.course_name md) out.
Proof.
  induction blocks as [|b bs IH]; intros md acc md' out H Hacc; simpl in H.
  - by injection H as <- <-.
  - destruct (parser_sy.block_round subject_map md b) as [md1 o] eqn:Er.
    apply sy_block_round_course in Er as [Hc Hs].
    destruct o as [s|].
    + apply IH in H as [Hc' Hout].
      * rewrite Hc in *. done.
      * rewrite Hc. apply Forall_app. split; [done|]. constructor; [by apply Hs|done].
    + apply IH in H as [Hc' Hout]; [|by rewrite Hc]. rewrite Hc in *. done.
Qed.

(** X19: every student of a second-year or NEP envelope carries the
    course name of the envelope's [college_info]: the rounds of the
    second-year loop may still fill in the college name, but not the
    course. *)
Theorem X19_course_name_of_students doc metadata :
  (forall students,
     parser_sy.main doc = Doc.Success metadata students ->
     Forall (fun s => parser_sy.course_name s = Doc.course_name metadata) students) /\
  (forall students,
     parser_nep.main doc = Doc.Success metadata students ->
     Forall (fun s => parser_nep.course_name s = Some (Doc.course_name metadata)) students).
Proof.
  split.
  - intros students. unfold parser_sy.main. destruct doc as [why|pages]; [done|].
    destruct (parser_sy.extract_subject_mapping pages) as [subject_map backup_meta].
    destruct (parser_sy.blocks_loop _ _ _ _) as [md out] eqn:El. intros [= <- <-].
    apply sy_blocks_loop_course in El as [Hc Hout]; [|constructor].
    by rewrite Hc.
  - intros students. unfold parser_nep.main. destruct doc as [why|pages]; [done|].
    set (subject_map := parser_nep.extract_subject_mapping pages).
    destruct (flat_map _ pages) as [|s l] eqn:Ef; [done|]. intros [= <- <-].
    rewrite <- Ef. apply List.Forall_forall. intros x Hx.
    apply in_flat_map in Hx as (p & _ & Hp). unfold parser_nep.page_students in Hp.
    destruct (PyStr.is_empty _); [destruct Hp|].
    apply nep_page_blocks_emits in Hp as (block & s0 & _ & ->). done.
Qed.

Lemma X19_course_name_of_students_witness :
  (exists metadata students,
     parser_sy.main Sample.sy_doc = Doc.Success metadata students /\ students <> [] /\
     Forall (fun s => parser_sy.course_name s = Doc.course_name metadata) students) /\
  (exists metadata students,
     parser_nep.main Sample.nep_doc = Doc.Success metadata students /\ students <> [] /\
     Forall (fun s => parser_nep.course_name s = Some (Doc.course_name metadata)) students).
Proof.
  split.
  - destruct (parser_sy.main Sample.sy_doc) as [metadata students|e] eqn:E;
      [|vm_compute in E; discriminate].
    exists metadata, students. split; [done|]. split.
    + intros ->. vm_compute in E. discriminate.
    + exact (proj1 (X19_course_name_of_students Sample.sy_doc metadata) students E).
  - destruct (parser_nep.main Sample.nep_doc) as [metadata students|e] eqn:E;
      [|vm_compute in E; discriminate].
    exists metadata, students. split; [done|]. split.
    + intros ->. vm_compute in E. discriminate.
    + exact (proj2 (X19_course_name_of_students Sample.nep_doc metadata) students E).
Defined.

(** ** parser_nep: the grades noted are those of the rows recorded *)

Lemma no_space_app a b : no_space (a +:+ b) = no_space a && no_space b.
Proof.
  induction a as [|c a IH]; [done|].
  change (negb (PyStr.isspace c) && no_space (a +:+ b)
          = negb (PyStr.isspace c) && no_space a && no_space b).
  by rewrite IH, andb_assoc.
Qed.

Lemma is_empty_app a b : PyStr.is_empty (a +:+ b) = PyStr.is_empty a && PyStr.is_empty b.
Proof. by destruct a. Qed.

(** [split()] gives tokens. *)
Lemma split_ws_tokens s :
  forall cur, no_space cur = true ->
              Forall (fun t => is_token t = true) (PyStr.split_ws_from cur s).
Proof.
  induction s as [|c s IH]; intros cur Hc; cbn [PyStr.split_ws_from].
  - destruct (PyStr.is_empty cur) eqn:Ee; [constructor|].
    constructor; [|constructor]. unfold is_token. by rewrite Ee, Hc.
  - destruct (PyStr.isspace c) eqn:Es.
    + destruct (PyStr.is_empty cur) eqn:Ee; [by apply IH|].
      constructor; [|by apply IH]. unfold is_token. by rewrite Ee, Hc.
    + apply IH. rewrite no_space_app, Hc. simpl. by rewrite Es.
Qed.

Lemma split_tokens s : Forall (fun t => is_token t = true) (PyStr.split s).
Proof. by apply split_ws_tokens. Qed.

(** Characters that are no whitespace go to the token being read. *)
Lemma split_ws_prefix a :
  forall cur b, no_space a = true ->
                PyStr.split_ws_from cur (a +:+ b) = PyStr.split_ws_from (cur +:+ a) b.
Proof.
  induction a as [|c a IH]; intros cur b Ha.
  - by rewrite append_nil_r.
  - simpl in Ha. apply andb_true_iff in Ha as [Hc Ha]. apply negb_true_iff in Hc.
    change (String c a +:+ b) with (String c (a +:+ b)). cbn [PyStr.split_ws_from].
    rewrite Hc, IH by done. f_equal. by rewrite append_assoc.
Qed.

Lemma split_token t : is_token t = true -> PyStr.split t = [t].
Proof.
  unfold is_token, PyStr.split. intros H. apply andb_true_iff in H as [He Hn].
  rewrite <- (append_nil_r t) at 1. rewrite split_ws_prefix by done.
  change ("" +:+ t) with t. cbn [PyStr.split_ws_from].
  by apply negb_true_iff in He as ->.
Qed.

Lemma split_pair t u :
  is_token t = true -> is_token u = true -> PyStr.split (t +:+ " " +:+ u) = [t; u].
Proof.
  unfold PyStr.split. intros Ht Hu. pose proof (split_token u Hu) as Hsu.
  unfold is_token in Ht. apply andb_true_iff in Ht as [He Hn].
  rewrite split_ws_prefix by done. change ("" +:+ t) with t.
  change (" " +:+ u) with (String " " u). cbn [PyStr.split_ws_from].
  change (PyStr.isspace " ") with true. cbn iota.
  apply negb_true_iff in He as ->. f_equal. exact Hsu.
Qed.

(** A column after the merge splits into one or two tokens. *)
Lemma nep_merge_columns tokens :
  Forall (fun t => is_token t = true) tokens ->
  Forall (fun column => 1 <= length (PyStr.split column)) (parser_nep.merge_marks tokens).
Proof.
  induction tokens as [| x | x y l IH1 IH2] using pair_induction; intros H.
  - constructor.
  - apply Forall_cons in H as [Hx _]. cbn. constructor; [|constructor].
    rewrite split_token by done. simpl. lia.
  - apply Forall_cons in H as [Hx H]. pose proof H as Hyl.
    apply Forall_cons in H as [Hy Hl].
    cbn [parser_nep.merge_marks]. destruct (PyStr.mem x ["P"; "*"; "AA"]).
    + constructor; [rewrite split_pair by done; simpl; lia|by apply IH1].
    + constructor; [rewrite split_token by done; simpl; lia|by apply IH2].
Qed.

Lemma mark_field_ok column :
  1 <= length (PyStr.split column) -> exists r, parser_nep.mark_field column = Ok r.
Proof.
  intros Hl. unfold parser_nep.mark_field.
  destruct (at_valid (PyStr.split column) (-1)) as [v Hv];
    [unfold parser_sy.len; lia|].
  destruct (1 <? parser_nep.len (PyStr.split column))%Z.
  - destruct (at_valid (PyStr.split column) 0) as [p Hp]; [unfold parser_sy.len; lia|].
    rewrite Hp, Hv. by eexists.
  - rewrite Hv. by eexists.
Qed.

Lemma mark_or_absent_ok processed i :
  Forall (fun column => 1 <= length (PyStr.split column)) processed ->
  exists r, parser_nep.mark_or_absent processed i = Ok r.
Proof.
  intros H. unfold parser_nep.mark_or_absent.
  destruct (nth_error processed i) as [column|] eqn:E; [|by eexists].
  apply mark_field_ok. rewrite List.Forall_forall in H. apply H.
  by apply nth_error_In in E.
Qed.

(** The record of a line of eight tokens or more is always built, with
    the grade noted for the line. *)
Lemma record_of_parts_ok code_clean grade line subject_map :
  (8 <= parser_nep.len (PyStr.split line))%Z ->
  exists r, parser_nep.record_of_parts code_clean grade (PyStr.split line) subject_map = Ok r /\
            grd r = grade.
Proof.
  intros Hl. unfold parser_nep.record_of_parts. set (parts := PyStr.split line) in *.
  assert (Hat : forall i, (-6 <= i <= -1)%Z -> exists x, PyStr.at_ parts i = Ok x).
  { intros i Hi. apply at_valid. unfold parser_nep.len in Hl. unfold parser_sy.len. lia. }
  destruct (Hat (-6)%Z) as [total ->]; [lia|].
  destruct (Hat (-5)%Z) as [crd ->]; [lia|].
  destruct (Hat (-4)%Z) as [ern ->]; [lia|].
  destruct (Hat (-2)%Z) as [gp ->]; [lia|].
  destruct (Hat (-1)%Z) as [cp ->]; [lia|].
  unfold mbind, res_bind.
  assert (Hcols : Forall (fun column => 1 <= length (PyStr.split column))
                         (parser_nep.merge_marks (PyStr.slice parts 1 (-6)))).
  { apply nep_merge_columns. unfold PyStr.slice.
    apply Forall_take, Forall_drop, split_tokens. }
  destruct (mark_or_absent_ok _ 0 Hcols) as [[p1 m1] ->].
  destruct (mark_or_absent_ok _ 1 Hcols) as [[p2 m2] ->].
  destruct (mark_or_absent_ok _ 2 Hcols) as [[p3 m3] ->].
  by eexists.
Qed.

(** The grades are those of the rows, first semester first.  [sem_idx]
    starts at 1, and a row goes to the first semester only then. *)
Lemma nep_scan_line_grades subject_map sem_idx line st :
  parser_nep.all_grades st
  = (map grd (parser_nep.sem1 st) ++ map grd (parser_nep.sem2 st))%list ->
  (sem_idx = 1 -> parser_nep.sem2 st = []) ->
  let st' := parser_nep.scan_line subject_map sem_idx line st in
  parser_nep.all_grades st'
  = (map grd (parser_nep.sem1 st') ++ map grd (parser_nep.sem2 st'))%list /\
  (sem_idx = 1 -> parser_nep.sem2 st' = []).
Proof.
  intros Hg H2. unfold parser_nep.scan_line.
  destruct (8 <=? parser_nep.len (PyStr.split line))%Z eqn:El; [|done].
  apply Z.leb_le in El.
  destruct (PyStr.at_ (PyStr.split line) 0) as [p0|e]; [|done].
  destruct (3 <=? String.length _)%nat; [|done].
  destruct (PyStr.at_ (PyStr.split line) (-3)) as [grade|e]; [|done].
  match goal with
  | |- context [parser_nep.record_of_parts ?c grade _ _] =>
      destruct (record_of_parts_ok c grade line subject_map El) as (r & -> & Hr)
  end.
  destruct (sem_idx =? 1)%nat eqn:E1; cbn.
  - apply Nat.eqb_eq in E1. subst sem_idx. rewrite Hg, H2 by done.
    rewrite !app_nil_r, map_app. cbn. rewrite Hr. split; done.
  - apply Nat.eqb_neq in E1. rewrite Hg, map_app, app_assoc. cbn. rewrite Hr.
    split; [done|]. intros Hle. done.
Qed.

Lemma nep_scan_lines_grades subject_map sem_idx lines :
  forall st,
    parser_nep.all_grades st
    = (map grd (parser_nep.sem1 st) ++ map grd (parser_nep.sem2 st))%list ->
    (sem_idx = 1 -> parser_nep.sem2 st = []) ->
    let st' := fold_left (fun st line => parser_nep.scan_line subject_map sem_idx line st)
                         lines st in
    parser_nep.all_grades st'
    = (map grd (parser_nep.sem1 st') ++ map grd (parser_nep.sem2 st'))%list /\
    (sem_idx = 1 -> parser_nep.sem2 st' = []).
Proof.
  induction lines as [|line lines IH]; intros st Hg H2; [done|]. cbn [fold_left].
  destruct (nep_scan_line_grades subject_map sem_idx line st Hg H2) as [Hg' H2'].
  by apply IH.
Qed.

Lemma nep_scan_parts_grades subject_map parts :
  forall sem_idx st,
    1 <= sem_idx ->
    parser_nep.all_grades st
    = (map grd (parser_nep.sem1 st) ++ map grd (parser_nep.sem2 st))%list ->
    (sem_idx = 1 -> parser_nep.sem2 st = []) ->
    let st' := parser_nep.scan_parts subject_map sem_idx parts st in
    parser_nep.all_grades st'
    = (map grd (parser_nep.sem1 st') ++ map grd (parser_nep.sem2 st'))%list.
Proof.
  induction parts as [|part parts IH]; intros sem_idx st Hi Hg H2; [done|].
  cbn [parser_nep.scan_parts].
  destruct (nep_scan_lines_grades subject_map sem_idx (PyStr.lines part) st Hg H2)
    as [Hg' _].
  apply IH; [lia|done|lia].
Qed.

Lemma nep_block_rows block subject_map s :
  parser_nep.parse_nep_block block subject_map = Some s ->
  parser_nep.sem1_subjects s = parser_nep.sem1 (parser_nep.scan_block block subject_map) /\
  parser_nep.sem2_subjects s = parser_nep.sem2 (parser_nep.scan_block block subject_map).
Proof.
  unfold parser_nep.parse_nep_block. intros H.
  destruct (parser_nep.prn_match block) as [pm|]; [|discriminate].
  destruct (parser_nep.seat_match block) as [sm|]; [|discriminate].
  match type of H with
  | context [mbind _ ?c] => destruct c as [full_name|e]
  end; unfold mbind, res_bind in H; [|discriminate].
  injection H as <-. done.
Qed.

(** X20: the result of a NEP record is decided by its First Year
    statement and the grades of the subject rows it holds, first semester
    first: every line whose grade is noted also gives a row (the inner
    [try] never skips a line after noting its grade), and a row goes to
    the second semester when it is not in the first part after a
    "Semester :" header. *)
Theorem X20_nep_result_of_rows doc s :
  In s (Doc.student_data (parser_nep.main doc)) ->
  parser_nep.result s
  = parser_nep.resolve_result (parser_nep.fy_total_msg s)
      (map grd (parser_nep.sem1_subjects s) ++ map grd (parser_nep.sem2_subjects s))%list.
Proof.
  intros Hin. apply nep_main_emits in Hin as (subject_map & block & c & s0 & Hb & ->).
  pose proof (nep_block_rows _ _ _ Hb) as [H1 H2].
  apply nep_block_fields in Hb as (_ & Hfy & Hr & _).
  cbn [parser_nep.with_course parser_nep.result parser_nep.fy_total_msg
       parser_nep.sem1_subjects parser_nep.sem2_subjects].
  rewrite Hr, Hfy, H1, H2. f_equal. unfold parser_nep.scan_block.
  by apply nep_scan_parts_grades.
Qed.

Lemma X20_nep_result_of_rows_witness :
  exists s,
    In s (Doc.student_data (parser_nep.main Sample.nep_doc)) /\
    parser_nep.sem1_subjects s <> [] /\
    parser_nep.result s
    = parser_nep.resolve_result (parser_nep.fy_total_msg s)
        (map grd (parser_nep.sem1_subjects s) ++ map grd (parser_nep.sem2_subjects s))%list.
Proof.
  destruct (Doc.student_data (parser_nep.main Sample.nep_doc)) as [|s l] eqn:E;
    [vm_compute in E; discriminate|].
  exists s. split; [left; reflexivity|]. split.
  - vm_compute in E. injection E as <- _. discriminate.
  - apply (X20_nep_result_of_rows Sample.nep_doc s). rewrite E. left. reflexivity.
Defined.

(** ** The subject maps *)

Lemma sy_scan_line_idle line st :
  parser_sy.capture st = false ->
  PyStr.contains "Paper List" line = false ->
  parser_sy.mapping (fst (parser_sy.scan_line line st)) = parser_sy.mapping st /\
  parser_sy.capture (fst (parser_sy.scan_line line st)) = false.
Proof.
  intros Hc Hp. unfold parser_sy.scan_line. rewrite Hp, Hc.
  destruct (PyStr.contains "Semester:" line); [done|].
  destruct (PyStr.contains "PRN:" line); done.
Qed.

Lemma sy_scan_lines_idle lines :
  forall st,
    parser_sy.capture st = false ->
    forallb (fun line => negb (PyStr.contains "Paper List" line)) lines = true ->
    parser_sy.mapping (parser_sy.scan_lines lines st) = parser_sy.mapping st.
Proof.
  induction lines as [|line lines IH]; intros st Hc Hl; [done|].
  cbn [forallb] in Hl. apply andb_true_iff in Hl as [Hp Hl]. apply negb_true_iff in Hp.
  destruct (sy_scan_line_idle line st Hc Hp) as [Hm Hc'].
  cbn [parser_sy.scan_lines]. destruct (parser_sy.scan_line line st) as [st' [|]].
  - rewrite IH; done.
  - done.
Qed.

Lemma sy_scan_pages_idle pages :
  forall st,
    forallb (fun p => forallb (fun line => negb (PyStr.contains "Paper List" line))
                              (PyStr.lines (Doc.extract_text p Doc.Plain))) pages = true ->
    parser_sy.mapping (parser_sy.scan_pages pages st) = parser_sy.mapping st.
Proof.
  induction pages as [|p pages IH]; intros st Hp; [done|].
  cbn [forallb] in Hp. apply andb_true_iff in Hp as [Hl Hp].
  cbn [parser_sy.scan_pages]. destruct (PyStr.is_empty _); [by apply IH|].
  rewrite IH by done. by rewrite sy_scan_lines_idle.
Qed.

(** X22: the second-year subject map is filled from the lines after a
    line with "Paper List" only: a document without such a line in its
    first five pages has an empty subject map, and every subject row read
    with it is named "Subject Name Not Found". *)
Theorem X22_sy_map_needs_paper_list pdf :
  forallb (fun p => forallb (fun line => negb (PyStr.contains "Paper List" line))
                            (PyStr.lines (Doc.extract_text p Doc.Plain)))
          (firstn 5 pdf) = true ->
  fst (parser_sy.extract_subject_mapping pdf) = ∅ /\
  forall line row,
    parser_sy.parse_marks_row line (fst (parser_sy.extract_subject_mapping pdf)) = Some row ->
    name row = "Subject Name Not Found".
Proof.
  intros H.
  assert (Hm : fst (parser_sy.extract_subject_mapping pdf) = ∅).
  { unfold parser_sy.extract_subject_mapping. cbn [fst]. by rewrite sy_scan_pages_idle. }
  split; [exact Hm|]. intros line row Hr. rewrite Hm in Hr.
  apply sy_row_fields in Hr as (_ & _ & grade_idx & p0 & _ & _ & _ & ->).
  by rewrite lookup_empty.
Qed.

Lemma X22_sy_map_needs_paper_list_witness :
  fst (parser_sy.extract_subject_mapping [Sample.page_of Sample.sy_block]) = ∅ /\
  forall line row,
    parser_sy.parse_marks_row
      line (fst (parser_sy.extract_subject_mapping [Sample.page_of Sample.sy_block]))
    = Some row ->
    name row = "Subject Name Not Found".
Proof.
  apply (X22_sy_map_needs_paper_list [Sample.page_of Sample.sy_block]).
  vm_compute. reflexivity.
Defined.

Lemma find_empty needle : PyStr.is_empty needle = false -> PyStr.find needle "" = None.
Proof. by destruct needle. Qed.

(** X23: the NEP subject map is read up to the first page that has
    "PRN:", and on that page from the text before it: the pages after it
    add nothing. *)
Theorem X23_nep_map_stops_at_first_student pre p post n :
  PyStr.find "PRN:" (Doc.extract_text p Doc.Plain) = Some n ->
  parser_nep.extract_subject_mapping (pre ++ p :: post)
  = parser_nep.extract_subject_mapping (pre ++ [p]).
Proof.
  intros Hf. unfold parser_nep.extract_subject_mapping. generalize (∅ : gmap string string).
  induction pre as [|q pre IH]; intros mapping.
  - cbn [app parser_nep.map_pages].
    destruct (PyStr.is_empty (Doc.extract_text p Doc.Plain)) eqn:Ee.
    + destruct (Doc.extract_text p Doc.Plain); [|discriminate].
      rewrite find_empty in Hf by done. discriminate.
    + by rewrite Hf.
  - cbn [app parser_nep.map_pages].
    destruct (PyStr.is_empty (Doc.extract_text q Doc.Plain)); [apply IH|].
    destruct (PyStr.find "PRN:" (Doc.extract_text q Doc.Plain)); [done|apply IH].
Qed.

Lemma X23_nep_map_stops_at_first_student_witness :
  parser_nep.extract_subject_mapping
    ([Sample.page_of "CS-101 Programming in C"]
       ++ Sample.page_of Sample.nep_block_pass :: [Sample.page_of "CS-999 Never Read"])
  = parser_nep.extract_subject_mapping
      ([Sample.page_of "CS-101 Programming in C"] ++ [Sample.page_of Sample.nep_block_pass]).
Proof.
  apply (X23_nep_map_stops_at_first_student
           [Sample.page_of "CS-101 Programming in C"] (Sample.page_of Sample.nep_block_pass)
           [Sample.page_of "CS-999 Never Read"] 0).
  vm_compute. reflexivity.
Defined.

(** ** The figures of the records *)

Lemma only_figures_sound s c :
  only_figures s = true -> Re.cset_mem s c = true -> figure_char c = true.
Proof.
  unfold only_figures. rewrite forallb_forall. intros H Hc.
  assert (Hin : In c all_ascii).
  { unfold all_ascii. apply in_map_iff. exists (nat_of_ascii c).
    split; [apply ascii_nat_embedding|]. apply in_seq.
    pose proof (nat_ascii_bounded c). lia. }
  specialize (H c Hin). by rewrite Hc in H.
Qed.

Lemma all_figure_of_list t :
  Forall (fun c => figure_char c = true) t -> all_figure (string_of_list_ascii t) = true.
Proof.
  induction 1 as [|c t Hc _ IH]; [done|]. simpl. by rewrite Hc, IH.
Qed.

(** A pattern that ends in a group of one or more characters of figures
    captures a figure. *)
Lemma last_group_figure fl pattern n s lo m :
  Re.last_group (Re.compile fl pattern) = Some (n, s, S lo) ->
  only_figures s = true ->
  Re.Matched (Re.compile fl pattern) m ->
  is_figure (group_text m n) = true.
Proof.
  intros Hl Hs Hm.
  destruct (Matched_last_group _ _ _ _ _ Hm Hl) as (t & Hg & Hlen & Hf).
  unfold group_text. rewrite Hg. cbn [default]. unfold is_figure.
  apply andb_true_iff. split.
  - destruct t; simpl in *; [lia|done].
  - apply all_figure_of_list. eapply List.Forall_impl; [|exact Hf].
    intros c Hc. by apply (only_figures_sound s).
Qed.

(** The group of a match of a pattern that ends in a group of figures:
    the pattern is checked, then the set of its last group. *)
Ltac figure_group H :=
  eapply last_group_figure; [| |exact H];
  [vm_compute; reflexivity|vm_compute; reflexivity].

Lemma sy_first_sgpa_figure block :
  parser_sy.first_sgpa parser_sy.sgpa_labels block = "-" \/
  is_figure (parser_sy.first_sgpa parser_sy.sgpa_labels block) = true.
Proof.
  destruct (first_sgpa_cases block parser_sy.sgpa_labels)
    as [H|(label & m & Hl & Hm & ->)]; [by left|].
  right. unfold parser_sy.sgpa_m in Hm. apply search_Matched in Hm.
  destruct Hl as [<-|[<-|[<-|[<-|[]]]]]; figure_group Hm.
Qed.

Lemma gazette_sgpa_of_figures values :
  forall d : gmap string string,
    Forall (fun m => is_figure (group_text m 2) = true) values ->
    (forall k v, d !! k = Some v -> is_figure v = true) ->
    forall k v, parser.sgpa_of values d !! k = Some v -> is_figure v = true.
Proof.
  induction values as [|m values IH]; intros d Hv Hd k v; simpl; [apply Hd|].
  apply Forall_cons in Hv as [Hm Hv]. apply IH; [done|].
  intros k' v' Hk. apply lookup_insert_Some in Hk as [[_ <-]|[_ Hk]]; [done|].
  by apply (Hd k').
Qed.

Lemma gazette_block_sgpa block s :
  parser.parse_gazette_block block = Some s ->
  parser.sgpa s
  = match Re.search Re.DOTALL "SGPA\s*:\s*(.*?)(?:TOTAL|CGPA|$)" block with
    | Some sgpa_match =>
        parser.sgpa_of (Re.finditer Re.NOFLAG "\((\d)\)\s*([\d\.]+)"
                                    (group_text sgpa_match 1)) ∅
    | None => ∅
    end.
Proof.
  unfold parser.parse_gazette_block. intros H.
  destruct (parser.info_match block) as [m|]; [|discriminate].
  match type of H with
  | context [mbind _ ?c] => destruct c as [[full_name mother_name]|e]
  end; unfold mbind, res_bind in H; [|discriminate].
  destruct (parser.totals "TOTAL\s+(\d+)\s+\d+\s+(\d+)" block) as [tc tm].
  destruct (parser.totals "F\.Y\.TOTAL\s+(\d+)\s+\d+\s+(\d+)" block) as [fc fm].
  destruct (parser.cgpa_match block); injection H as <-; simpl; done.
Qed.

(** X24: the grade point averages of the records are the sentinel "-" or
    figures, that is digits and dots, at least one: the dashboard SGPA of
    the second-year and NEP records, and the CGPA and every value of the
    SGPA dictionary of the gazette records. *)
Theorem X24_averages_are_figures doc :
  (forall s, In s (Doc.student_data (parser_sy.main doc)) ->
             parser_sy.dashboard_sgpa s = "-" \/
             is_figure (parser_sy.dashboard_sgpa s) = true) /\
  (forall s, In s (Doc.student_data (parser_nep.main doc)) ->
             parser_nep.dashboard_sgpa s = "-" \/
             is_figure (parser_nep.dashboard_sgpa s) = true) /\
  (forall s, In s (Doc.student_data (parser.main doc)) ->
             (parser.cgpa s = "-" \/ is_figure (parser.cgpa s) = true) /\
             forall k v, parser.sgpa s !! k = Some v -> is_figure v = true).
Proof.
  split; [|split].
  - intros s Hin. apply sy_main_emits in Hin as (subject_map & block & md & md' & Hr).
    apply sy_block_round_emits in Hr as (_ & md0 & Hb).
    apply sy_parse_block_emits in Hb as (st & m & _ & _ & _ & _ & _ & -> & _).
    destruct (PyStr.contains "PASS" _); [apply sy_first_sgpa_figure|by left].
  - intros s Hin. apply nep_main_emits in Hin as (subject_map & block & c & s0 & Hb & ->).
    apply nep_block_emits in Hb as (pm & sm & _ & _ & _ & _ & Hd & _).
    cbn [parser_nep.with_course parser_nep.dashboard_sgpa]. rewrite Hd.
    unfold parser_nep.current_sgpa.
    destruct (parser_nep.s2_val block) as [m|] eqn:E2.
    + right. apply search_Matched in E2.
      figure_group E2.
    + destruct (parser_nep.s1_val block) as [m|] eqn:E1; [|by left].
      right. apply search_Matched in E1.
      figure_group E1.
  - intros s Hin. apply gazette_main_emits in Hin as (block & Hb).
    pose proof (gazette_block_sgpa _ _ Hb) as Hs.
    apply gazette_block_fields in Hb as (m & _ & _ & Hc & _). split.
    + rewrite Hc. destruct (parser.cgpa_match block) as [c|] eqn:Ec; [|by left].
      right. apply search_Matched in Ec.
      figure_group Ec.
    + rewrite Hs. destruct (Re.search Re.DOTALL _ block) as [sm|];
        [|intros k v Hk; by rewrite lookup_empty in Hk].
      apply gazette_sgpa_of_figures; [|intros k v Hk; by rewrite lookup_empty in Hk].
      apply List.Forall_forall. intros x Hx. apply finditer_Matched in Hx.
      figure_group Hx.
Qed.

Lemma X24_averages_are_figures_witness :
  (exists s, In s (Doc.student_data (parser_sy.main Sample.sy_doc)) /\
             is_figure (parser_sy.dashboard_sgpa s) = true) /\
  (exists s, In s (Doc.student_data (parser.main Sample.gazette_doc)) /\
             is_figure (parser.cgpa s) = true /\
             forall k v, parser.sgpa s !! k = Some v -> is_figure v = true).
Proof.
  split.
  - destruct (Doc.student_data (parser_sy.main Sample.sy_doc)) as [|s l] eqn:E;
      [vm_compute in E; discriminate|].
    exists s. split; [left; reflexivity|].
    destruct (proj1 (X24_averages_are_figures Sample.sy_doc) s) as [H|H];
      [rewrite E; left; reflexivity| |exact H].
    vm_compute in E. injection E as <- _. discriminate.
  - destruct (Doc.student_data (parser.main Sample.gazette_doc)) as [|s l] eqn:E;
      [vm_compute in E; discriminate|].
    exists s. split; [left; reflexivity|].
    destruct (proj2 (proj2 (X24_averages_are_figures Sample.gazette_doc)) s) as [[H|H] Hs];
      [rewrite E; left; reflexivity| |by split].
    vm_compute in E. injection E as <- _. discriminate.
Defined.

(** ** parser_sy: the metadata of the envelope *)

Lemma sy_block_round_metadata subject_map md block md' o :
  parser_sy.block_round subject_map md block = (md', o) ->
  Doc.pun_code md' = Doc.pun_code md /\
  Doc.course_name md' = Doc.course_name md /\
  (Doc.college_name md <> "Unknown" -> Doc.college_name md' = Doc.college_name md).
Proof.
  unfold parser_sy.block_round.
  destruct (negb (PyStr.contains "SEMESTER" block)); [by intros [= <- <-]|].
  set (md1 := if parser_sy.unknown md then _ else md).
  assert (H1 : Doc.pun_code md1 = Doc.pun_code md /\
               Doc.course_name md1 = Doc.course_name md /\
               (Doc.college_name md <> "Unknown" ->
                Doc.college_name md1 = Doc.college_name md)).
  { unfold md1, parser_sy.unknown.
    destruct (String.eqb_spec (Doc.college_name md) "Unknown") as [E|E]; [|done].
    by destruct (Re.search _ _ block). }
  destruct (parser_sy.parse_block subject_map md1 block); by intros [= <- <-].
Qed.

Lemma sy_blocks_loop_metadata subject_map blocks :
  forall md acc md' out,
    parser_sy.blocks_loop subject_map blocks md acc = (md', out) ->
    Doc.pun_code md' = Doc.pun_code md /\
    Doc.course_name md' = Doc.course_name md /\
    (Doc.college_name md <> "Unknown" -> Doc.college_name md' = Doc.college_name md).
Proof.
  induction blocks as [|b bs IH]; intros md acc md' out H; simpl in H.
  - by injection H as <- <-.
  - destruct (parser_sy.block_round subject_map md b) as [md1 o] eqn:Er.
    apply sy_block_round_metadata in Er as (Hp & Hc & Hn).
    assert (H' : exists acc', parser_sy.blocks_loop subject_map bs md1 acc' = (md', out)).
    { destruct o; by eexists. }
    destruct H' as [acc' H']. apply IH in H' as (Hp' & Hc' & Hn').
    rewrite Hp', Hc', Hp, Hc. split; [done|]. split; [done|].
    intros Hk. rewrite Hn', (Hn Hk); [done|]. by rewrite (Hn Hk).
Qed.

(** X25: the student blocks never change what the header of a
    second-year ledger gave: the PUN code and the course name of the
    envelope are those of the header, restored from the backup of the
    subject scan where the header had "Unknown", and so is the college
    name unless it is still "Unknown" after that; only then a block may
    fill it in. *)
Theorem X25_sy_header_is_kept pages metadata students :
  parser_sy.main (Doc.Readable pages) = Doc.Success metadata students ->
  let header :=
    parser_sy.restore_metadata (parser_sy.extract_header_metadata pages)
                               (snd (parser_sy.extract_subject_mapping pages)) in
  Doc.pun_code metadata = Doc.pun_code header /\
  Doc.course_name metadata = Doc.course_name header /\
  (Doc.college_name header <> "Unknown" ->
   Doc.college_name metadata = Doc.college_name header).
Proof.
  unfold parser_sy.main.
  destruct (parser_sy.extract_subject_mapping pages) as [subject_map backup_meta].
  destruct (parser_sy.blocks_loop _ _ _ _) as [md out] eqn:El. intros [= <- <-].
  cbn [snd]. by apply sy_blocks_loop_metadata in El.
Qed.

Lemma X25_sy_header_is_kept_witness :
  exists metadata students,
    parser_sy.main Sample.sy_doc = Doc.Success metadata students /\
    Doc.course_name metadata = "BACHELOR OF SCIENCE" /\
    Doc.college_name metadata = "LOKNETE COLLEGE".
Proof.
  destruct (parser_sy.main Sample.sy_doc) as [metadata students|e] eqn:E;
    [|vm_compute in E; discriminate].
  exists metadata, students. split; [done|].
  destruct (X25_sy_header_is_kept _ metadata students E) as (_ & Hc & Hn).
  split.
  - rewrite Hc. vm_compute. reflexivity.
  - rewrite Hn; [vm_compute; reflexivity|]. vm_compute. discriminate.
Defined.

(** * Properties of app.py *)

(** ** calculate_stats *)

Lemma append_length (a b : string) :
  String.length (a +:+ b) = String.length a + String.length b.
Proof.
  induction a as [|c a IH]; [done|].
  change (S (String.length (a +:+ b)) = S (String.length a + String.length b)).
  by rewrite IH.
Qed.

(** Two strings with equal tails of the same length are equal part by
    part. *)
Lemma append_inj (a b c d : string) :
  a +:+ b = c +:+ d -> String.length b = String.length d -> a = c /\ b = d.
Proof.
  revert c. induction a as [|x a IH]; intros c H Hl.
  - destruct c as [|y c]; [done|].
    exfalso. apply (f_equal String.length) in H.
    rewrite !append_length in H. simpl in H. lia.
  - destruct c as [|y c].
    + exfalso. apply (f_equal String.length) in H.
      rewrite !append_length in H. simpl in H. lia.
    + change (String x (a +:+ b) = String y (c +:+ d)) in H.
      injection H as -> H. destruct (IH _ H Hl) as [-> ->]. done.
Qed.

Lemma status_of_cases std : In (status_of std) ["pass"; "atkt"; "fail"].
Proof.
  unfold status_of. destruct (PyStr.contains "PASS" _); [simpl; tauto|].
  destruct (_ || _); simpl; tauto.
Qed.

Lemma status_length std : String.length (status_of std) = 4.
Proof.
  destruct (status_of_cases std) as [<-|[<-|[<-|[]]]]; reflexivity.
Qed.

(** The key of gender and status is never a status. *)
Lemma gender_key_status g std status :
  In status ["pass"; "atkt"; "fail"] -> g +:+ "_" +:+ status_of std <> status.
Proof.
  intros Hs E. apply (f_equal String.length) in E.
  rewrite !append_length, status_length in E.
  destruct Hs as [<-|[<-|[<-|[]]]]; simpl in E; lia.
Qed.

(** One round of the loop: one more under the keys of the student that
    the statistics have, nothing else. *)
Lemma count_student_spec std stats :
  is_Some (stats !! "pass") -> is_Some (stats !! "atkt") -> is_Some (stats !! "fail") ->
  exists stats',
    app.count_student std stats = Ok (stats', after_stats std) /\
    forall k, stats' !! k = (fun n => n + bumps std k) <$> (stats !! k).
Proof.
  intros Hp Ha Hf.
  assert (Hst : is_Some (stats !! status_of std)).
  { destruct (status_of_cases std) as [<-|[<-|[<-|[]]]]; done. }
  destruct Hst as [n Hn].
  set (key := app.lower (app.gender std) +:+ "_" +:+ status_of std).
  assert (Hne : key <> status_of std).
  { apply gender_key_status, status_of_cases. }
  set (stats1 := <[status_of std := S n]> stats).
  assert (H1 : exists stats',
             match stats1 !! key with
             | Some _ => stats2 ← app.bump key stats1; Ok (stats2, after_stats std)
             | None => Ok (stats1, after_stats std)
             end = Ok (stats', after_stats std) /\
             forall k, stats' !! k = (fun n => n + bumps std k) <$> (stats !! k)).
  { unfold app.bump. destruct (stats1 !! key) as [v|] eqn:Ek.
    - exists (<[key := S v]> stats1). split; [done|]. intros k. unfold bumps. fold key.
      unfold stats1 in Ek. rewrite lookup_insert_ne in Ek by done.
      destruct (decide (k = key)) as [->|Hk].
      + rewrite lookup_insert_eq, Ek. simpl.
        destruct (String.eqb_spec key (status_of std)); [done|].
        rewrite String.eqb_refl. f_equal. lia.
      + rewrite lookup_insert_ne by done. unfold stats1.
        destruct (decide (k = status_of std)) as [->|Hk'].
        * rewrite lookup_insert_eq, Hn. simpl. rewrite String.eqb_refl.
          destruct (String.eqb_spec (status_of std) key); [done|]. f_equal. lia.
        * rewrite lookup_insert_ne by done.
          destruct (String.eqb_spec k (status_of std)); [done|].
          destruct (String.eqb_spec k key); [done|].
          destruct (stats !! k); simpl; [f_equal; lia|done].
    - exists stats1. split; [done|]. intros k. unfold bumps. fold key.
      unfold stats1 in Ek. rewrite lookup_insert_ne in Ek by done.
      unfold stats1. destruct (decide (k = status_of std)) as [->|Hk'].
      + rewrite lookup_insert_eq, Hn. simpl. rewrite String.eqb_refl.
        destruct (String.eqb_spec (status_of std) key); [done|]. f_equal. lia.
      + rewrite lookup_insert_ne by done.
        destruct (String.eqb_spec k (status_of std)); [done|].
        destruct (String.eqb_spec k key) as [->|_].
        * by rewrite Ek.
        * destruct (stats !! k); simpl; [f_equal; lia|done]. }
  destruct H1 as (stats' & H1 & Hspec). exists stats'. split; [|exact Hspec].
  rewrite <- H1. unfold app.count_student, app.bump. fold key.
  unfold status_of, after_stats in *.
  destruct (PyStr.contains "PASS" (PyStr.upper (app.result std))).
  - rewrite Hn. reflexivity.
  - destruct (PyStr.contains "A.T.K.T" (PyStr.upper (app.result std))
              || PyStr.contains "ATKT" (PyStr.upper (app.result std)));
      rewrite Hn; reflexivity.
Qed.

Lemma bumps_of_cons std l k : bumps_of (std :: l) k = bumps std k + bumps_of l k.
Proof. reflexivity. Qed.

Lemma count_students_spec student_list :
  forall stats,
    is_Some (stats !! "pass") -> is_Some (stats !! "atkt") -> is_Some (stats !! "fail") ->
    exists stats',
      app.count_students student_list stats = Ok (stats', map after_stats student_list) /\
      forall k, stats' !! k = (fun n => n + bumps_of student_list k) <$> (stats !! k).
Proof.
  induction student_list as [|std l IH]; intros stats Hp Ha Hf.
  - exists stats. split; [done|]. intros k. unfold bumps_of. simpl.
    destruct (stats !! k); simpl; [f_equal; lia|done].
  - destruct (count_student_spec std stats Hp Ha Hf) as (stats1 & H1 & Hs1).
    destruct (IH stats1) as (stats2 & H2 & Hs2).
    { rewrite Hs1. by apply fmap_is_Some. }
    { rewrite Hs1. by apply fmap_is_Some. }
    { rewrite Hs1. by apply fmap_is_Some. }
    exists stats2. split.
    + cbn [app.count_students]. rewrite H1. cbn. rewrite H2. reflexivity.
    + intros k. rewrite Hs2, Hs1, bumps_of_cons.
      destruct (stats !! k); simpl; [f_equal; lia|done].
Qed.

Lemma bumps_of_status status l :
  In status ["pass"; "atkt"; "fail"] ->
  bumps_of l status = length (with_status status l).
Proof.
  intros Hs. unfold with_status.
  induction l as [|std l IH]; [done|]. rewrite bumps_of_cons, IH. cbn [List.filter].
  unfold bumps.
  destruct (String.eqb_spec status (app.lower (app.gender std) +:+ "_" +:+ status_of std))
    as [E|_]; [by apply eq_sym, gender_key_status in E|].
  rewrite (String.eqb_sym (status_of std) status).
  destruct (String.eqb status (status_of std)); simpl; lia.
Qed.

Lemma bumps_of_gender g status l :
  In status ["pass"; "atkt"; "fail"] ->
  bumps_of l (g +:+ "_" +:+ status) = length (with_gender g (with_status status l)).
Proof.
  intros Hs. unfold with_gender, with_status.
  induction l as [|std l IH]; [done|]. rewrite bumps_of_cons, IH. cbn [List.filter].
  unfold bumps.
  destruct (String.eqb_spec (g +:+ "_" +:+ status) (status_of std)) as [E|_].
  { exfalso. apply (f_equal String.length) in E.
    rewrite !append_length, status_length in E.
    destruct Hs as [<-|[<-|[<-|[]]]]; simpl in E; lia. }
  destruct (String.eqb_spec (g +:+ "_" +:+ status)
              (app.lower (app.gender std) +:+ "_" +:+ status_of std)) as [E|Hne].
  - rewrite <- !append_assoc in E. apply append_inj in E as [E ->].
    2:{ rewrite status_length. destruct Hs as [<-|[<-|[<-|[]]]]; reflexivity. }
    apply append_inj in E as [-> _]; [|done].
    rewrite String.eqb_refl. cbn [List.filter]. rewrite String.eqb_refl. simpl. lia.
  - destruct (String.eqb_spec (status_of std) status) as [Es|_]; [|simpl; lia].
    cbn [List.filter].
    destruct (String.eqb_spec (app.lower (app.gender std)) g) as [Eg|_]; [|simpl; lia].
    exfalso. apply Hne. by rewrite Es, Eg.
Qed.

Lemma bumps_of_total l : bumps_of l "total" = 0.
Proof.
  induction l as [|std l IH]; [done|]. rewrite bumps_of_cons, IH. unfold bumps.
  destruct (String.eqb_spec "total" (status_of std)) as [E|_].
  { destruct (status_of_cases std) as [E'|[E'|[E'|[]]]]; rewrite <- E' in E; discriminate. }
  destruct (String.eqb_spec "total"
              (app.lower (app.gender std) +:+ "_" +:+ status_of std)) as [E|_]; [|done].
  apply (append_inj "" "total") in E as [_ E].
  - destruct (status_of_cases std) as [E'|[E'|[E'|[]]]]; rewrite <- E' in E; discriminate.
  - rewrite append_length, status_length. reflexivity.
Qed.

Lemma with_status_total l :
  length (with_status "pass" l) + length (with_status "atkt" l)
  + length (with_status "fail" l) = length l.
Proof.
  unfold with_status. induction l as [|std l IH]; [done|]. cbn [List.filter].
  destruct (status_of_cases std) as [<-|[<-|[<-|[]]]]; simpl; lia.
Qed.

(** What [calculate_stats] returns: under every key of the dictionary,
    the number of times the loop added one. *)
Lemma calculate_stats_spec student_list :
  exists stats,
    app.calculate_stats student_list = Ok (stats, map after_stats student_list) /\
    forall k, stats !! k
              = (fun n => n + bumps_of student_list k)
                  <$> (app.initial_stats (length student_list) !! k).
Proof.
  apply count_students_spec; by eexists.
Qed.

(** X12: [calculate_stats] never raises, and its counts are those of the
    list: [total] is the number of students, [pass], [atkt] and [fail]
    count the students of each status and add up to [total], and
    [male_...] and [female_...] count, within a status, the students
    whose gender in lower case is "male" or "female"; a student of any
    other gender is in the status counts only.  The students are left
    with [dashboard_sgpa] set to "-" unless their result has PASS. *)
Theorem X12_stats_count student_list :
  exists stats,
    app.calculate_stats student_list = Ok (stats, map after_stats student_list) /\
    stats !! "total" = Some (length student_list) /\
    (forall status, In status ["pass"; "atkt"; "fail"] ->
       stats !! status = Some (length (with_status status student_list)) /\
       forall g, In g ["male"; "female"] ->
         stats !! (g +:+ "_" +:+ status)
         = Some (length (with_gender g (with_status status student_list)))) /\
    length (with_status "pass" student_list) + length (with_status "atkt" student_list)
    + length (with_status "fail" student_list) = length student_list.
Proof.
  destruct (calculate_stats_spec student_list) as (stats & H & Hs).
  exists stats. split; [exact H|]. split; [|split; [|apply with_status_total]].
  - rewrite Hs, bumps_of_total. change (app.initial_stats (length student_list) !! "total")
      with (Some (length student_list)). simpl. f_equal. lia.
  - intros status Hst. split.
    + rewrite Hs, bumps_of_status by done.
      destruct Hst as [<-|[<-|[<-|[]]]]; reflexivity.
    + intros g Hg. rewrite Hs, bumps_of_gender by done.
      destruct Hg as [<-|[<-|[]]]; destruct Hst as [<-|[<-|[<-|[]]]]; reflexivity.
Qed.

Lemma set_dashboard_result v std : app.result (app.set_dashboard_sgpa v std) = app.result std.
Proof. by destruct std. Qed.

Lemma set_dashboard_gender v std : app.gender (app.set_dashboard_sgpa v std) = app.gender std.
Proof. by destruct std. Qed.

Lemma set_dashboard_cgpa v std : app.cgpa (app.set_dashboard_sgpa v std) = app.cgpa std.
Proof. by destruct std. Qed.

Lemma set_dashboard_get v std :
  app.dashboard_sgpa (app.set_dashboard_sgpa v std) = Some v.
Proof. by destruct std. Qed.

Lemma set_dashboard_twice v w std :
  app.set_dashboard_sgpa v (app.set_dashboard_sgpa w std) = app.set_dashboard_sgpa v std.
Proof. by destruct std. Qed.

(** An assignment of the value the key has changes nothing. *)
Lemma set_dashboard_same v std :
  app.dashboard_sgpa std = Some v -> app.set_dashboard_sgpa v std = std.
Proof.
  destruct std as [s|s|s d]; simpl; intros [= <-]; [by destruct s|by destruct s|done].
Qed.

Lemma after_stats_result std : app.result (after_stats std) = app.result std.
Proof. unfold after_stats. destruct (PyStr.contains _ _); [done|apply set_dashboard_result]. Qed.

Lemma after_stats_gender std : app.gender (after_stats std) = app.gender std.
Proof. unfold after_stats. destruct (PyStr.contains _ _); [done|apply set_dashboard_gender]. Qed.

Lemma after_stats_status std : status_of (after_stats std) = status_of std.
Proof. unfold status_of. by rewrite after_stats_result. Qed.

Lemma after_stats_twice std : after_stats (after_stats std) = after_stats std.
Proof.
  unfold after_stats at 1. rewrite after_stats_result. unfold after_stats.
  destruct (PyStr.contains _ _); [done|apply set_dashboard_twice].
Qed.

Lemma after_stats_bumps l k : bumps_of (map after_stats l) k = bumps_of l k.
Proof.
  induction l as [|std l IH]; [done|]. cbn [map]. rewrite !bumps_of_cons, IH.
  unfold bumps. by rewrite after_stats_status, after_stats_gender.
Qed.

(** X13: a second call of [calculate_stats] on the students a call left
    gives the same statistics and leaves the students as they are: the
    assignments it makes to the students of the store do not add up. *)
Theorem X13_stats_again student_list :
  exists stats students,
    app.calculate_stats student_list = Ok (stats, students) /\
    app.calculate_stats students = Ok (stats, students).
Proof.
  destruct (calculate_stats_spec student_list) as (stats & H & Hs).
  destruct (calculate_stats_spec (map after_stats student_list)) as (stats2 & H2 & Hs2).
  exists stats, (map after_stats student_list). split; [exact H|].
  rewrite H2. f_equal. f_equal.
  - apply map_eq. intros k. rewrite Hs2, Hs, after_stats_bumps, length_map. done.
  - rewrite map_map. apply map_ext. intros std. apply after_stats_twice.
Qed.

(** ** analyze *)

(** The student as the loop of [analyze] leaves it, for a result with
    PASS. *)
Lemma dashboard_step_pass cy s :
  PyStr.contains "PASS" (PyStr.upper (app.result s)) = true ->
  app.dashboard_step cy s
  = if app.is_year cy "ty" then app.set_dashboard_sgpa (app.cgpa s) s
    else match app.dashboard_sgpa s with
         | Some _ => s
         | None => app.set_dashboard_sgpa (app.cgpa s) s
         end.
Proof.
  intros Hp. unfold app.dashboard_step. rewrite Hp. cbn [negb].
  destruct (app.is_year cy "ty"); [|done]. by rewrite set_dashboard_get.
Qed.

Lemma dashboard_step_result cy s : app.result (app.dashboard_step cy s) = app.result s.
Proof.
  destruct (PyStr.contains "PASS" (PyStr.upper (app.result s))) eqn:Ep.
  - rewrite dashboard_step_pass by done.
    destruct (app.is_year cy "ty"); [apply set_dashboard_result|].
    destruct (app.dashboard_sgpa s); [done|apply set_dashboard_result].
  - unfold app.dashboard_step. rewrite Ep. apply set_dashboard_result.
Qed.

(** [calculate_stats] changes no student that went through the loop of
    [analyze]. *)
Lemma after_dashboard_step cy s :
  after_stats (app.dashboard_step cy s) = app.dashboard_step cy s.
Proof.
  unfold after_stats. rewrite dashboard_step_result.
  destruct (PyStr.contains "PASS" (PyStr.upper (app.result s))) eqn:Ep; [done|].
  unfold app.dashboard_step. rewrite Ep. apply set_dashboard_twice.
Qed.

(** The store and the message of a request that reached a parser. *)
Lemma analyze_parsed req st file doc :
  app.ledger_pdf req = Some file ->
  String.eqb (app.filename file) "" = false ->
  app.endswith ".pdf" (app.lower (app.filename file)) = true ->
  app.save file = app.Saved doc ->
  app.analyze req st
  = match snd (app.run_parser (app.class_year req) doc) with
    | Doc.Success metadata [] =>
        (app.set_pattern (fst (app.run_parser (app.class_year req) doc)) st,
         app.Blocked)
    | Doc.Success metadata extracted_data =>
        let students := map (app.dashboard_step (app.class_year req)) extracted_data in
        (app.Store students (Some metadata) students (Doc.course_name metadata)
                   (app.year_of (app.class_year req))
                   (default ∅ (fst <$> match app.calculate_stats students with
                                        | Ok r => Some r
                                        | Raise _ => None
                                        end))
                   (fst (app.run_parser (app.class_year req) doc)),
         app.Processed (length extracted_data))
    | Doc.Failure error =>
        (app.set_pattern (fst (app.run_parser (app.class_year req) doc)) st,
         app.Rejected error)
    end.
Proof.
  intros Hf Hn He Hs. unfold app.analyze. rewrite Hf, Hn, He, Hs. cbn [negb].
  destruct (app.run_parser (app.class_year req) doc) as [pattern result].
  cbn [fst snd]. destruct result as [metadata [|s l]|error]; [done| |done].
  set (students := map (app.dashboard_step (app.class_year req)) (s :: l)).
  destruct (calculate_stats_spec students) as (stats & H & _).
  assert (Hsame : map after_stats students = students).
  { unfold students. rewrite map_map. apply map_ext. intros x. apply after_dashboard_step. }
  rewrite Hsame in H. rewrite H. cbn. unfold students. by rewrite length_map.
Qed.

Lemma run_parser_pattern cy doc :
  In (fst (app.run_parser cy doc)) ["NEP"; "SY_4SEM"; "2019"].
Proof.
  unfold app.run_parser.
  destruct (app.is_year cy "fy"); [simpl; tauto|].
  destruct (app.is_year cy "sy"); simpl; tauto.
Qed.

(** X14: what a request to [analyze] can do to the store.  It ends in
    the crash message only when saving the upload raises, and the store
    is then as it was: nothing after the save raises, the statistics in
    particular.  When it reports students processed, their number is not
    zero and both lists of the store hold that many students.  When the
    parser rejects the file, or the file holds no student, the store
    keeps the students, the statistics and the names of the earlier
    upload, but its pattern is already that of the failed one.  A request
    without a PDF file leaves the store as it is. *)
Theorem X14_analyze_outcome req st :
  match snd (app.analyze req st) with
  | app.Crashed cause =>
      (exists file why,
         app.ledger_pdf req = Some file /\ app.save file = app.SaveRaises why /\
         cause = app.SaveFailed why) /\
      fst (app.analyze req st) = st
  | app.Processed n =>
      0 < n /\ length (app.all_students (fst (app.analyze req st))) = n /\
      app.display_students (fst (app.analyze req st))
      = app.all_students (fst (app.analyze req st))
  | app.Blocked | app.Rejected _ =>
      exists pattern,
        In pattern ["NEP"; "SY_4SEM"; "2019"] /\
        fst (app.analyze req st) = app.set_pattern pattern st
  | app.NoFilePart | app.NoFileSelected | app.InvalidFormat =>
      fst (app.analyze req st) = st
  end.
Proof.
  destruct (app.ledger_pdf req) as [file|] eqn:Hf; [|unfold app.analyze; by rewrite Hf].
  destruct (String.eqb (app.filename file) "") eqn:Hn;
    [unfold app.analyze; by rewrite Hf, Hn|].
  destruct (app.endswith ".pdf" (app.lower (app.filename file))) eqn:He;
    [|unfold app.analyze; by rewrite Hf, Hn, He].
  destruct (app.save file) as [why|doc] eqn:Hs.
  { unfold app.analyze. rewrite Hf, Hn, He, Hs. cbn [negb fst snd].
    split; [|done]. by exists file, why. }
  rewrite (analyze_parsed _ _ _ _ Hf Hn He Hs).
  pose proof (run_parser_pattern (app.class_year req) doc) as Hp.
  destruct (snd (app.run_parser (app.class_year req) doc))
    as [metadata [|s l]|error]; cbn [fst snd].
  - by eexists.
  - cbn [app.all_students app.display_students]. rewrite length_map. simpl.
    repeat split; lia.
  - by eexists.
Qed.

(** A request whose upload cannot be saved ends in the crash message. *)
Lemma X14_analyze_outcome_witness :
  snd (app.analyze
         (app.Request (Some (app.Upload "ledger.pdf"
                                        (app.SaveRaises "No space left on device")))
                      (Some "sy")) app.PDF_DATA_STORE)
  = app.Crashed (app.SaveFailed "No space left on device") /\
  fst (app.analyze
         (app.Request (Some (app.Upload "ledger.pdf"
                                        (app.SaveRaises "No space left on device")))
                      (Some "sy")) app.PDF_DATA_STORE)
  = app.PDF_DATA_STORE.
Proof.
  pose proof (X14_analyze_outcome
                (app.Request (Some (app.Upload "ledger.pdf"
                                               (app.SaveRaises "No space left on device")))
                             (Some "sy")) app.PDF_DATA_STORE) as H.
  split; [reflexivity|]. exact (proj2 H).
Defined.

(** An upload that reached a parser: a file part with a name that ends
    in ".pdf", in any case of the letters. *)
Lemma envelope_of_data {S : Type} (f : S -> app.student) (e : Doc.envelope S) :
  Doc.student_data (app.envelope_of f e) = map f (Doc.student_data e).
Proof. by destruct e. Qed.

(** X15: an upload of a readable PDF without student records is never
    stored, in any of the three patterns.  For the class year "sy" the
    parser reports success with an empty list and [analyze] blocks the
    upload; for "fy" and for every other class year the parser itself
    rejects the file and [analyze] passes its message on. *)
Theorem X15_upload_without_students req st file pages :
  app.ledger_pdf req = Some file ->
  String.eqb (app.filename file) "" = false ->
  app.endswith ".pdf" (app.lower (app.filename file)) = true ->
  app.save file = app.Saved (Doc.Readable pages) ->
  Doc.student_data (snd (app.run_parser (app.class_year req) (Doc.Readable pages))) = [] ->
  app.analyze req st
  = if app.is_year (app.class_year req) "fy"
    then (app.set_pattern "NEP" st, app.Rejected "No valid NEP student records found.")
    else if app.is_year (app.class_year req) "sy"
    then (app.set_pattern "SY_4SEM" st, app.Blocked)
    else (app.set_pattern "2019" st,
          app.Rejected "No recognizable student records were identified in the PDF.").
Proof.
  intros Hf Hn He Hd Hempty. rewrite (analyze_parsed _ _ _ _ Hf Hn He Hd).
  unfold app.run_parser in *.
  destruct (app.is_year (app.class_year req) "fy"); cbn [fst snd] in *.
  - rewrite envelope_of_data in Hempty. apply map_eq_nil in Hempty.
    unfold parser_nep.main in *.
    destruct (flat_map _ pages) as [|s l]; [done|discriminate].
  - destruct (app.is_year (app.class_year req) "sy"); cbn [fst snd] in *.
    + rewrite envelope_of_data in Hempty. apply map_eq_nil in Hempty.
      unfold parser_sy.main in *.
      destruct (parser_sy.extract_subject_mapping pages) as [subject_map backup_meta].
      destruct (parser_sy.blocks_loop _ _ _ _) as [md out]. cbn in Hempty. subst out. done.
    + rewrite envelope_of_data in Hempty. apply map_eq_nil in Hempty.
      unfold parser.main in *.
      destruct (parser.analyze_gazette_pattern _) as [|s l]; [done|discriminate].
Qed.

Lemma X15_upload_without_students_witness :
  app.analyze (app.Request (Some (app.Upload "Ledger.PDF"
                                             (app.Saved (Doc.Readable [Sample.no_ledger]))))
                           (Some "sy")) app.PDF_DATA_STORE
  = (app.set_pattern "SY_4SEM" app.PDF_DATA_STORE, app.Blocked).
Proof.
  apply (X15_upload_without_students
           (app.Request (Some (app.Upload "Ledger.PDF"
                                          (app.Saved (Doc.Readable [Sample.no_ledger]))))
                        (Some "sy"))
           app.PDF_DATA_STORE
           (app.Upload "Ledger.PDF" (app.Saved (Doc.Readable [Sample.no_ledger])))
           [Sample.no_ledger]).
  - reflexivity.
  - reflexivity.
  - reflexivity.
  - reflexivity.
  - vm_compute. reflexivity.
Defined.

(** What [analyze] stores when it reports students processed. *)
Lemma analyze_processed req st n :
  snd (app.analyze req st) = app.Processed n ->
  exists file doc metadata extracted_data stats,
    app.ledger_pdf req = Some file /\ app.save file = app.Saved doc /\
    snd (app.run_parser (app.class_year req) doc)
    = Doc.Success metadata extracted_data /\
    app.calculate_stats (map (app.dashboard_step (app.class_year req)) extracted_data)
    = Ok (stats, map (app.dashboard_step (app.class_year req)) extracted_data) /\
    fst (app.analyze req st)
    = app.Store (map (app.dashboard_step (app.class_year req)) extracted_data)
                (Some metadata)
                (map (app.dashboard_step (app.class_year req)) extracted_data)
                (Doc.course_name metadata) (app.year_of (app.class_year req)) stats
                (fst (app.run_parser (app.class_year req) doc)).
Proof.
  destruct (app.ledger_pdf req) as [file|] eqn:Hf; [|unfold app.analyze; by rewrite Hf].
  destruct (String.eqb (app.filename file) "") eqn:Hn;
    [unfold app.analyze; by rewrite Hf, Hn|].
  destruct (app.endswith ".pdf" (app.lower (app.filename file))) eqn:He;
    [|unfold app.analyze; by rewrite Hf, Hn, He].
  destruct (app.save file) as [why|doc] eqn:Hs;
    [unfold app.analyze; by rewrite Hf, Hn, He, Hs|].
  rewrite (analyze_parsed _ _ _ _ Hf Hn He Hs).
  destruct (snd (app.run_parser (app.class_year req) doc))
    as [metadata [|s l]|error] eqn:Er; cbn [fst snd]; try discriminate.
  intros _. exists file, doc, metadata, (s :: l).
  set (students := map (app.dashboard_step (app.class_year req)) (s :: l)).
  destruct (calculate_stats_spec students) as (stats & H & _).
  assert (Hsame : map after_stats students = students).
  { unfold students. rewrite map_map. apply map_ext. intros x. apply after_dashboard_step. }
  rewrite Hsame in H. exists stats. rewrite H. done.
Qed.

(** A second-year record without PASS in its result has the sentinel
    "-" for its dashboard SGPA already. *)
Lemma sy_dashboard_without_pass doc s :
  In s (Doc.student_data (parser_sy.main doc)) ->
  PyStr.contains "PASS" (PyStr.upper (parser_sy.result s)) = false ->
  parser_sy.dashboard_sgpa s = "-".
Proof.
  intros Hin Hp. apply sy_main_emits in Hin as (subject_map & block & md & md' & Hr).
  apply sy_block_round_emits in Hr as (_ & md0 & Hb).
  apply sy_parse_block_emits in Hb as (st & m & _ & _ & _ & _ & _ & Hd & _).
  by rewrite Hd, Hp.
Qed.

(** X16: what [analyze] stores for each pattern.  A second-year record
    is stored as the parser made it.  A NEP record is stored as the
    parser made it when its result has PASS, and with the dashboard SGPA
    set to "-" when not (the parser itself keeps the figure of a failed
    student).  A gazette record gets the key [dashboard_sgpa]: its CGPA
    when the result has PASS, "-" when not.  In every pattern a stored
    student without PASS has the dashboard SGPA "-".  The records are
    those of the document the upload was saved as. *)
Theorem X16_stored_students req st n file s :
  snd (app.analyze req st) = app.Processed n ->
  app.ledger_pdf req = Some file ->
  In s (app.all_students (fst (app.analyze req st))) ->
  exists doc,
    app.save file = app.Saved doc /\
    (PyStr.contains "PASS" (PyStr.upper (app.result s)) = false ->
     app.dashboard_sgpa s = Some "-") /\
    match s with
    | app.OfSY s0 => In s0 (Doc.student_data (parser_sy.main doc))
    | app.OfNEP s0 =>
        exists p, In p (Doc.student_data (parser_nep.main doc)) /\
                  app.OfNEP s0
                  = if PyStr.contains "PASS" (PyStr.upper (parser_nep.result p))
                    then app.OfNEP p else app.set_dashboard_sgpa "-" (app.OfNEP p)
    | app.OfGazette g d =>
        In g (Doc.student_data (parser.main doc)) /\
        d = Some (if PyStr.contains "PASS" (PyStr.upper (parser.result g))
                  then parser.cgpa g else "-")
    end.
Proof.
  intros Hp Hf Hin.
  apply analyze_processed in Hp
    as (file' & doc & metadata & extracted & stats & Hf' & Hs & Hr & _ & Hst).
  rewrite Hf in Hf'. injection Hf' as <-. rewrite Hst in Hin. cbn [app.all_students] in Hin.
  apply in_map_iff in Hin as (s1 & <- & Hin1).
  assert (Hdata : In s1 (Doc.student_data
                           (snd (app.run_parser (app.class_year req) doc)))).
  { by rewrite Hr. }
  clear Hr Hst. exists doc. split; [exact Hs|]. split.
  { rewrite dashboard_step_result. intros Hn. unfold app.dashboard_step. rewrite Hn.
    apply set_dashboard_get. }
  unfold app.run_parser in Hdata.
  destruct (app.is_year (app.class_year req) "fy") eqn:Efy; cbn [snd] in Hdata.
  { rewrite envelope_of_data in Hdata. apply in_map_iff in Hdata as (p & <- & Hp).
    assert (Hty : app.is_year (app.class_year req) "ty" = false).
    { destruct (app.class_year req) as [c|]; [|done]. simpl in *.
      apply String.eqb_eq in Efy. by subst c. }
    unfold app.dashboard_step. rewrite Hty. cbn [app.result app.dashboard_sgpa].
    destruct (PyStr.contains "PASS" (PyStr.upper (parser_nep.result p))) eqn:Epass;
      cbn [negb app.set_dashboard_sgpa]; exists p; rewrite Epass; done. }
  destruct (app.is_year (app.class_year req) "sy") eqn:Esy; cbn [snd] in Hdata.
  { rewrite envelope_of_data in Hdata. apply in_map_iff in Hdata as (p & <- & Hp).
    assert (Hty : app.is_year (app.class_year req) "ty" = false).
    { destruct (app.class_year req) as [c|]; [|done]. simpl in *.
      apply String.eqb_eq in Esy. by subst c. }
    unfold app.dashboard_step. rewrite Hty. cbn [app.result app.dashboard_sgpa].
    destruct (PyStr.contains "PASS" (PyStr.upper (parser_sy.result p))) eqn:Epass;
      cbn [negb]; [done|].
    rewrite set_dashboard_same; [done|]. cbn [app.dashboard_sgpa].
    by rewrite (sy_dashboard_without_pass _ _ Hp Epass). }
  rewrite envelope_of_data in Hdata. apply in_map_iff in Hdata as (p & <- & Hp).
  unfold app.dashboard_step. cbn [app.result].
  destruct (PyStr.contains "PASS" (PyStr.upper (parser.result p))) eqn:Epass;
    cbn [negb app.set_dashboard_sgpa]; [|by rewrite Epass].
  destruct (app.is_year (app.class_year req) "ty"); cbn; by rewrite Epass.
Qed.

Lemma X16_stored_students_witness :
  exists s,
    In s (app.all_students
            (fst (app.analyze
                    (app.Request (Some (app.Upload "ledger.pdf" (app.Saved Sample.nep_doc)))
                                 (Some "fy")) app.PDF_DATA_STORE))) /\
    (PyStr.contains "PASS" (PyStr.upper (app.result s)) = false ->
     app.dashboard_sgpa s = Some "-") /\
    match s with
    | app.OfSY s0 => In s0 (Doc.student_data (parser_sy.main Sample.nep_doc))
    | app.OfNEP s0 =>
        exists p, In p (Doc.student_data (parser_nep.main Sample.nep_doc)) /\
                  app.OfNEP s0
                  = if PyStr.contains "PASS" (PyStr.upper (parser_nep.result p))
                    then app.OfNEP p else app.set_dashboard_sgpa "-" (app.OfNEP p)
    | app.OfGazette g d =>
        In g (Doc.student_data (parser.main Sample.nep_doc)) /\
        d = Some (if PyStr.contains "PASS" (PyStr.upper (parser.result g))
                  then parser.cgpa g else "-")
    end.
Proof.
  set (req := app.Request (Some (app.Upload "ledger.pdf" (app.Saved Sample.nep_doc)))
                          (Some "fy")).
  destruct (app.all_students (fst (app.analyze req app.PDF_DATA_STORE))) as [|s l] eqn:E;
    [vm_compute in E; discriminate|].
  exists s. split; [left; reflexivity|].
  destruct (X16_stored_students req app.PDF_DATA_STORE 1
              (app.Upload "ledger.pdf" (app.Saved Sample.nep_doc)) s)
    as (doc & Hd & H); [vm_compute; reflexivity|reflexivity|rewrite E; by left|].
  cbn [app.save] in Hd. injection Hd as <-. exact H.
Defined.

(** ** The statistics by gender *)

Lemma dashboard_step_gender cy s : app.gender (app.dashboard_step cy s) = app.gender s.
Proof.
  unfold app.dashboard_step. destruct (negb _); [apply set_dashboard_gender|].
  destruct (app.is_year cy "ty").
  - rewrite set_dashboard_get. apply set_dashboard_gender.
  - destruct (app.dashboard_sgpa s); [done|apply set_dashboard_gender].
Qed.

Lemma with_status_In status l s : In s (with_status status l) -> In s l.
Proof. unfold with_status. intros H. by apply filter_In in H as [H _]. Qed.

Lemma with_gender_none g l :
  (forall s, In s l -> app.lower (app.gender s) <> g) -> with_gender g l = [].
Proof.
  unfold with_gender. induction l as [|s l IH]; intros H; [done|]. cbn [List.filter].
  destruct (String.eqb_spec (app.lower (app.gender s)) g) as [E|_].
  - exfalso. apply (H s); [by left|done].
  - apply IH. intros s' Hs'. apply H. by right.
Qed.

Lemma with_gender_all g l :
  (forall s, In s l -> app.lower (app.gender s) = g) -> with_gender g l = l.
Proof.
  unfold with_gender. induction l as [|s l IH]; intros H; [done|]. cbn [List.filter].
  rewrite (H s) by (by left). rewrite String.eqb_refl. f_equal. apply IH.
  intros s' Hs'. apply H. by right.
Qed.

Lemma gender_split l :
  length (with_gender "male" l) + length (with_gender "female" l) <= length l /\
  ((forall s, In s l -> In (app.lower (app.gender s)) ["male"; "female"]) ->
   length (with_gender "male" l) + length (with_gender "female" l) = length l).
Proof.
  unfold with_gender. induction l as [|s l [IH1 IH2]]; [done|]. cbn [List.filter].
  split.
  - destruct (String.eqb_spec (app.lower (app.gender s)) "male") as [E|_].
    + rewrite E. simpl. lia.
    + destruct (String.eqb (app.lower (app.gender s)) "female"); simpl; lia.
  - intros H. specialize (IH2 (fun s' Hs' => H s' (or_intror Hs'))).
    destruct (H s (or_introl eq_refl)) as [E|[E|[]]]; rewrite <- E; simpl; lia.
Qed.

(** The genders of the students of an upload, by the parser that read
    it. *)
Lemma run_parser_genders cy doc s :
  In s (Doc.student_data (snd (app.run_parser cy doc))) ->
  if app.is_year cy "fy" then In (app.gender s) ["Male"; "Unknown"]
  else if app.is_year cy "sy" then app.gender s = "Male"
  else In (app.gender s) ["Male"; "Female"].
Proof.
  unfold app.run_parser.
  destruct (app.is_year cy "fy"); [|destruct (app.is_year cy "sy")]; cbn [snd];
    rewrite envelope_of_data; intros Hin; apply in_map_iff in Hin as (p & <- & Hp);
    cbn [app.gender].
  - apply nep_main_emits in Hp as (subject_map & block & c & s0 & Hb & ->).
    apply nep_block_fields in Hb as (Hg & _). cbn [parser_nep.with_course parser_nep.gender].
    rewrite Hg. destruct (_ || _); simpl; tauto.
  - done.
  - apply gazette_main_emits in Hp as (block & Hb).
    apply gazette_block_fields in Hb as (m & _ & Hg & _). rewrite Hg.
    destruct (String.eqb _ "M"); simpl; tauto.
Qed.

(** X17: the statistics [analyze] stores, by gender.  For each status
    the counts of male and female students are there and together do not
    exceed the count of the status.  After an upload for "fy" no student
    is counted as female (the NEP parser knows "Male" and "Unknown"
    only, and a student of unknown gender is in neither count); after an
    upload for "sy" every student is counted as male (the second-year
    records have no gender); after any other upload every student is in
    one of the two counts. *)
Theorem X17_gender_counts req st n status :
  snd (app.analyze req st) = app.Processed n ->
  In status ["pass"; "atkt"; "fail"] ->
  exists total male female,
    app.stats (fst (app.analyze req st)) !! status = Some total /\
    app.stats (fst (app.analyze req st)) !! ("male" +:+ "_" +:+ status) = Some male /\
    app.stats (fst (app.analyze req st)) !! ("female" +:+ "_" +:+ status) = Some female /\
    male + female <= total /\
    (if app.is_year (app.class_year req) "fy" then female = 0
     else if app.is_year (app.class_year req) "sy" then female = 0 /\ male = total
     else male + female = total).
Proof.
  intros Hp Hs.
  apply analyze_processed in Hp
    as (file & doc & metadata & extracted & stats & _ & _ & Hr & Hc & ->).
  cbn [app.stats].
  set (students := map (app.dashboard_step (app.class_year req)) extracted) in *.
  destruct (calculate_stats_spec students) as (stats' & Hc' & Hspec).
  rewrite Hc in Hc'. injection Hc' as <- _.
  exists (length (with_status status students)),
         (length (with_gender "male" (with_status status students))),
         (length (with_gender "female" (with_status status students))).
  assert (Hgen : forall s, In s (with_status status students) ->
            if app.is_year (app.class_year req) "fy"
            then In (app.gender s) ["Male"; "Unknown"]
            else if app.is_year (app.class_year req) "sy" then app.gender s = "Male"
            else In (app.gender s) ["Male"; "Female"]).
  { intros s Hin. apply with_status_In in Hin. unfold students in Hin.
    apply in_map_iff in Hin as (s1 & <- & Hin1). rewrite dashboard_step_gender.
    apply (run_parser_genders _ doc). by rewrite Hr. }
  split; [|split; [|split; [|split; [apply gender_split|]]]].
  - rewrite Hspec, bumps_of_status by done.
    destruct Hs as [<-|[<-|[<-|[]]]]; reflexivity.
  - rewrite Hspec, bumps_of_gender by done.
    destruct Hs as [<-|[<-|[<-|[]]]]; reflexivity.
  - rewrite Hspec, bumps_of_gender by done.
    destruct Hs as [<-|[<-|[<-|[]]]]; reflexivity.
  - destruct (app.is_year (app.class_year req) "fy").
    + rewrite with_gender_none; [done|]. intros s Hin E.
      destruct (Hgen s Hin) as [Hg|[Hg|[]]]; rewrite <- Hg in E; discriminate.
    + destruct (app.is_year (app.class_year req) "sy").
      * rewrite with_gender_none, with_gender_all; [done| |].
        -- intros s Hin. by rewrite (Hgen s Hin).
        -- intros s Hin E. rewrite (Hgen s Hin) in E. discriminate.
      * apply gender_split. intros s Hin.
        destruct (Hgen s Hin) as [Hg|[Hg|[]]]; rewrite <- Hg; simpl; tauto.
Qed.

Lemma X17_gender_counts_witness :
  exists total male female,
    app.stats (fst (app.analyze (app.Request (Some (app.Upload "ledger.pdf" (app.Saved Sample.sy_doc)))
                                             (Some "sy")) app.PDF_DATA_STORE))
      !! "pass" = Some total /\
    app.stats (fst (app.analyze (app.Request (Some (app.Upload "ledger.pdf" (app.Saved Sample.sy_doc)))
                                             (Some "sy")) app.PDF_DATA_STORE))
      !! ("male" +:+ "_" +:+ "pass") = Some male /\
    app.stats (fst (app.analyze (app.Request (Some (app.Upload "ledger.pdf" (app.Saved Sample.sy_doc)))
                                             (Some "sy")) app.PDF_DATA_STORE))
      !! ("female" +:+ "_" +:+ "pass") = Some female /\
    male + female <= total /\ female = 0 /\ male = total.
Proof.
  apply (X17_gender_counts
           (app.Request (Some (app.Upload "ledger.pdf" (app.Saved Sample.sy_doc))) (Some "sy"))
           app.PDF_DATA_STORE 1 "pass").
  - vm_compute. reflexivity.
  - simpl. tauto.
Defined.

(** ** reset_filter *)

(** X18: [reset_filter] right after an upload that [analyze] stored
    changes nothing in the store: the statistics it computes again are
    the stored ones, and the assignments [calculate_stats] makes to the
    stored students were made already. *)
Theorem X18_reset_after_analyze req st n :
  snd (app.analyze req st) = app.Processed n ->
  app.reset_filter (fst (app.analyze req st)) = Ok (fst (app.analyze req st)).
Proof.
  intros Hp.
  apply analyze_processed in Hp
    as (file & doc & metadata & extracted & stats & _ & _ & _ & Hc & ->).
  unfold app.reset_filter. cbn [app.all_students]. rewrite Hc. reflexivity.
Qed.

Lemma X18_reset_after_analyze_witness :
  app.reset_filter
    (fst (app.analyze (app.Request (Some (app.Upload "ledger.pdf" (app.Saved Sample.gazette_doc)))
                                   (Some "ty")) app.PDF_DATA_STORE))
  = Ok (fst (app.analyze (app.Request (Some (app.Upload "ledger.pdf" (app.Saved Sample.gazette_doc)))
                                      (Some "ty")) app.PDF_DATA_STORE)).
Proof.
  apply (X18_reset_after_analyze
           (app.Request (Some (app.Upload "ledger.pdf" (app.Saved Sample.gazette_doc))) (Some "ty"))
           app.PDF_DATA_STORE 1).
  vm_compute. reflexivity.
Defined.

(** ** get_unique_subjects *)

Lemma insert_sorted_In x l y : In y (app.insert_sorted x l) <-> y = x \/ In y l.
Proof.
  induction l as [|z l IH]; simpl; [intuition|].
  destruct (String.leb x z); simpl; [intuition|]. rewrite IH. intuition.
Qed.

Lemma insert_sorted_Sorted x l :
  Sorted (fun a b => String.leb a b = true) l ->
  Sorted (fun a b => String.leb a b = true) (app.insert_sorted x l).
Proof.
  induction l as [|z l IH]; intros Hs; simpl; [by repeat constructor|].
  destruct (String.leb x z) eqn:E; [constructor; [done|by constructor]|].
  apply Sorted_inv in Hs as [Hs Hh]. constructor; [by apply IH|].
  assert (Hzx : String.leb z x = true).
  { destruct (String.leb_total x z) as [H|H]; [congruence|done]. }
  destruct l as [|w l]; simpl; [by constructor|].
  destruct (String.leb x w); constructor; [done|].
  by apply HdRel_inv in Hh.
Qed.

Lemma insert_sorted_NoDup x l : ~ In x l -> List.NoDup l -> List.NoDup (app.insert_sorted x l).
Proof.
  induction l as [|z l IH]; intros Hx Hn; simpl; [by apply NoDup_cons_iff|].
  destruct (String.leb x z); [by apply NoDup_cons_iff|].
  apply NoDup_cons_iff in Hn as [Hz Hn]. apply NoDup_cons_iff. split.
  - rewrite insert_sorted_In. intros [->|H]; [apply Hx; by left|done].
  - apply IH; [|done]. intros H. apply Hx. by right.
Qed.

Lemma sorted_spec l :
  List.NoDup l ->
  Sorted (fun a b => String.leb a b = true) (app.sorted l) /\
  List.NoDup (app.sorted l) /\
  forall c, In c (app.sorted l) <-> In c l.
Proof.
  unfold app.sorted. induction l as [|x l IH]; intros Hn; simpl.
  - split; [constructor|]. split; [apply List.NoDup_nil|done].
  - apply NoDup_cons_iff in Hn as [Hx Hn]. destruct (IH Hn) as (Hs & Hd & Hin).
    split; [by apply insert_sorted_Sorted|]. split.
    + apply insert_sorted_NoDup; [by rewrite Hin|done].
    + intros c. rewrite insert_sorted_In, Hin. intuition.
Qed.

Lemma add_codes_spec codes :
  forall (subjects : gset string) c,
    c ∈ fold_left (fun subjects c => {[c]} ∪ subjects) codes subjects <->
    c ∈ subjects \/ In c codes.
Proof.
  induction codes as [|x codes IH]; intros subjects c; simpl; [intuition|].
  rewrite IH, elem_of_union, elem_of_singleton. intuition.
Qed.

Lemma all_codes_spec students :
  forall (subjects : gset string) c,
    c ∈ fold_left (fun subjects std =>
                     fold_left (fun subjects c => {[c]} ∪ subjects)
                               (app.subject_codes std) subjects)
                  students subjects <->
    c ∈ subjects \/ exists std, In std students /\ In c (app.subject_codes std).
Proof.
  induction students as [|std students IH]; intros subjects c; simpl.
  - split; [by left|]. intros [H|(std & [] & _)]. done.
  - rewrite IH, add_codes_spec. split.
    + intros [[H|H]|(std' & Hs & Hc)]; [by left| |].
      * right. exists std. split; [by left|done].
      * right. exists std'. split; [by right|done].
    + intros [H|(std' & [<-|Hs] & Hc)]; [by left; left|by left; right|].
      right. by exists std'.
Qed.

(** X21: [get_unique_subjects] returns the subject codes of the students
    of the store, each once, in ascending order: a code is in the list
    exactly when a row of some student has it. *)
Theorem X21_unique_subjects st :
  Sorted (fun a b => String.leb a b = true) (app.get_unique_subjects st) /\
  List.NoDup (app.get_unique_subjects st) /\
  forall c, In c (app.get_unique_subjects st) <->
            exists std, In std (app.all_students st) /\ In c (app.subject_codes std).
Proof.
  unfold app.get_unique_subjects.
  match goal with
  | |- context [elements ?X] => set (subjects := X)
  end.
  destruct (sorted_spec (elements subjects)) as (Hs & Hd & Hin); [apply NoDup_ListNoDup, NoDup_elements|].
  split; [done|]. split; [done|]. intros c.
  rewrite Hin, <- list_elem_of_In, elem_of_elements. unfold subjects.
  rewrite all_codes_spec. split; [intros [H|H]; [|done]|by right].
  by apply elem_of_empty in H.
Qed.
